(** * Hangout scheduler: the dashboard's availability calendar, friend
    links and hangout proposals

    A shallow embedding of [src/app/dashboard/page.tsx] and of the tables and
    row-level policies of [supabase-schema.sql].  The Supabase backend is a
    list of rows per table; every handler of the page is a computation in a
    small state monad over the backend and the React state it touches. *)

From Stdlib Require Import List String Ascii Arith Bool Lia ZArith.
From Stdlib Require Import DecimalString Permutation Sorted.
Import ListNotations.

Set Implicit Arguments.

(* ------------------------------------------------------------------ *)
(** ** JavaScript primitives *)

Module JS.

(** [n.toString()] for a non-negative integer. *)
Definition toString (n : nat) : string :=
  NilEmpty.string_of_uint (Nat.to_uint n).

Fixpoint replicate (n : nat) (c : ascii) : string :=
  match n with
  | O => EmptyString
  | S k => String c (replicate k c)
  end.

(** [s.padStart(target, fill)] with a one-character [fill]. *)
Definition padStart (target : nat) (fill : ascii) (s : string) : string :=
  (replicate (target - String.length s) fill ++ s)%string.

(** [<], [<=], [>] and [>=] on strings compare code units
    lexicographically. *)
Definition lt (a b : string) : bool := String.ltb a b.
Definition le (a b : string) : bool := String.leb a b.
Definition gt (a b : string) : bool := String.ltb b a.
Definition ge (a b : string) : bool := String.leb b a.

(** Truthiness of a value that is an object or [null]. *)
Definition truthy {A : Type} (o : option A) : bool :=
  match o with Some _ => true | None => false end.

End JS.

(** Identifiers are uuids in the source; they are only ever compared for
    equality, so they are natural numbers here. *)
Definition uuid := nat.

Record Profile := mkProfile {
  profile_id : uuid;
  first_name : string;
  username : string;
  profile_photo_url : option string
}.

(* ------------------------------------------------------------------ *)
(** ** The availability calendar *)

Module Calendar.

Record Cell := mkCell { dow : nat; hour : nat; colIdx : nat }.

Record Availability := mkAvailability {
  id : uuid;
  day_of_week : nat;
  start_time : string;
  end_time : string
}.

(** [HOURS = Array.from({ length: 14 }, (_, i) => i + 8)] *)
Definition HOURS : list nat := map (fun i => i + 8) (seq 0 14).

(** The template literal [`${h.toString().padStart(2, "0")}:00:00`]. *)
Definition hourString (h : nat) : string :=
  (JS.padStart 2 "0"%char (JS.toString h) ++ ":00:00")%string.

Definition covers (day hour : nat) (a : Availability) : bool :=
  (day_of_week a =? day)
  && JS.le (start_time a) (hourString hour)
  && JS.ge (end_time a) (hourString (hour + 1)).

Definition isCellAvailable (availability : list Availability)
    (day hour : nat) : option Availability :=
  find (covers day hour) availability.

(** The [for (let h = minH; h <= maxH; h++)] loop pushes one cell per
    hour of [minH .. maxH]. *)
Definition buildRange (start end_ : Cell) : list Cell :=
  if negb (colIdx start =? colIdx end_) then [start]
  else
    let minH := Nat.min (hour start) (hour end_) in
    let maxH := Nat.max (hour start) (hour end_) in
    map (fun h => mkCell (dow start) h (colIdx start))
        (seq minH (S maxH - minH)).

(** The cells the grid renders: one button per visible hour and day
    column, carrying [data-dow], [data-hour] and [data-col]. *)
Fixpoint indexed {A : Type} (i : nat) (l : list A) : list (nat * A) :=
  match l with
  | [] => []
  | x :: r => (i, x) :: indexed (S i) r
  end.

Definition gridCells (dayColumns visibleHours : list nat) : list Cell :=
  flat_map
    (fun hour =>
       map (fun ic => mkCell (snd ic) hour (fst ic)) (indexed 0 dayColumns))
    visibleHours.

(** *** Backend table and React state *)

Inductive Request :=
| Delete (i : uuid)
| Insert (user_id : uuid) (day : nat) (start_time end_time : string).

(** The [availability] table is not declared in [supabase-schema.sql]; a
    row is the owner and the columns the page reads and writes.  [faults]
    scripts the backend's answers: the head tells
    whether the next request fails (an exhausted script means success);
    [log] records the requests in the order they were sent. *)
Record World := mkWorld {
  table : list (uuid * Availability);
  next_id : uuid;
  faults : list bool;
  log : list Request;
  availability : list Availability;
  selectedCells : list Cell
}.

Definition M (A : Type) : Type := World -> A * World.

Definition ret {A : Type} (a : A) : M A := fun w => (a, w).

Definition bind {A B : Type} (m : M A) (k : A -> M B) : M B :=
  fun w => let (a, w') := m w in k a w'.

Declare Scope toggle_scope.
Delimit Scope toggle_scope with toggle.
Notation "x <- m ;; k" := (bind m (fun x => k))
  (at level 61, m at next level, right associativity) : toggle_scope.
Notation "m ;;; k" := (bind m (fun _ => k))
  (at level 61, right associativity) : toggle_scope.
Local Open Scope toggle_scope.

Fixpoint forEach {A : Type} (l : list A) (body : A -> M unit) : M unit :=
  match l with
  | [] => ret tt
  | x :: r => body x ;;; forEach r body
  end.

(** [.delete().eq("id", i)]: answers whether an error came back.  Deleting
    an id that is not stored is not an error. *)
Definition db_delete (i : uuid) : M bool :=
  fun w =>
    let failed := hd false (faults w) in
    (failed,
     mkWorld
       (if failed then table w
        else filter (fun r => negb (id (snd r) =? i)) (table w))
       (next_id w) (tl (faults w)) (log w ++ [Delete i])
       (availability w) (selectedCells w)).

(** [.insert({...}).select("id, day_of_week, start_time, end_time").single()]:
    answers [data], which is the stored row exactly when no error came
    back. *)
Definition db_insert (user_id : uuid) (day : nat) (s e : string)
    : M (option Availability) :=
  fun w =>
    let failed := hd false (faults w) in
    let data := mkAvailability (next_id w) day s e in
    (if failed then None else Some data,
     mkWorld
       (if failed then table w else table w ++ [(user_id, data)])
       (if failed then next_id w else S (next_id w))
       (tl (faults w)) (log w ++ [Insert user_id day s e])
       (availability w) (selectedCells w)).

Definition setAvailability
    (f : list Availability -> list Availability) : M unit :=
  fun w =>
    (tt, mkWorld (table w) (next_id w) (faults w) (log w)
                 (f (availability w)) (selectedCells w)).

Definition setSelectedCells (cells : list Cell) : M unit :=
  fun w =>
    (tt, mkWorld (table w) (next_id w) (faults w) (log w)
                 (availability w) cells).

Definition pushIf {A : Type} (data : option A) : list A :=
  match data with Some d => [d] | None => [] end.

(** One iteration of [for (const cell of selectedCells)].  [snapshot] is
    the [availability] array the handler's closure captured: the
    [setAvailability] updates of earlier iterations are not visible in
    it. *)
Definition toggleCell (profile : Profile) (snapshot : list Availability)
    (allAvailable : bool) (cell : Cell) : M unit :=
  let hourStr := hourString (hour cell) in
  let nextHourStr := hourString (hour cell + 1) in
  match isCellAvailable snapshot (dow cell) (hour cell) with
  | Some matchingAvail =>
      if allAvailable then
        error <- db_delete (id matchingAvail) ;;
        if (error : bool) then ret tt
        else
          rows1 <- (if JS.lt (start_time matchingAvail) hourStr
                    then data <- db_insert (profile_id profile) (dow cell)
                                   (start_time matchingAvail) hourStr ;;
                         ret (pushIf data)
                    else ret []) ;;
          rows2 <- (if JS.gt (end_time matchingAvail) nextHourStr
                    then data <- db_insert (profile_id profile) (dow cell)
                                   nextHourStr (end_time matchingAvail) ;;
                         ret (pushIf data)
                    else ret []) ;;
          setAvailability
            (fun prev =>
               filter (fun a => negb (id a =? id matchingAvail)) prev
               ++ (rows1 ++ rows2))
      else ret tt
  | None =>
      if allAvailable then ret tt
      else
        data <- db_insert (profile_id profile) (dow cell)
                  hourStr nextHourStr ;;
        match data with
        | Some d => setAvailability (fun prev => prev ++ [d])
        | None => ret tt
        end
  end.

Definition allAvailable (snapshot : list Availability)
    (cells : list Cell) : bool :=
  forallb (fun c => JS.truthy (isCellAvailable snapshot (dow c) (hour c)))
          cells.

Definition handleToggleAvailability (profile : option Profile) : M unit :=
  fun w =>
    match profile with
    | None => (tt, w)
    | Some p =>
        if List.length (selectedCells w) =? 0 then (tt, w)
        else
          let snapshot := availability w in
          let all := allAvailable snapshot (selectedCells w) in
          (forEach (selectedCells w) (toggleCell p snapshot all) ;;;
           setSelectedCells []) w
    end.

(** Releasing the pointer after a drag from [start] to [end_] leaves
    [buildRange start end_] selected. *)
Definition select (start end_ : Cell) : M unit :=
  setSelectedCells (buildRange start end_).

End Calendar.

(* ------------------------------------------------------------------ *)
(** ** Tables of [supabase-schema.sql] *)

Inductive Status := pending | accepted | declined.

Definition Status_eqb (a b : Status) : bool :=
  match a, b with
  | pending, pending | accepted, accepted | declined, declined => true
  | _, _ => false
  end.

(** Violations the database reports for a rejected statement. *)
Inductive PgError :=
| rls_violation
| not_null_violation
| check_violation
| foreign_key_violation
| unique_violation.

Module Users.
Record Row := mkRow {
  id : uuid;
  email : string;
  first_name : string;
  username : string;
  profile_photo_url : option string
}.
End Users.

Module Friends.
Record Row := mkRow {
  id : uuid;
  user_id : uuid;
  friend_user_id : uuid;
  status : Status
}.
End Friends.

Module Interests.
Record Row := mkRow { id : uuid; user_id : uuid; title : string }.
End Interests.

Module Hangouts.
(** [proposed_datetime] is an instant (milliseconds since the epoch): the
    database compares instants in [gte] and [order], and the page compares
    [new Date(...).getTime()].  [interest_id] is optional in the row type
    because the page sends [null] for it; the column's [not null] is
    checked on insert. *)
Record Row := mkRow {
  id : uuid;
  sender_user_id : uuid;
  recipient_user_id : uuid;
  interest_id : option uuid;
  proposed_datetime : Z;
  message : option string;
  location : option string;
  description : option string;
  status : Status
}.
End Hangouts.

Record Backend := mkBackend {
  users : list Users.Row;
  friends : list Friends.Row;
  interests : list Interests.Row;
  hangout_suggestions : list Hangouts.Row;
  fresh : uuid
}.

Module Pg.

Definition user_exists (b : Backend) (u : uuid) : bool :=
  existsb (fun r => Users.id r =? u) (users b).

Definition interest_exists (b : Backend) (i : uuid) : bool :=
  existsb (fun r => Interests.id r =? i) (interests b).

(** The key of [unique(user_id, friend_user_id)]. *)
Definition same_pair (u f : uuid) (r : Friends.Row) : bool :=
  (Friends.user_id r =? u) && (Friends.friend_user_id r =? f).

(** [insert into friends (user_id, friend_user_id, status)] by the session
    user [uid]: policy "Users can send friend requests"
    ([with check (user_id = auth.uid())]), the status check, the two
    foreign keys and [unique(user_id, friend_user_id)]. *)
Definition insert_friend (uid user_id friend_user_id : uuid) (st : Status)
    (b : Backend) : PgError + Backend :=
  if negb (user_id =? uid) then inl rls_violation
  else if negb (Status_eqb st pending || Status_eqb st accepted)
  then inl check_violation
  else if negb (user_exists b user_id && user_exists b friend_user_id)
  then inl foreign_key_violation
  else if existsb (same_pair user_id friend_user_id) (friends b)
  then inl unique_violation
  else inr (mkBackend (users b)
              (friends b
               ++ [Friends.mkRow (fresh b) user_id friend_user_id st])
              (interests b) (hangout_suggestions b) (S (fresh b))).

(** [insert into hangout_suggestions (...)] by the session user [uid]:
    policy "Users can create suggestions"
    ([with check (sender_user_id = auth.uid())]), [interest_id not null]
    and the three foreign keys. *)
Definition insert_hangout (uid sender recipient : uuid)
    (interest : option uuid) (datetime : Z)
    (loc msg : option string) (st : Status)
    (b : Backend) : PgError + Backend :=
  if negb (sender =? uid) then inl rls_violation
  else
    match interest with
    | None => inl not_null_violation
    | Some i =>
        if negb (user_exists b sender && user_exists b recipient
                 && interest_exists b i)
        then inl foreign_key_violation
        else inr (mkBackend (users b) (friends b) (interests b)
                    (hangout_suggestions b
                     ++ [Hangouts.mkRow (fresh b) sender recipient
                           (Some i) datetime msg loc None st])
                    (S (fresh b)))
    end.

(** [update hangout_suggestions set status = st where id = i] by the
    session user [uid]: policy "Recipients can update suggestions"
    ([using (recipient_user_id = auth.uid())]) hides every other row from
    the statement, which then updates the rows it still sees and reports
    no error. *)
Definition set_status (st : Status) (r : Hangouts.Row) : Hangouts.Row :=
  Hangouts.mkRow (Hangouts.id r) (Hangouts.sender_user_id r)
    (Hangouts.recipient_user_id r) (Hangouts.interest_id r)
    (Hangouts.proposed_datetime r) (Hangouts.message r)
    (Hangouts.location r) (Hangouts.description r) st.

Definition update_hangout_status (uid i : uuid) (st : Status)
    (b : Backend) : Backend :=
  mkBackend (users b) (friends b) (interests b)
    (map (fun r =>
            if (Hangouts.recipient_user_id r =? uid)
               && (Hangouts.id r =? i)
            then set_status st r else r)
         (hangout_suggestions b))
    (fresh b).

(** [select ... from hangout_suggestions] by the session user [uid]:
    policy "Users can view own suggestions". *)
Definition visible_hangouts (uid : uuid) (b : Backend)
    : list Hangouts.Row :=
  filter (fun r => (Hangouts.sender_user_id r =? uid)
                   || (Hangouts.recipient_user_id r =? uid))
         (hangout_suggestions b).

(** [.order("proposed_datetime", { ascending: true })], as a stable
    insertion sort. *)
Fixpoint insert_by {A : Type} (key : A -> Z) (x : A) (l : list A)
    : list A :=
  match l with
  | [] => [x]
  | y :: r => if (key x <=? key y)%Z then x :: y :: r
              else y :: insert_by key x r
  end.

Fixpoint sort_by {A : Type} (key : A -> Z) (l : list A) : list A :=
  match l with
  | [] => []
  | x :: r => insert_by key x (sort_by key r)
  end.

End Pg.

(* ------------------------------------------------------------------ *)
(** ** Friend and hangout handlers of the dashboard *)

Module Dashboard.

Record HangoutRequest := mkHangoutRequest {
  id : uuid;
  sender_user_id : uuid;
  first_name : string;
  username : string;
  proposed_datetime : Z;
  message : option string;
  location : option string;
  interest_title : option string
}.

Record Hang := mkHang {
  hang_id : uuid;
  hang_proposed_datetime : Z;
  hang_message : option string;
  hang_location : option string;
  hang_description : option string;
  interest : option string;
  friend : option (string * string)
}.

(** The schedule form.  An empty [friendId], [datetime] or [interestId]
    string is [None]; a filled [datetime] is the instant
    [new Date(datetime)] denotes. *)
Record HangoutForm := mkHangoutForm {
  friendId : option uuid;
  datetime : option Z;
  interestId : option uuid;
  form_location : string;
  form_message : string
}.

Definition emptyForm : HangoutForm :=
  mkHangoutForm None None None "" "".

Inductive ErrorText :=
| Literal (s : string)
| ErrorMessage (e : PgError).

(** [auth_uid] is the session's [auth.uid()]; [fetchData] stores the same
    id in [profile]. *)
Record App := mkApp {
  backend : Backend;
  auth_uid : uuid;
  profile : option Profile;
  friendErrors : list (uuid * ErrorText);
  addedFriends : list uuid;
  hangoutRequests : list HangoutRequest;
  hangoutForm : HangoutForm;
  scheduleError : option ErrorText;
  scheduling : bool;
  showScheduleHangout : bool
}.

Definition with_backend (b : Backend) (a : App) : App :=
  mkApp b (auth_uid a) (profile a) (friendErrors a) (addedFriends a)
    (hangoutRequests a) (hangoutForm a) (scheduleError a) (scheduling a)
    (showScheduleHangout a).

Definition with_friends (links : list Friends.Row) (a : App) : App :=
  with_backend
    (mkBackend (users (backend a)) links (interests (backend a))
       (hangout_suggestions (backend a)) (fresh (backend a)))
    a.

Definition removeKey {V : Type} (k : uuid) (m : list (uuid * V))
    : list (uuid * V) :=
  filter (fun kv => negb (fst kv =? k)) m.

Definition setAdd (k : uuid) (s : list uuid) : list uuid :=
  if existsb (Nat.eqb k) s then s else s ++ [k].

(** [s || null] *)
Definition orNull (s : string) : option string :=
  if String.eqb s "" then None else Some s.

Definition handleAddFriend (friendId : uuid) (a : App) : App :=
  match profile a with
  | None => a
  | Some p =>
      let errs := removeKey friendId (friendErrors a) in
      match Pg.insert_friend (auth_uid a) (profile_id p) friendId pending
              (backend a) with
      | inl error =>
          mkApp (backend a) (auth_uid a) (profile a)
            (errs ++ [(friendId, ErrorMessage error)]) (addedFriends a)
            (hangoutRequests a) (hangoutForm a) (scheduleError a)
            (scheduling a) (showScheduleHangout a)
      | inr b =>
          mkApp b (auth_uid a) (profile a) errs
            (setAdd friendId (addedFriends a))
            (hangoutRequests a) (hangoutForm a) (scheduleError a)
            (scheduling a) (showScheduleHangout a)
      end
  end.

Definition dropRequest (requestId : uuid) (l : list HangoutRequest)
    : list HangoutRequest :=
  filter (fun r => negb (id r =? requestId)) l.

Definition respondHangout (st : Status) (requestId : uuid) (a : App)
    : App :=
  mkApp (Pg.update_hangout_status (auth_uid a) requestId st (backend a))
    (auth_uid a) (profile a) (friendErrors a) (addedFriends a)
    (dropRequest requestId (hangoutRequests a)) (hangoutForm a)
    (scheduleError a) (scheduling a) (showScheduleHangout a).

Definition handleAcceptHangout : uuid -> App -> App :=
  respondHangout accepted.

Definition handleDeclineHangout : uuid -> App -> App :=
  respondHangout declined.

Definition handleScheduleHangout (a : App) : App :=
  match profile a with
  | None => a
  | Some p =>
      match friendId (hangoutForm a), datetime (hangoutForm a) with
      | Some friend_id, Some t =>
          match Pg.insert_hangout (auth_uid a) (profile_id p) friend_id
                  (interestId (hangoutForm a)) t
                  (orNull (form_location (hangoutForm a)))
                  (orNull (form_message (hangoutForm a)))
                  pending (backend a) with
          | inl error =>
              mkApp (backend a) (auth_uid a) (profile a) (friendErrors a)
                (addedFriends a) (hangoutRequests a) (hangoutForm a)
                (Some (ErrorMessage error)) false (showScheduleHangout a)
          | inr b =>
              mkApp b (auth_uid a) (profile a) (friendErrors a)
                (addedFriends a) (hangoutRequests a) emptyForm
                None false false
          end
      | _, _ =>
          mkApp (backend a) (auth_uid a) (profile a) (friendErrors a)
            (addedFriends a) (hangoutRequests a) (hangoutForm a)
            (Some (Literal "Please select a friend and date/time."))
            (scheduling a) (showScheduleHangout a)
      end
  end.

(** *** Upcoming accepted hangs of [fetchData] *)

(** A selected row keeps the columns of the query; [party] is the one
    user column it asked for: [inl recipient_user_id] for a sent row,
    [inr sender_user_id] for a received one. *)
Record HangRow := mkHangRow {
  row : Hangouts.Row;
  party : uuid + uuid
}.

Definition sentRow (r : Hangouts.Row) : HangRow :=
  mkHangRow r (inl (Hangouts.recipient_user_id r)).

Definition receivedRow (r : Hangouts.Row) : HangRow :=
  mkHangRow r (inr (Hangouts.sender_user_id r)).

Definition upcoming (now : Z) (r : Hangouts.Row) : bool :=
  Status_eqb (Hangouts.status r) accepted
  && (now <=? Hangouts.proposed_datetime r)%Z.

Definition sentHangs (uid : uuid) (now : Z) (b : Backend)
    : list HangRow :=
  map sentRow
    (Pg.sort_by Hangouts.proposed_datetime
       (filter (fun r => (Hangouts.sender_user_id r =? uid)
                         && upcoming now r)
               (Pg.visible_hangouts uid b))).

Definition receivedHangs (uid : uuid) (now : Z) (b : Backend)
    : list HangRow :=
  map receivedRow
    (Pg.sort_by Hangouts.proposed_datetime
       (filter (fun r => (Hangouts.recipient_user_id r =? uid)
                         && upcoming now r)
               (Pg.visible_hangouts uid b))).

Definition interestTitle (b : Backend) (i : uuid) : option string :=
  option_map Interests.title
    (find (fun r => Interests.id r =? i) (interests b)).

Definition userName (b : Backend) (u : uuid) : option (string * string) :=
  option_map (fun r => (Users.first_name r, Users.username r))
    (find (fun r => Users.id r =? u) (users b)).

Definition toHang (b : Backend) (h : HangRow) : Hang :=
  let r := row h in
  let friendId := match party h with inl u => u | inr u => u end in
  mkHang (Hangouts.id r) (Hangouts.proposed_datetime r)
    (Hangouts.message r) (Hangouts.location r) (Hangouts.description r)
    (match Hangouts.interest_id r with
     | Some i => interestTitle b i
     | None => None
     end)
    (userName b friendId).

(** [now1] and [now2] are the two [new Date()] readings of the two
    queries. *)
Definition fetchHangs (uid : uuid) (now1 now2 : Z) (b : Backend)
    : list Hang :=
  let allHangRows := sentHangs uid now1 b ++ receivedHangs uid now2 b in
  let hangList := map (toHang b) allHangRows in
  Pg.sort_by hang_proposed_datetime hangList.

End Dashboard.

(* ------------------------------------------------------------------ *)
(** ** What the toggle is expected to store *)

Module Expected.
Import Calendar.

Definition run (m : M unit) (w : World) : World := snd (m w).

Definition uncovered (snapshot : list Availability) (cells : list Cell)
    : list Cell :=
  filter (fun c =>
            negb (JS.truthy (isCellAvailable snapshot (dow c) (hour c))))
         cells.

Definition oneHour (i : uuid) (c : Cell) : Availability :=
  mkAvailability i (dow c) (hourString (hour c))
                 (hourString (hour c + 1)).

Definition oneHourRequest (user : uuid) (c : Cell) : Request :=
  Insert user (dow c) (hourString (hour c)) (hourString (hour c + 1)).

(** One-hour rows for [cells], with consecutive ids from [i] on. *)
Fixpoint oneHourRows (i : uuid) (cells : list Cell) : list Availability :=
  match cells with
  | [] => []
  | c :: r => oneHour i c :: oneHourRows (S i) r
  end.

(** What is left of the interval [s, e) of day [d] once hour [h] is cut
    out, with ids from [i] on. *)
Definition remainders (i : uuid) (d : nat) (s e : string) (h : nat)
    : list Availability :=
  let before :=
    if JS.lt s (hourString h)
    then [mkAvailability i d s (hourString h)] else [] in
  let after :=
    if JS.gt e (hourString (h + 1))
    then [mkAvailability (i + List.length before) d
                         (hourString (h + 1)) e]
    else [] in
  before ++ after.

Definition request_of (user : uuid) (a : Availability) : Request :=
  Insert user (day_of_week a) (start_time a) (end_time a).

Definition owned (user : uuid) (l : list Availability)
    : list (uuid * Availability) :=
  map (fun a => (user, a)) l.

Definition without (i : uuid) (l : list Availability)
    : list Availability :=
  filter (fun a => negb (id a =? i)) l.

(** Rows the add path really stores when the backend answers with the
    script [fl]. *)
Fixpoint inserted (i : uuid) (fl : list bool) (cells : list Cell)
    : list Availability :=
  match cells with
  | [] => []
  | c :: r =>
      if hd false fl then inserted i (tl fl) r
      else oneHour i c :: inserted (S i) (tl fl) r
  end.

(** Ids of the loaded intervals the cells resolve to, in selection
    order. *)
Definition matched (snapshot : list Availability) (cells : list Cell)
    : list uuid :=
  flat_map
    (fun c => match isCellAvailable snapshot (dow c) (hour c) with
              | Some m => [id m]
              | None => []
              end)
    cells.

Definition among (ids : list uuid) (i : uuid) : bool :=
  existsb (Nat.eqb i) ids.



Definition key (c : Cell) : nat * nat := (dow c, hour c).

(** Whether the hour strings of the hours below [n] compare like the
    hours themselves. *)
Definition hourStrings_ordered (n : nat) : bool :=
  forallb
    (fun a =>
       forallb
         (fun b =>
            Bool.eqb (JS.lt (hourString a) (hourString b)) (a <? b)
            && Bool.eqb (JS.le (hourString a) (hourString b)) (a <=? b))
         (seq 0 n))
    (seq 0 n).

End Expected.

(* ------------------------------------------------------------------ *)
(** ** Sample data *)

Module Scenario.
Import Calendar Expected.

Definition alice : Profile := mkProfile 7 "Alice" "alice" None.

(** A dashboard that has loaded [rows] for [alice], with [cells]
    selected and a backend that answers every request. *)
Definition loaded (rows : list Availability) (next : uuid)
    (cells : list Cell) : World :=
  mkWorld (owned (profile_id alice) rows) next [] [] rows cells.

(** Wednesday 17:00 to 20:00, the onboarding default, in the
    [HH:MM:SS] form the page compares and writes. *)
Definition wednesday_evening : Availability :=
  mkAvailability 1 3 "17:00:00" "20:00:00".

Definition wednesday (h : nat) : Cell := mkCell 3 h 0.

Definition toggle : World -> World :=
  run (handleToggleAvailability (Some alice)).

(** Drag over the hours [h1 .. h2] of Wednesday, then press the toggle
    button. *)
Definition dragToggle (h1 h2 : nat) (w : World) : World :=
  toggle (run (select (wednesday h1) (wednesday h2)) w).

(** Two registered users, one interest of the first, and a dashboard
    session of user [me]. *)
Definition ann : Users.Row := Users.mkRow 1 "ann@example.org" "Ann" "ann" None.
Definition bob : Users.Row := Users.mkRow 2 "bob@example.org" "Bob" "bob" None.
Definition chess : Interests.Row := Interests.mkRow 5 1 "chess".

Definition profileOf (u : Users.Row) : Profile :=
  mkProfile (Users.id u) (Users.first_name u) (Users.username u)
            (Users.profile_photo_url u).

Definition store (links : list Friends.Row)
    (proposals : list Hangouts.Row) : Backend :=
  mkBackend [ann; bob] links [chess] proposals 100.

Definition session (me : Users.Row) (b : Backend)
    (form : Dashboard.HangoutForm) : Dashboard.App :=
  Dashboard.mkApp b (Users.id me) (Some (profileOf me)) [] [] []
    form None false false.

Definition proposal (i : uuid) (from to : Users.Row) (at_ : Z)
    (st : Status) : Hangouts.Row :=
  Hangouts.mkRow i (Users.id from) (Users.id to) (Some 5) at_
    None None None st.

End Scenario.

(* ------------------------------------------------------------------ *)
(** ** Pointer events of the calendar grid *)

Module Pointer.

(** [isDragging] is the ref, [dragStart] and [selectedCells] are the
    React state of the page. *)
Record Drag := mkDrag {
  isDragging : bool;
  dragStart : option Calendar.Cell;
  selectedCells : list Calendar.Cell
}.

Definition initial : Drag := mkDrag false None [].

Definition handlePointerDown (day hour colIdx : nat) (d : Drag) : Drag :=
  let cell := Calendar.mkCell day hour colIdx in
  mkDrag true (Some cell) [cell].

(** [target] is the cell read from the [data-dow], [data-hour] and
    [data-col] attributes of the element under the pointer; [None] when
    there is no element or an attribute is missing. *)
Definition handleGridPointerMove (target : option Calendar.Cell) (d : Drag)
    : Drag :=
  if negb (isDragging d) then d
  else
    match dragStart d with
    | None => d
    | Some start =>
        match target with
        | None => d
        | Some end_ =>
            mkDrag (isDragging d) (dragStart d)
                   (Calendar.buildRange start end_)
        end
    end.

Definition handlePointerUp (d : Drag) : Drag :=
  mkDrag false None (selectedCells d).

(** The [pointerup] listener on [window]. *)
Definition onUp (d : Drag) : Drag :=
  if isDragging d then mkDrag false None (selectedCells d) else d.

Definition isCellSelected (d : Drag) (dow hour colIdx : nat) : bool :=
  existsb (fun c => (Calendar.dow c =? dow) && (Calendar.hour c =? hour)
                    && (Calendar.colIdx c =? colIdx))
          (selectedCells d).

Inductive Event :=
| Down (cell : Calendar.Cell)
| Move (target : option Calendar.Cell)
| Up
| WindowUp.

Definition step (d : Drag) (e : Event) : Drag :=
  match e with
  | Down c =>
      handlePointerDown (Calendar.dow c) (Calendar.hour c)
                        (Calendar.colIdx c) d
  | Move t => handleGridPointerMove t d
  | Up => handlePointerUp d
  | WindowUp => onUp d
  end.

Definition play (events : list Event) (d : Drag) : Drag :=
  fold_left step events d.

(** A run of [n] cells of day [day] in column [col], one per hour from
    [h] on. *)
Definition columnRun (day col h n : nat) : list Calendar.Cell :=
  map (fun x => Calendar.mkCell day x col) (seq h n).

End Pointer.

(* ------------------------------------------------------------------ *)
(** ** Labels of the calendar *)

Module Labels.
Import Calendar.

Definition DAYS : list string :=
  ["Sun"; "Mon"; "Tue"; "Wed"; "Thu"; "Fri"; "Sat"]%string.

Definition formatHour (h : nat) : string :=
  let half : string := if h <? 12 then "AM"%string else "PM"%string in
  if (h =? 0) || (h =? 12)
  then String.append (JS.toString (if h =? 0 then 12 else 12))
                     (String.append " " half)
  else String.append (JS.toString (if 12 <? h then h - 12 else h))
                     (String.append " " half).

(** The bar shown above the grid while cells are selected.  The range is
    kept in its three parts: day name, first hour, hour after the last. *)
Record ActionBar := mkActionBar {
  dayName : string;
  fromLabel : string;
  toLabel : string;
  hrs : option nat;
  statusLabel : string;
  buttonLabel : string
}.

Definition hourKey (c : Cell) : Z := Z.of_nat (hour c).

Definition actionBar (availability : list Availability)
    (selectedCells : list Cell) : option ActionBar :=
  if 0 <? List.length selectedCells then
    let sorted := Pg.sort_by hourKey selectedCells in
    match hd_error sorted, hd_error (rev sorted) with
    | Some first, Some last =>
        let allAvailable :=
          forallb (fun c => JS.truthy (isCellAvailable availability
                                         (dow c) (hour c))) sorted in
        let allUnavailable :=
          forallb (fun c => negb (JS.truthy (isCellAvailable availability
                                               (dow c) (hour c)))) sorted in
        Some (mkActionBar
                (nth (dow first) DAYS "undefined"%string)
                (formatHour (hour first))
                (formatHour (hour last + 1))
                (if 1 <? List.length sorted
                 then Some (List.length sorted) else None)
                (if allAvailable then "Available"%string
                 else if allUnavailable then "Unavailable"%string
                      else "Mixed"%string)
                (if allAvailable then "Remove availability"%string
                 else "Add availability"%string))
    | _, _ => None
    end
  else None.

(** The month view: [firstDay] empty cells, the dates [1 .. daysInMonth],
    then empty cells [while (cells.length % 7 !== 0)]. *)
Fixpoint padWeek (fuel : nat) (cells : list (option nat))
    : list (option nat) :=
  match fuel with
  | O => cells
  | S f =>
      if negb (List.length cells mod 7 =? 0)
      then padWeek f (cells ++ [None])
      else cells
  end.

Definition monthCells (firstDay daysInMonth : nat) : list (option nat) :=
  padWeek 7 (repeat None firstDay ++ map Some (seq 1 daysInMonth)).

End Labels.

(* ------------------------------------------------------------------ *)
(** ** Further statements and policies of [supabase-schema.sql] *)

Module PgMore.

Definition party_of (uid : uuid) (r : Friends.Row) : bool :=
  (Friends.user_id r =? uid) || (Friends.friend_user_id r =? uid).

(** [select ... from friends] by the session user [uid]: policy "Users can
    view own friendships". *)
Definition visible_links (uid : uuid) (b : Backend) : list Friends.Row :=
  filter (party_of uid) (friends b).

(** [.or(`user_id.eq.${me},friend_user_id.eq.${me}`).eq("status",
    "accepted")] *)
Definition accepted_links (uid me : uuid) (b : Backend)
    : list Friends.Row :=
  filter (fun r => party_of me r && Status_eqb (Friends.status r) accepted)
         (visible_links uid b).

(** [.eq("friend_user_id", me).eq("status", "pending")] *)
Definition pending_links_to (uid me : uuid) (b : Backend)
    : list Friends.Row :=
  filter (fun r => (Friends.friend_user_id r =? me)
                   && Status_eqb (Friends.status r) pending)
         (visible_links uid b).

(** [select ... from users ... .in("id", ids)]: policy "Users are viewable
    by authenticated users". *)
Definition users_in (ids : list uuid) (b : Backend) : list Users.Row :=
  filter (fun u => existsb (Nat.eqb (Users.id u)) ids) (users b).

(** [update friends set status = 'accepted' where id = i] by the session
    user [uid]: policy "Users can update friend requests sent to them"
    ([using (friend_user_id = auth.uid())]) hides every other row. *)
Definition accept_link (r : Friends.Row) : Friends.Row :=
  Friends.mkRow (Friends.id r) (Friends.user_id r)
                (Friends.friend_user_id r) accepted.

Definition accept_friend (uid i : uuid) (b : Backend) : Backend :=
  mkBackend (users b)
    (map (fun r => if (Friends.friend_user_id r =? uid)
                      && (Friends.id r =? i)
                   then accept_link r else r)
         (friends b))
    (interests b) (hangout_suggestions b) (fresh b).

(** [delete from friends where id = i] by the session user [uid]: policy
    "Users can delete own friendships". *)
Definition delete_friend (uid i : uuid) (b : Backend) : Backend :=
  mkBackend (users b)
    (filter (fun r => negb (party_of uid r && (Friends.id r =? i)))
            (friends b))
    (interests b) (hangout_suggestions b) (fresh b).

(** [.eq("recipient_user_id", me).eq("status", "pending")] on
    [hangout_suggestions]. *)
Definition pending_hangouts_to (uid me : uuid) (b : Backend)
    : list Hangouts.Row :=
  filter (fun r => (Hangouts.recipient_user_id r =? me)
                   && Status_eqb (Hangouts.status r) pending)
         (Pg.visible_hangouts uid b).

Definition refers_to (i : uuid) (r : Hangouts.Row) : bool :=
  match Hangouts.interest_id r with
  | Some j => j =? i
  | None => false
  end.

(** [delete from interests where id = i] by the session user [uid]: policy
    "Users can delete own interests" ([using (user_id = auth.uid())]).
    When the row goes, [interest_id ... references interests(id) on delete
    cascade] takes every proposal that refers to it along. *)
Definition delete_interest (uid i : uuid) (b : Backend) : Backend :=
  let doomed r := (Interests.user_id r =? uid) && (Interests.id r =? i) in
  if existsb doomed (interests b)
  then mkBackend (users b) (friends b)
         (filter (fun r => negb (doomed r)) (interests b))
         (filter (fun r => negb (refers_to i r)) (hangout_suggestions b))
         (fresh b)
  else b.

End PgMore.

(* ------------------------------------------------------------------ *)
(** ** Friends, notifications and interests of the dashboard *)

Module Panels.

Record Interest := mkInterest { interest_id : uuid; interest_title : string }.

Record FriendRequest := mkFriendRequest {
  request_id : uuid;
  request_user_id : uuid;
  request_first_name : string;
  request_username : string
}.

(** The [Friend] rows of the page have the fields of [Profile]. *)
Definition toFriend (u : Users.Row) : Profile :=
  mkProfile (Users.id u) (Users.first_name u) (Users.username u)
            (Users.profile_photo_url u).

(** [s || fallback] *)
Definition orElse (s fallback : string) : string :=
  if String.eqb s "" then fallback else s.

Definition otherParty (me : uuid) (r : Friends.Row) : uuid :=
  if Friends.user_id r =? me then Friends.friend_user_id r
  else Friends.user_id r.

(** The accepted friends [fetchData] and [handleAcceptFriend] load for
    [me] in the session of [uid]; [prev] is the [friends] state, which is
    only replaced when a link came back. *)
Definition fetchFriends (prev : list Profile) (uid me : uuid) (b : Backend)
    : list Profile :=
  let friendRows := PgMore.accepted_links uid me b in
  if 0 <? List.length friendRows then
    let friendIds := map (otherParty me) friendRows in
    map toFriend (PgMore.users_in friendIds b)
  else prev.

(** Incoming friend requests of [fetchData]. *)
Definition fetchFriendRequests (prev : list FriendRequest) (uid me : uuid)
    (b : Backend) : list FriendRequest :=
  let pendingFriendRows := PgMore.pending_links_to uid me b in
  if 0 <? List.length pendingFriendRows then
    let senderIds := map Friends.user_id pendingFriendRows in
    let senderProfiles := PgMore.users_in senderIds b in
    map (fun r =>
           let sender :=
             find (fun p => Users.id p =? Friends.user_id r)
                  senderProfiles in
           mkFriendRequest (Friends.id r) (Friends.user_id r)
             (match sender with
              | Some p => orElse (Users.first_name p) "Unknown"
              | None => "Unknown"%string
              end)
             (match sender with
              | Some p => orElse (Users.username p) "unknown"
              | None => "unknown"%string
              end))
        pendingFriendRows
  else prev.

(** [[...new Set(ids)]]: first occurrences, in order. *)
Fixpoint unique (ids seen : list uuid) : list uuid :=
  match ids with
  | [] => []
  | i :: r =>
      if existsb (Nat.eqb i) seen then unique r seen
      else i :: unique r (i :: seen)
  end.

(** Incoming hangout requests of [fetchData]. *)
Definition fetchHangoutRequests (prev : list Dashboard.HangoutRequest)
    (uid me : uuid) (b : Backend) : list Dashboard.HangoutRequest :=
  let pendingHangoutRows := PgMore.pending_hangouts_to uid me b in
  if 0 <? List.length pendingHangoutRows then
    let hangoutSenderIds :=
      unique (map Hangouts.sender_user_id pendingHangoutRows) [] in
    let hangoutSenderProfiles := PgMore.users_in hangoutSenderIds b in
    map (fun r =>
           let sender :=
             find (fun p => Users.id p =? Hangouts.sender_user_id r)
                  hangoutSenderProfiles in
           let interestTitle :=
             match Hangouts.interest_id r with
             | Some i =>
                 match Dashboard.interestTitle b i with
                 | Some t => Dashboard.orNull t
                 | None => None
                 end
             | None => None
             end in
           Dashboard.mkHangoutRequest (Hangouts.id r)
             (Hangouts.sender_user_id r)
             (match sender with
              | Some p => orElse (Users.first_name p) "Unknown"
              | None => "Unknown"%string
              end)
             (match sender with
              | Some p => orElse (Users.username p) "unknown"
              | None => "unknown"%string
              end)
             (Hangouts.proposed_datetime r) (Hangouts.message r)
             (Hangouts.location r) interestTitle)
        pendingHangoutRows
  else prev.

(** The part of the page's state the friend and interest handlers use. *)
Record View := mkView {
  backend : Backend;
  auth_uid : uuid;
  profile : option Profile;
  myFriends : list Profile;
  myInterests : list Interest;
  friendRequests : list FriendRequest
}.

Definition dropFriendRequest (requestId : uuid) (l : list FriendRequest)
    : list FriendRequest :=
  filter (fun r => negb (request_id r =? requestId)) l.

Definition handleAcceptFriend (requestId : uuid) (v : View) : View :=
  let b := PgMore.accept_friend (auth_uid v) requestId (backend v) in
  mkView b (auth_uid v) (profile v)
    (match profile v with
     | Some p => fetchFriends (myFriends v) (auth_uid v) (profile_id p) b
     | None => myFriends v
     end)
    (myInterests v)
    (dropFriendRequest requestId (friendRequests v)).

Definition handleDeclineFriend (requestId : uuid) (v : View) : View :=
  mkView (PgMore.delete_friend (auth_uid v) requestId (backend v))
    (auth_uid v) (profile v) (myFriends v) (myInterests v)
    (dropFriendRequest requestId (friendRequests v)).

Definition handleRemoveInterest (interestId : uuid) (v : View) : View :=
  match profile v with
  | None => v
  | Some _ =>
      mkView (PgMore.delete_interest (auth_uid v) interestId (backend v))
        (auth_uid v) (profile v) (myFriends v)
        (filter (fun i => negb (interest_id i =? interestId))
                (myInterests v))
        (friendRequests v)
  end.

(** The dashboard of user [me] right after [fetchData]. *)
Definition opened (me : Users.Row) (b : Backend) : View :=
  mkView b (Users.id me) (Some (toFriend me))
    (fetchFriends [] (Users.id me) (Users.id me) b)
    (map (fun r => mkInterest (Interests.id r) (Interests.title r))
         (filter (fun r => Interests.user_id r =? Users.id me)
                 (interests b)))
    (fetchFriendRequests [] (Users.id me) (Users.id me) b).

End Panels.

(* ------------------------------------------------------------------ *)
(** ** Relations between stored intervals *)

Module Intervals.
Import Calendar.

(** [a'] lies within [a]: same day, starts no earlier, ends no later, in
    the string order the page compares times with. *)
Definition within (a' a : Availability) : Prop :=
  day_of_week a' = day_of_week a
  /\ JS.le (start_time a) (start_time a') = true
  /\ JS.le (end_time a') (end_time a) = true.

(** The table and the loaded availability hold the same intervals. *)
Definition in_sync (w : World) : Prop :=
  availability w = map snd (table w).

(** What one iteration of the toggle loop may insert for cell [c] when it
    resolved to [m]. *)
Definition remainder_of (m : Availability) (c : Cell) (a : Availability)
    : Prop :=
  (JS.lt (start_time m) (hourString (hour c)) = true
   /\ day_of_week a = dow c
   /\ start_time a = start_time m
   /\ end_time a = hourString (hour c))
  \/ (JS.gt (end_time m) (hourString (hour c + 1)) = true
      /\ day_of_week a = dow c
      /\ start_time a = hourString (hour c + 1)
      /\ end_time a = end_time m).

End Intervals.

(* ------------------------------------------------------------------ *)
(** ** The availability step of onboarding *)

Module Onboarding.

Record DayAvailability := mkDay {
  enabled : bool;
  startTime : string;
  endTime : string
}.

Definition defaultAvailability : list DayAvailability :=
  [ mkDay true "09:00" "22:00";
    mkDay true "17:00" "20:00";
    mkDay true "17:00" "20:00";
    mkDay true "17:00" "20:00";
    mkDay true "17:00" "20:00";
    mkDay true "17:00" "20:00";
    mkDay true "09:00" "22:00" ].

(** [l.map((d, i) => f(d, i))] *)
Definition mapi {A B : Type} (f : A -> nat -> B) (l : list A) : list B :=
  map (fun ix => f (snd ix) (fst ix)) (Calendar.indexed 0 l).

Definition toggleDay (index : nat) (prev : list DayAvailability)
    : list DayAvailability :=
  mapi (fun d i =>
          if i =? index
          then mkDay (negb (enabled d)) (startTime d) (endTime d)
          else d)
       prev.

Inductive Field := startTimeField | endTimeField.

Definition updateTime (index : nat) (field : Field) (value : string)
    (prev : list DayAvailability) : list DayAvailability :=
  mapi (fun d i =>
          if i =? index
          then match field with
               | startTimeField => mkDay (enabled d) value (endTime d)
               | endTimeField => mkDay (enabled d) (startTime d) value
               end
          else d)
       prev.

(** A row as the page sends it to [availability]. *)
Record Row := mkRow {
  user_id : uuid;
  day_of_week : nat;
  start_time : string;
  end_time : string
}.

Record Wizard := mkWizard {
  step : nat;
  userId : uuid;
  availability : list DayAvailability;
  submitting : bool;
  error : option string;
  stored : list Row
}.

(** [insertError] is the backend's answer to the one insert of all rows:
    the message of the error, or [None] when the rows were stored. *)
Definition handleAvailabilitySubmit (insertError : option string)
    (w : Wizard) : Wizard :=
  let enabledDays :=
    filter (fun d => enabled (snd d))
           (Calendar.indexed 0 (availability w)) in
  if List.length enabledDays =? 0
  then mkWizard 4 (userId w) (availability w) (submitting w) (error w)
                (stored w)
  else
    let rows :=
      map (fun d => mkRow (userId w) (fst d) (startTime (snd d))
                          (endTime (snd d)))
          enabledDays in
    match insertError with
    | Some message =>
        mkWizard (step w) (userId w) (availability w) false (Some message)
                 (stored w)
    | None =>
        mkWizard 4 (userId w) (availability w) false None
                 (stored w ++ rows)
    end.

Inductive Edit :=
| ToggleDay (index : nat)
| UpdateTime (index : nat) (field : Field) (value : string).

Definition edit (days : list DayAvailability) (e : Edit)
    : list DayAvailability :=
  match e with
  | ToggleDay i => toggleDay i days
  | UpdateTime i f v => updateTime i f v days
  end.

(** The wizard at step 3 after the user made [edits] to the defaults. *)
Definition atStep3 (user : uuid) (edits : list Edit) : Wizard :=
  mkWizard 3 user (fold_left edit edits defaultAvailability) false None [].

End Onboarding.

(* ------------------------------------------------------------------ *)
(** ** Drag selection *)

Module RangeFacts.
Import Calendar.

Lemma indexed_In {A : Type} (l : list A) :
  forall k i x, In (i, x) (indexed k l) ->
                k <= i /\ nth_error l (i - k) = Some x.
Proof.
  induction l as [|y l IH]; intros k i x H; simpl in H.
  - contradiction.
  - destruct H as [H|H].
    + inversion H; subst. rewrite Nat.sub_diag. split; [lia|reflexivity].
    + apply IH in H. destruct H as [Hle Hn]. split; [lia|].
      replace (i - k) with (S (i - S k)) by lia. exact Hn.
Qed.

Lemma gridCells_column (dayColumns visibleHours : list nat) (c : Cell) :
  In c (gridCells dayColumns visibleHours) ->
  nth_error dayColumns (colIdx c) = Some (dow c).
Proof.
  unfold gridCells. rewrite in_flat_map. intros [h [_ H]].
  rewrite in_map_iff in H. destruct H as [[i d] [Hc Hin]].
  subst c; simpl. apply indexed_In in Hin.
  rewrite Nat.sub_0_r in Hin. tauto.
Qed.

Lemma buildRange_swap (s e : Cell) :
  colIdx s = colIdx e -> dow s = dow e -> buildRange e s = buildRange s e.
Proof.
  intros Hc Hd. unfold buildRange.
  rewrite Hc, Hd, Nat.eqb_refl. simpl.
  rewrite (Nat.min_comm (hour e)), (Nat.max_comm (hour e)). reflexivity.
Qed.

(** C9: for two cells of the rendered grid in the same column,
    [buildRange] is the run of cells for every hour from the smaller to
    the larger endpoint hour, each with the start cell's day and column,
    and exchanging the endpoints gives the same list; for two cells in
    different columns it is the start cell alone. *)
Theorem buildRange_grid (dayColumns visibleHours : list nat) (s e : Cell) :
  In s (gridCells dayColumns visibleHours) ->
  In e (gridCells dayColumns visibleHours) ->
  (colIdx s = colIdx e ->
     buildRange s e
     = map (fun h => mkCell (dow s) h (colIdx s))
           (seq (Nat.min (hour s) (hour e))
                (Nat.max (hour s) (hour e) - Nat.min (hour s) (hour e) + 1))
     /\ (forall h, Nat.min (hour s) (hour e) <= h <= Nat.max (hour s) (hour e)
                   <-> In h (map hour (buildRange s e)))
     /\ buildRange e s = buildRange s e)
  /\ (colIdx s <> colIdx e -> buildRange s e = [s]).
Proof.
  intros Hs He. split.
  - intros Hc.
    assert (Hd : dow s = dow e).
    { apply gridCells_column in Hs, He. rewrite Hc in Hs. congruence. }
    assert (Heq : buildRange s e
                  = map (fun h => mkCell (dow s) h (colIdx s))
                      (seq (Nat.min (hour s) (hour e))
                         (Nat.max (hour s) (hour e)
                          - Nat.min (hour s) (hour e) + 1))).
    { unfold buildRange. rewrite Hc, Nat.eqb_refl. simpl negb. cbv iota.
      f_equal. f_equal. lia. }
    split; [exact Heq|]. split.
    + intros h. rewrite Heq, map_map. simpl. rewrite map_id, in_seq. lia.
    + apply buildRange_swap; assumption.
  - intros Hc. unfold buildRange.
    apply Nat.eqb_neq in Hc. rewrite Hc. reflexivity.
Qed.

Lemma buildRange_grid_witness :
  let cols := [3; 4; 5] in
  let s := mkCell 4 19 1 in
  let e := mkCell 4 17 1 in
  buildRange s e = [mkCell 4 17 1; mkCell 4 18 1; mkCell 4 19 1]
  /\ buildRange e s = buildRange s e.
Proof.
  intros cols s e.
  assert (Hs : In s (gridCells cols HOURS)) by (vm_compute; tauto).
  assert (He : In e (gridCells cols HOURS)) by (vm_compute; tauto).
  destruct (buildRange_grid cols HOURS s e Hs He) as [Hsame _].
  destruct (Hsame eq_refl) as [Heq [_ Hswap]].
  split; [rewrite Heq; reflexivity | exact Hswap].
Defined.

End RangeFacts.

(* ------------------------------------------------------------------ *)
(** ** The availability toggle *)

Module ToggleFacts.
Import Calendar Expected.
Local Open Scope toggle_scope.

(** *** Hour strings order like hours, below one hundred *)

Lemma hourStrings_ordered_100 : hourStrings_ordered 100 = true.
Proof. vm_compute. reflexivity. Qed.

Lemma hourString_cmp (a b : nat) :
  a < 100 -> b < 100 ->
  JS.lt (hourString a) (hourString b) = (a <? b)
  /\ JS.le (hourString a) (hourString b) = (a <=? b).
Proof.
  intros Ha Hb. pose proof hourStrings_ordered_100 as H.
  unfold hourStrings_ordered in H. rewrite forallb_forall in H.
  specialize (H a). rewrite in_seq in H.
  assert (Ha' : 0 <= a < 0 + 100) by lia. specialize (H Ha').
  rewrite forallb_forall in H. specialize (H b). rewrite in_seq in H.
  assert (Hb' : 0 <= b < 0 + 100) by lia. specialize (H Hb').
  apply andb_true_iff in H. destruct H as [H1 H2].
  apply Bool.eqb_prop in H1, H2. split; assumption.
Qed.

Lemma hourString_lt (a b : nat) :
  a < 100 -> b < 100 -> JS.lt (hourString a) (hourString b) = (a <? b).
Proof. intros Ha Hb. apply hourString_cmp; assumption. Qed.

Lemma hourString_le (a b : nat) :
  a < 100 -> b < 100 -> JS.le (hourString a) (hourString b) = (a <=? b).
Proof. intros Ha Hb. apply hourString_cmp; assumption. Qed.

(** *** The loop *)

Lemma skipn_tl {A : Type} (n : nat) (l : list A) :
  skipn n (tl l) = skipn (S n) l.
Proof. destruct l; simpl; [apply skipn_nil | reflexivity]. Qed.

Lemma forEach_app {A : Type} (l1 l2 : list A) (body : A -> M unit) w :
  forEach (l1 ++ l2) body w
  = forEach l2 body (snd (forEach l1 body w)).
Proof.
  revert w. induction l1 as [|x l1 IH]; intros w; simpl.
  - reflexivity.
  - unfold bind. destruct (body x w) as [u w1]. apply IH.
Qed.

Lemma handle_cons (p : Profile) (w : World) (c : Cell) (r : list Cell) :
  selectedCells w = c :: r ->
  handleToggleAvailability (Some p) w
  = (forEach (c :: r)
       (toggleCell p (availability w)
          (allAvailable (availability w) (c :: r))) ;;;
     setSelectedCells []) w.
Proof.
  intros H. unfold handleToggleAvailability. rewrite H. reflexivity.
Qed.

(** *** Add path *)

Lemma inserted_no_faults (i : uuid) (cells : list Cell) :
  inserted i [] cells = oneHourRows i cells.
Proof.
  revert i. induction cells as [|c r IH]; intros i; simpl.
  - reflexivity.
  - rewrite IH. reflexivity.
Qed.

Lemma add_loop (p : Profile) (snapshot : list Availability)
    (cells : list Cell) :
  forall w,
    forEach cells (toggleCell p snapshot false) w
    = (tt,
       let new := inserted (next_id w) (faults w)
                    (uncovered snapshot cells) in
       mkWorld (table w ++ owned (profile_id p) new)
               (next_id w + List.length new)
               (skipn (List.length (uncovered snapshot cells)) (faults w))
               (log w ++ map (oneHourRequest (profile_id p))
                             (uncovered snapshot cells))
               (availability w ++ new)
               (selectedCells w)).
Proof.
  induction cells as [|c r IH]; intros w.
  - simpl. unfold ret. destruct w; simpl.
    rewrite !app_nil_r, Nat.add_0_r. reflexivity.
  - simpl forEach. unfold bind. unfold toggleCell at 1.
    unfold uncovered. simpl filter. fold (uncovered snapshot r).
    destruct (isCellAvailable snapshot (dow c) (hour c)) as [m|] eqn:E;
      simpl JS.truthy; simpl negb; cbv iota.
    + unfold ret. apply IH.
    + unfold bind, db_insert.
      destruct (hd false (faults w)) eqn:F.
      * unfold ret. rewrite IH. cbv zeta.
        cbn [table next_id faults log availability selectedCells
             inserted List.length map].
        rewrite F, skipn_tl, <- app_assoc. reflexivity.
      * unfold setAvailability. rewrite IH. cbv zeta.
        cbn [table next_id faults log availability selectedCells
             inserted List.length map owned].
        rewrite F, skipn_tl, <- !app_assoc.
        cbn [List.length map app]. rewrite (Nat.add_succ_r (next_id w)).
        reflexivity.
Qed.

Lemma available_iff (snapshot : list Availability) (d h : nat) :
  JS.truthy (isCellAvailable snapshot d h) = true
  <-> exists a, In a snapshot /\ covers d h a = true.
Proof.
  unfold isCellAvailable. split.
  - destruct (find (covers d h) snapshot) as [m|] eqn:E; simpl.
    + intros _. exists m. apply find_some in E. exact E.
    + discriminate.
  - intros [a [Hin Hc]].
    destruct (find (covers d h) snapshot) as [m|] eqn:E; simpl.
    + reflexivity.
    + pose proof (find_none _ _ E a Hin) as Hn. congruence.
Qed.

Lemma allAvailable_iff (snapshot : list Availability)
    (cells : list Cell) :
  allAvailable snapshot cells = true
  <-> forall c, In c cells ->
        exists a, In a snapshot /\ covers (dow c) (hour c) a = true.
Proof.
  unfold allAvailable. rewrite forallb_forall. split.
  - intros H c Hc. apply available_iff, H, Hc.
  - intros H c Hc. apply available_iff, H, Hc.
Qed.

Lemma toggleCell_remove (p : Profile) (snapshot : list Availability)
    (c : Cell) (m : Availability) (w : World) :
  isCellAvailable snapshot (dow c) (hour c) = Some m ->
  faults w = [] ->
  toggleCell p snapshot true c w
  = (tt,
     let rems := remainders (next_id w) (dow c) (start_time m)
                   (end_time m) (hour c) in
     mkWorld
       (filter (fun r => negb (id (snd r) =? id m)) (table w)
        ++ owned (profile_id p) rems)
       (next_id w + List.length rems) []
       (log w ++ Delete (id m) :: map (request_of (profile_id p)) rems)
       (without (id m) (availability w) ++ rems)
       (selectedCells w)).
Proof.
  intros Hm Hf. unfold toggleCell. rewrite Hm.
  unfold bind, db_delete, db_insert, setAvailability, ret, remainders.
  rewrite Hf. cbn [hd tl]. cbv iota.
  destruct (JS.lt (start_time m) (hourString (hour c)));
    destruct (JS.gt (end_time m) (hourString (hour c + 1)));
    cbn [hd tl table next_id faults log availability selectedCells
         pushIf app List.length map owned request_of
         day_of_week start_time end_time];
    rewrite <- ?app_assoc; cbn [app];
    rewrite ?Nat.add_0_r, ?(Nat.add_1_r (next_id w)),
            ?(Nat.add_succ_r (next_id w)), ?Nat.add_0_r, ?app_nil_r;
    reflexivity.
Qed.

(** *** Requests of the remove direction *)









(** *** Nothing selected, or no profile *)

(** C10: with no loaded profile, or with no cell selected, the toggle
    sends no request and leaves the table, the loaded availability and
    everything else as they were. *)
Theorem toggle_nothing_to_do (profile : option Profile) (w : World) :
  profile = None \/ selectedCells w = [] ->
  handleToggleAvailability profile w = (tt, w).
Proof.
  intros [H|H]; unfold handleToggleAvailability.
  - rewrite H. reflexivity.
  - destruct profile; [rewrite H|]; reflexivity.
Qed.

Lemma toggle_nothing_to_do_witness :
  let w := Scenario.loaded [Scenario.wednesday_evening] 2 [] in
  selectedCells w = []
  /\ handleToggleAvailability (Some Scenario.alice) w = (tt, w)
  /\ handleToggleAvailability None
       (Scenario.loaded [] 1 [Scenario.wednesday 9])
     = (tt, Scenario.loaded [] 1 [Scenario.wednesday 9]).
Proof.
  intros w. split; [reflexivity|]. split.
  - apply toggle_nothing_to_do. right. reflexivity.
  - apply toggle_nothing_to_do. left. reflexivity.
Defined.

(** *** Remove path *)

(** C8: in the remove direction, when the delete of the interval that
    covers a selected hour comes back with an error, the iteration for
    that hour stops there: the delete is the only request it sends, no
    remainder is inserted, table and loaded availability are unchanged,
    and the loop goes on with the remaining hours. *)
Theorem failed_delete_skips_split (p : Profile)
    (snapshot : list Availability) (cell : Cell) (rest : list Cell)
    (m : Availability) (w : World) :
  isCellAvailable snapshot (dow cell) (hour cell) = Some m ->
  hd false (faults w) = true ->
  let w' := mkWorld (table w) (next_id w) (tl (faults w))
                    (log w ++ [Delete (id m)])
                    (availability w) (selectedCells w) in
  toggleCell p snapshot true cell w = (tt, w')
  /\ forEach (cell :: rest) (toggleCell p snapshot true) w
     = forEach rest (toggleCell p snapshot true) w'.
Proof.
  intros Hm Hf w'.
  assert (H : toggleCell p snapshot true cell w = (tt, w')).
  { unfold toggleCell. rewrite Hm. unfold bind, db_delete.
    rewrite Hf. reflexivity. }
  split; [exact H|].
  simpl forEach. unfold bind. rewrite H. reflexivity.
Qed.

Lemma failed_delete_skips_split_witness :
  let stored := Scenario.wednesday_evening in
  let w := mkWorld [(7, stored)] 2 [true] [] [stored]
             [Scenario.wednesday 18; Scenario.wednesday 19] in
  Scenario.toggle w
  = mkWorld [(7, mkAvailability 2 3 "17:00:00" "19:00:00")] 3 [] 
      [Delete 1; Delete 1; Insert 7 3 "17:00:00" "19:00:00"]
      [mkAvailability 2 3 "17:00:00" "19:00:00"] [].
Proof.
  intros stored w.
  assert (Hm : isCellAvailable [stored] 3 18 = Some stored)
    by (vm_compute; reflexivity).
  assert (Hf : hd false (faults w) = true) by reflexivity.
  destruct (failed_delete_skips_split Scenario.alice [stored]
              (Scenario.wednesday 18) [Scenario.wednesday 19] w Hm Hf)
    as [_ Hloop].
  unfold Scenario.toggle, run.
  rewrite (@handle_cons Scenario.alice w (Scenario.wednesday 18)
             [Scenario.wednesday 19] eq_refl).
  unfold bind at 1.
  replace (allAvailable (availability w)
             [Scenario.wednesday 18; Scenario.wednesday 19])
    with true by (vm_compute; reflexivity).
  change (availability w) with [stored].
  rewrite Hloop. vm_compute. reflexivity.
Defined.

Lemma remainders_hours (i : uuid) (d s e h : nat) :
  s < 100 -> e < 100 -> h < 99 ->
  remainders i d (hourString s) (hourString e) h
  = (if s <? h
     then [mkAvailability i d (hourString s) (hourString h)] else [])
    ++ (if h + 1 <? e
        then [mkAvailability (i + (if s <? h then 1 else 0)) d
                             (hourString (h + 1)) (hourString e)]
        else []).
Proof.
  intros Hs He Hh. unfold remainders, JS.gt.
  change (String.ltb (hourString (h + 1)) (hourString e))
    with (JS.lt (hourString (h + 1)) (hourString e)).
  rewrite !hourString_lt by lia.
  destruct (s <? h); reflexivity.
Qed.

Lemma hour_and_next (h : nat) :
  h < 99 -> JS.le (hourString (h + 1)) (hourString h) = false.
Proof.
  intros Hh. rewrite hourString_le by lia. apply Nat.leb_gt. lia.
Qed.

Lemma before_not_covering (i d' : uuid) (s : string) (d h : nat) :
  h < 99 -> covers d h (mkAvailability i d' s (hourString h)) = false.
Proof.
  intros Hh. unfold covers, JS.ge. cbn [end_time].
  change (String.leb (hourString (h + 1)) (hourString h))
    with (JS.le (hourString (h + 1)) (hourString h)).
  rewrite hour_and_next by exact Hh. apply andb_false_r.
Qed.

Lemma after_not_covering (i d' : uuid) (e : string) (d h : nat) :
  h < 99 ->
  covers d h (mkAvailability i d' (hourString (h + 1)) e) = false.
Proof.
  intros Hh. unfold covers. cbn [start_time].
  rewrite hour_and_next by exact Hh.
  rewrite andb_false_r. reflexivity.
Qed.

Lemma remainders_not_covering (i : uuid) (d' : nat) (s e : string)
    (d h : nat) (a : Availability) :
  h < 99 -> In a (remainders i d' s e h) -> covers d h a = false.
Proof.
  intros Hh. unfold remainders. rewrite in_app_iff.
  intros [H|H].
  - destruct (JS.lt s (hourString h)); simpl in H; [|contradiction].
    destruct H as [H|[]]. subst a. apply before_not_covering, Hh.
  - destruct (JS.gt e (hourString (h + 1))); simpl in H; [|contradiction].
    destruct H as [H|[]]. subst a. apply after_not_covering, Hh.
Qed.

Lemma covering_hours (d h s e : nat) (a : Availability) :
  s < 100 -> e < 100 -> h < 99 ->
  start_time a = hourString s -> end_time a = hourString e ->
  covers d h a = true -> s <= h < e.
Proof.
  intros Hs He Hh Hst Hen Hc. unfold covers, JS.ge in Hc.
  rewrite Hst, Hen in Hc.
  change (String.leb (hourString (h + 1)) (hourString e))
    with (JS.le (hourString (h + 1)) (hourString e)) in Hc.
  rewrite !hourString_le in Hc by lia.
  apply andb_true_iff in Hc. destruct Hc as [Hc H2].
  apply andb_true_iff in Hc. destruct Hc as [_ H1].
  apply Nat.leb_le in H1, H2. lia.
Qed.

Lemma toggle_single_remove (p : Profile) (w : World) (c : Cell)
    (m : Availability) :
  selectedCells w = [c] ->
  isCellAvailable (availability w) (dow c) (hour c) = Some m ->
  faults w = [] ->
  run (handleToggleAvailability (Some p)) w
  = let rems := remainders (next_id w) (dow c) (start_time m)
                  (end_time m) (hour c) in
    mkWorld
      (filter (fun r => negb (id (snd r) =? id m)) (table w)
       ++ owned (profile_id p) rems)
      (next_id w + List.length rems) []
      (log w ++ Delete (id m) :: map (request_of (profile_id p)) rems)
      (without (id m) (availability w) ++ rems)
      [].
Proof.
  intros Hsel Hm Hf. unfold run. rewrite (handle_cons p w Hsel).
  unfold allAvailable. cbn [forallb]. rewrite Hm. cbn [JS.truthy andb].
  cbn [forEach]. unfold bind.
  rewrite (toggleCell_remove p (availability w) c w Hm Hf).
  reflexivity.
Qed.

(** C3: with 17:00-20:00 stored, a toggle of hour 18 alone deletes the
    interval and stores 17:00-18:00 and 19:00-20:00 in its place, and
    hour 18 is then not available.  In general, when the one selected
    hour [h] is covered by a loaded interval, the toggle deletes that
    interval and inserts its [remainders]: the part before [h] when the
    start is below the hour string of [h], the part after when the end is
    above the hour string of [h+1].  For an interval from hour [s] to hour
    [e] these are the remainder from [s] to [h] when [s < h] and the
    remainder from [h+1] to [e] when [h+1 < e]; neither covers [h]. *)
Theorem remove_single_hour :
  (let stored := Scenario.wednesday_evening in
   let after :=
     Scenario.toggle (Scenario.loaded [stored] 2 [Scenario.wednesday 18]) in
   log after = [Delete 1; Insert 7 3 "17:00:00" "18:00:00";
                Insert 7 3 "19:00:00" "20:00:00"]
   /\ map snd (table after)
      = [mkAvailability 2 3 "17:00:00" "18:00:00";
         mkAvailability 3 3 "19:00:00" "20:00:00"]
   /\ availability after = map snd (table after)
   /\ isCellAvailable (availability after) 3 18 = None)
  /\ (forall (p : Profile) (w : World) (c : Cell) (m : Availability),
        selectedCells w = [c] ->
        isCellAvailable (availability w) (dow c) (hour c) = Some m ->
        faults w = [] ->
        let w' := run (handleToggleAvailability (Some p)) w in
        let rems := remainders (next_id w) (dow c) (start_time m)
                      (end_time m) (hour c) in
        log w' = log w ++ Delete (id m)
                          :: map (request_of (profile_id p)) rems
        /\ table w'
           = filter (fun r => negb (id (snd r) =? id m)) (table w)
             ++ owned (profile_id p) rems
        /\ availability w' = without (id m) (availability w) ++ rems)
  /\ (forall (p : Profile) (w : World) (c : Cell) (m : Availability)
             (s e : nat),
        selectedCells w = [c] ->
        isCellAvailable (availability w) (dow c) (hour c) = Some m ->
        faults w = [] ->
        start_time m = hourString s -> end_time m = hourString e ->
        s < 100 -> e < 100 -> hour c < 99 ->
        let h := hour c in
        let w' := run (handleToggleAvailability (Some p)) w in
        let before :=
          if s <? h
          then [mkAvailability (next_id w) (dow c)
                               (hourString s) (hourString h)]
          else [] in
        let after :=
          if h + 1 <? e
          then [mkAvailability (next_id w + List.length before) (dow c)
                               (hourString (h + 1)) (hourString e)]
          else [] in
        s <= h < e
        /\ table w'
           = filter (fun r => negb (id (snd r) =? id m)) (table w)
             ++ owned (profile_id p) (before ++ after)
        /\ availability w'
           = without (id m) (availability w) ++ before ++ after
        /\ (forall a, In a (before ++ after) ->
                      covers (dow c) h a = false)
        /\ ((forall a, In a (availability w) ->
                       covers (dow c) h a = true -> id a = id m) ->
            isCellAvailable (availability w') (dow c) h = None)).
Proof.
  split; [vm_compute; repeat split|]. split.
  { intros p w c m Hsel Hm Hf w' rems. subst w'.
    rewrite (toggle_single_remove p w Hsel Hm Hf). cbv zeta.
    repeat split. }
  intros p w c m s e Hsel Hm Hf Hst Hen Hs He Hh h w' before after.
  assert (Hrems : remainders (next_id w) (dow c) (start_time m)
                    (end_time m) (hour c) = before ++ after).
  { rewrite Hst, Hen, remainders_hours by assumption.
    subst before after h. destruct (s <? hour c); reflexivity. }
  assert (Hno : forall a, In a (before ++ after) ->
                          covers (dow c) h a = false).
  { intros a Ha. rewrite <- Hrems in Ha.
    eapply remainders_not_covering; eassumption. }
  subst w'. rewrite (toggle_single_remove p w Hsel Hm Hf).
  cbv zeta. rewrite Hrems.
  cbn [table availability]. split.
  - unfold isCellAvailable in Hm. apply find_some in Hm.
    destruct Hm as [_ Hc].
    eapply covering_hours with (a := m); eassumption.
  - split; [reflexivity|]. split; [reflexivity|]. split; [exact Hno|].
    intros Huniq. unfold isCellAvailable.
    destruct (find (covers (dow c) h)
                (without (id m) (availability w) ++ before ++ after))
      as [x|] eqn:E; [|reflexivity].
    apply find_some in E. destruct E as [Hin Hc].
    apply in_app_iff in Hin. destruct Hin as [Hin|Hin].
    + unfold without in Hin. apply filter_In in Hin.
      destruct Hin as [Hin Hid].
      rewrite (Huniq x Hin Hc), Nat.eqb_refl in Hid. discriminate.
    + rewrite (Hno x Hin) in Hc. discriminate.
Qed.

Lemma remove_single_hour_witness :
  let w := Scenario.loaded [Scenario.wednesday_evening] 2
             [Scenario.wednesday 18] in
  selectedCells w = [Scenario.wednesday 18]
  /\ isCellAvailable (availability w) 3 18
     = Some Scenario.wednesday_evening
  /\ 17 <= 18 < 20
  /\ isCellAvailable (availability (Scenario.toggle w)) 3 18 = None.
Proof.
  intros w.
  assert (Hm : isCellAvailable (availability w)
                 (dow (Scenario.wednesday 18))
                 (hour (Scenario.wednesday 18))
               = Some Scenario.wednesday_evening)
    by (vm_compute; reflexivity).
  destruct remove_single_hour as [_ [_ H]].
  destruct (H Scenario.alice w (Scenario.wednesday 18)
              Scenario.wednesday_evening 17 20
              eq_refl Hm eq_refl eq_refl eq_refl
              ltac:(lia) ltac:(lia) ltac:(simpl; lia))
    as [Hb [_ [_ [_ Hfree]]]].
  split; [reflexivity|]. split; [exact Hm|]. split; [exact Hb|].
  apply Hfree. intros a Ha _. vm_compute in Ha.
  destruct Ha as [Ha|[]]. subst a. reflexivity.
Defined.

(** *** Add, then remove, the same range *)

Lemma filter_twice {A : Type} (f g : A -> bool) (l : list A) :
  filter f (filter g l) = filter (fun x => g x && f x) l.
Proof.
  induction l as [|x l IH]; simpl.
  - reflexivity.
  - destruct (g x); simpl; [destruct (f x)|]; rewrite IH; reflexivity.
Qed.

Lemma filter_keeps_all {A : Type} (l : list A) :
  filter (fun _ => true) l = l.
Proof.
  induction l as [|x l IH]; simpl; [|rewrite IH]; reflexivity.
Qed.

Lemma one_hour_no_remainder (i : uuid) (d h : nat) :
  h < 99 ->
  remainders i d (hourString h) (hourString (h + 1)) h = [].
Proof.
  intros Hh. unfold remainders, JS.gt.
  change (String.ltb (hourString (h + 1)) (hourString (h + 1)))
    with (JS.lt (hourString (h + 1)) (hourString (h + 1))).
  rewrite !hourString_lt by lia. rewrite !Nat.ltb_irrefl. reflexivity.
Qed.

Lemma matched_cons (snapshot : list Availability) (c : Cell)
    (r : list Cell) (m : Availability) :
  isCellAvailable snapshot (dow c) (hour c) = Some m ->
  matched snapshot (c :: r) = id m :: matched snapshot r.
Proof. intros H. unfold matched. cbn [flat_map]. rewrite H. reflexivity. Qed.

(** The remove loop over cells that each resolve to a one-hour row of
    their own hour only deletes: one delete per cell, no remainder. *)
Lemma remove_loop_one_hour (p : Profile) (snapshot : list Availability)
    (cells : list Cell) :
  forall w,
    faults w = [] ->
    (forall c, In c cells ->
       hour c < 99
       /\ exists m, isCellAvailable snapshot (dow c) (hour c) = Some m
                    /\ start_time m = hourString (hour c)
                    /\ end_time m = hourString (hour c + 1)) ->
    forEach cells (toggleCell p snapshot true) w
    = (tt,
       mkWorld
         (filter (fun r => negb (among (matched snapshot cells)
                                       (id (snd r))))
                 (table w))
         (next_id w) []
         (log w ++ map Delete (matched snapshot cells))
         (filter (fun a => negb (among (matched snapshot cells) (id a)))
                 (availability w))
         (selectedCells w)).
Proof.
  induction cells as [|c r IH]; intros w Hf H.
  - cbn [forEach matched flat_map map among existsb negb]. unfold ret.
    rewrite !filter_keeps_all, app_nil_r, <- Hf. destruct w; reflexivity.
  - destruct (H c (or_introl eq_refl)) as [Hh [m [Hm [Hs He]]]].
    cbn [forEach]. unfold bind.
    rewrite (toggleCell_remove p snapshot c w Hm Hf).
    rewrite Hs, He, one_hour_no_remainder by exact Hh. cbv zeta.
    rewrite IH; [|reflexivity|intros c' Hc'; apply H; right; exact Hc'].
    cbn [table next_id faults log availability selectedCells
         owned map List.length].
    rewrite (matched_cons snapshot c r Hm). cbn [app map].
    unfold without. rewrite !app_nil_r, !filter_twice, <- app_assoc.
    cbn [app]. rewrite Nat.add_0_r.
    f_equal. f_equal.
    + apply filter_ext. intros x. unfold among. cbn [existsb].
      rewrite negb_orb. reflexivity.
    + apply filter_ext. intros x. unfold among. cbn [existsb].
      rewrite negb_orb. reflexivity.
Qed.


Lemma find_append {A : Type} (f : A -> bool) (l1 l2 : list A) :
  find f l1 = None -> find f (l1 ++ l2) = find f l2.
Proof.
  induction l1 as [|x l1 IH]; simpl; [reflexivity|].
  destruct (f x); [discriminate | exact IH].
Qed.

Lemma oneHour_covers (i : uuid) (c c' : Cell) :
  hour c < 99 -> hour c' < 99 ->
  covers (dow c') (hour c') (oneHour i c)
  = (dow c =? dow c') && (hour c =? hour c').
Proof.
  intros Hc Hc'. unfold covers, oneHour, JS.ge.
  cbn [day_of_week start_time end_time].
  change (String.leb (hourString (hour c' + 1)) (hourString (hour c + 1)))
    with (JS.le (hourString (hour c' + 1)) (hourString (hour c + 1))).
  rewrite !hourString_le by lia. rewrite <- andb_assoc. f_equal.
  destruct (hour c =? hour c') eqn:E.
  - apply Nat.eqb_eq in E. rewrite E.
    rewrite !Nat.leb_refl. reflexivity.
  - apply Nat.eqb_neq in E.
    destruct (hour c <=? hour c') eqn:L; [|reflexivity].
    apply Nat.leb_le in L. simpl. apply Nat.leb_gt. lia.
Qed.

Lemma key_differs (c c' : Cell) :
  key c <> key c' -> (dow c =? dow c') && (hour c =? hour c') = false.
Proof.
  intros H. destruct (dow c =? dow c') eqn:D; [|reflexivity].
  destruct (hour c =? hour c') eqn:E; [|reflexivity].
  apply Nat.eqb_eq in D, E. exfalso. apply H. unfold key. congruence.
Qed.

(** Among one-hour rows of distinct hours, a cell resolves to its own
    row. *)
Lemma find_own_row (cells : list Cell) :
  forall (i k : nat) (c : Cell),
    NoDup (map key cells) ->
    Forall (fun c => hour c < 99) cells ->
    nth_error cells k = Some c ->
    find (covers (dow c) (hour c)) (oneHourRows i cells)
    = Some (oneHour (i + k) c).
Proof.
  induction cells as [|c0 r IH]; intros i k c Hnd Hh Hk.
  - destruct k; discriminate.
  - inversion Hnd as [|? ? Hnot Hnd']; subst.
    inversion Hh as [|? ? Hc0 Hr]; subst.
    cbn [oneHourRows find]. destruct k as [|k]; cbn [nth_error] in Hk.
    + inversion Hk; subst c0.
      rewrite oneHour_covers, !Nat.eqb_refl by assumption.
      rewrite Nat.add_0_r. reflexivity.
    + assert (Hin : In c r) by (eapply nth_error_In; exact Hk).
      assert (Hc : hour c < 99).
      { rewrite Forall_forall in Hr. apply Hr, Hin. }
      rewrite oneHour_covers by assumption.
      rewrite key_differs.
      * rewrite (IH (S i) k c Hnd' Hr Hk). f_equal. f_equal. lia.
      * intros E. apply Hnot. rewrite E. apply in_map, Hin.
Qed.

Lemma matched_rows (av : list Availability) (nid : uuid)
    (suf : list Cell) :
  forall pre,
    NoDup (map key (pre ++ suf)) ->
    Forall (fun c => hour c < 99) (pre ++ suf) ->
    (forall c, In c (pre ++ suf) ->
               isCellAvailable av (dow c) (hour c) = None) ->
    matched (av ++ oneHourRows nid (pre ++ suf)) suf
    = seq (nid + List.length pre) (List.length suf)
    /\ forall c, In c suf ->
         exists m,
           isCellAvailable (av ++ oneHourRows nid (pre ++ suf))
                           (dow c) (hour c) = Some m
           /\ start_time m = hourString (hour c)
           /\ end_time m = hourString (hour c + 1).
Proof.
  induction suf as [|c r IH]; intros pre Hnd Hh Hfree.
  - split; [reflexivity | intros c []].
  - assert (Hm : isCellAvailable (av ++ oneHourRows nid (pre ++ c :: r))
                   (dow c) (hour c)
                 = Some (oneHour (nid + List.length pre) c)).
    { unfold isCellAvailable. rewrite find_append.
      - apply find_own_row; [assumption|assumption|].
        rewrite nth_error_app2, Nat.sub_diag by lia. reflexivity.
      - apply Hfree. apply in_or_app. right. left. reflexivity. }
    assert (Heq : pre ++ c :: r = (pre ++ [c]) ++ r)
      by (rewrite <- app_assoc; reflexivity).
    rewrite Heq in Hnd, Hh, Hfree.
    destruct (IH (pre ++ [c]) Hnd Hh Hfree) as [IH1 IH2].
    rewrite <- Heq in IH1, IH2. split.
    + rewrite (matched_cons _ c r Hm), IH1. cbn [id oneHour List.length seq].
      rewrite length_app. cbn [List.length].
      replace (nid + (List.length pre + 1)) with (S (nid + List.length pre))
        by lia.
      reflexivity.
    + intros c' [Hc'|Hc'].
      * subst c'. eexists. split; [exact Hm|]. split; reflexivity.
      * apply IH2, Hc'.
Qed.

Lemma among_seq (start len i : nat) :
  among (seq start len) i = true <-> start <= i < start + len.
Proof.
  unfold among. rewrite existsb_exists. split.
  - intros [x [Hx Hi]]. apply Nat.eqb_eq in Hi. subst x.
    apply in_seq in Hx. exact Hx.
  - intros H. exists i. split; [apply in_seq; exact H|apply Nat.eqb_refl].
Qed.

Lemma oneHourRows_ids (cells : list Cell) :
  forall i a, In a (oneHourRows i cells) ->
              i <= id a < i + List.length cells.
Proof.
  induction cells as [|c r IH]; intros i a Ha; simpl in Ha.
  - contradiction.
  - destruct Ha as [Ha|Ha].
    + subst a. simpl. lia.
    + apply IH in Ha. simpl. lia.
Qed.

Lemma filter_none {A : Type} (f : A -> bool) (l : list A) :
  (forall x, In x l -> f x = false) -> filter f l = [].
Proof.
  induction l as [|x l IH]; intros H; simpl; [reflexivity|].
  rewrite (H x (or_introl eq_refl)). apply IH.
  intros y Hy. apply H. right. exact Hy.
Qed.

Lemma filter_every {A : Type} (f : A -> bool) (l : list A) :
  (forall x, In x l -> f x = true) -> filter f l = l.
Proof.
  intros H. apply forallb_filter_id, forallb_forall, H.
Qed.

(** X5: when no selected hour is covered beforehand, so that the add stores
    a one-hour row for each, adding and then removing the same hours gives
    back the table and the loaded availability as they were, and no
    selected hour is covered afterwards. *)
Lemma round_trip_free_hours (p : Profile) (w : World) (cells : list Cell) :
  faults w = [] ->
  cells <> [] ->
  NoDup (map key cells) ->
  Forall (fun c => hour c < 99) cells ->
  (forall c, In c cells ->
             isCellAvailable (availability w) (dow c) (hour c) = None) ->
  (forall r, In r (table w) -> id (snd r) < next_id w) ->
  (forall a, In a (availability w) -> id a < next_id w) ->
  let toggle v :=
    run (handleToggleAvailability (Some p)) (run (setSelectedCells cells) v) in
  let w1 := toggle w in
  let w2 := toggle w1 in
  table w1
  = table w ++ owned (profile_id p) (oneHourRows (next_id w) cells)
  /\ table w2 = table w
  /\ availability w2 = availability w
  /\ forall c, In c cells ->
               isCellAvailable (availability w2) (dow c) (hour c) = None.
Proof.
  intros Hf Hne Hnd Hh Hfree Htab Hav toggle w1 w2.
  destruct cells as [|c0 r] eqn:Hcells; [congruence|]. rewrite <- Hcells in *.
  assert (Hunc : uncovered (availability w) cells = cells).
  { unfold uncovered. apply filter_every. intros c Hc.
    rewrite (Hfree c Hc). reflexivity. }
  assert (Hall : allAvailable (availability w) cells = false).
  { rewrite Hcells. unfold allAvailable. cbn [forallb].
    rewrite (Hfree c0); [reflexivity|]. rewrite Hcells. left. reflexivity. }
  set (rows := oneHourRows (next_id w) cells).
  assert (Hw1 : w1 = mkWorld (table w ++ owned (profile_id p) rows)
                       (next_id w + List.length rows) []
                       (log w ++ map (oneHourRequest (profile_id p)) cells)
                       (availability w ++ rows) []).
  { subst w1 toggle. unfold run at 1.
    rewrite (@handle_cons p _ c0 r) by (rewrite <- Hcells; reflexivity).
    rewrite <- Hcells. unfold bind.
    unfold run, setSelectedCells at 1 2 3.
    cbn [snd availability]. rewrite Hall, add_loop. cbv zeta.
    cbn [table next_id faults log availability selectedCells].
    rewrite Hunc, Hf, inserted_no_faults, skipn_nil. reflexivity. }
  destruct (@matched_rows (availability w) (next_id w) cells []
              Hnd Hh Hfree) as [Hmatched Hrows].
  cbn [app List.length] in Hmatched, Hrows. rewrite Nat.add_0_r in Hmatched.
  fold rows in Hmatched, Hrows.
  assert (Hall1 : allAvailable (availability w ++ rows) cells = true).
  { apply allAvailable_iff. intros c Hc.
    destruct (Hrows c Hc) as [m [Hm _]].
    apply available_iff. rewrite Hm. reflexivity. }
  assert (Hw2 : w2 = mkWorld (table w) (next_id w + List.length rows) []
                       (log w1 ++ map Delete (seq (next_id w)
                                                  (List.length cells)))
                       (availability w) []).
  { subst w2 toggle. cbv beta. rewrite Hw1. unfold run at 1.
    rewrite (@handle_cons p _ c0 r) by (rewrite <- Hcells; reflexivity).
    rewrite <- Hcells. unfold bind.
    unfold run, setSelectedCells at 1 2 3.
    cbn [snd availability]. rewrite Hall1.
    rewrite remove_loop_one_hour.
    - cbn [table next_id faults log availability selectedCells].
      rewrite Hmatched, !filter_app.
      rewrite (filter_every _ (table w)), (filter_every _ (availability w)).
      + rewrite !filter_none, !app_nil_r; [reflexivity| |].
        * intros a Ha. apply negb_false_iff, among_seq.
          apply oneHourRows_ids in Ha. exact Ha.
        * intros x Hx. unfold owned in Hx. apply in_map_iff in Hx.
          destruct Hx as [a [Hx Ha]]. subst x. cbn [snd].
          apply negb_false_iff, among_seq.
          apply oneHourRows_ids in Ha. exact Ha.
      + intros a Ha. apply negb_true_iff.
        destruct (among _ _) eqn:E; [|reflexivity].
        apply among_seq in E. apply Hav in Ha. lia.
      + intros x Hx. apply negb_true_iff.
        destruct (among _ _) eqn:E; [|reflexivity].
        apply among_seq in E. apply Htab in Hx. lia.
    - reflexivity.
    - intros c Hc. split.
      + rewrite Forall_forall in Hh. apply Hh, Hc.
      + apply Hrows, Hc. }
  split; [rewrite Hw1; reflexivity|].
  rewrite Hw2. cbn [table availability].
  split; [reflexivity|]. split; [reflexivity|exact Hfree].
Qed.

(** C1 at the interval onboarding stores: Wednesday 17:00-20:00 is one
    row and the hours 17 to 20 are dragged over twice.  The first toggle
    adds (hour 20 is not covered) and stores 20:00-21:00.  The second
    toggle removes (every hour is now covered), but the hours 17, 18 and 19
    are each resolved to the three-hour row of the availability the
    handler started with: each deletes that row and stores what is left of
    it around its own hour.  Four overlapping rows are stored in the end
    and the hours 17, 18 and 19 are still covered, in the table and in the
    loaded availability. *)
Theorem round_trip_onboarding_interval :
  let w0 := Scenario.loaded [Scenario.wednesday_evening] 2 [] in
  let cells := buildRange (Scenario.wednesday 17) (Scenario.wednesday 20) in
  let w1 := Scenario.dragToggle 17 20 w0 in
  let w2 := Scenario.dragToggle 17 20 w1 in
  allAvailable (availability w0) cells = false
  /\ log w1 = [Insert 7 3 "20:00:00" "21:00:00"]
  /\ allAvailable (availability w1) cells = true
  /\ log w2 = log w1
              ++ [Delete 1; Insert 7 3 "18:00:00" "20:00:00";
                  Delete 1; Insert 7 3 "17:00:00" "18:00:00";
                           Insert 7 3 "19:00:00" "20:00:00";
                  Delete 1; Insert 7 3 "17:00:00" "19:00:00";
                  Delete 2]
  /\ map snd (table w2)
     = [mkAvailability 3 3 "18:00:00" "20:00:00";
        mkAvailability 4 3 "17:00:00" "18:00:00";
        mkAvailability 5 3 "19:00:00" "20:00:00";
        mkAvailability 6 3 "17:00:00" "19:00:00"]
  /\ availability w2 = map snd (table w2)
  /\ map (fun h => JS.truthy (isCellAvailable (availability w2) 3 h))
         [17; 18; 19; 20]
     = [true; true; true; false].
Proof. vm_compute. repeat split. Qed.

End ToggleFacts.

(* ------------------------------------------------------------------ *)
(** ** Friend requests *)

Module FriendFacts.
Import Dashboard.

Lemma same_pair_iff (u f : uuid) (r : Friends.Row) :
  Pg.same_pair u f r = true
  <-> Friends.user_id r = u /\ Friends.friend_user_id r = f.
Proof.
  unfold Pg.same_pair. rewrite andb_true_iff, !Nat.eqb_eq. tauto.
Qed.

Lemma insert_friend_outcome (p f : uuid) (b : Backend) :
  Pg.user_exists b p = true -> Pg.user_exists b f = true ->
  Pg.insert_friend p p f pending b
  = if existsb (Pg.same_pair p f) (friends b)
    then inl unique_violation
    else inr (mkBackend (users b)
                (friends b ++ [Friends.mkRow (fresh b) p f pending])
                (interests b) (hangout_suggestions b) (S (fresh b))).
Proof.
  intros Hp Hf. unfold Pg.insert_friend.
  rewrite Nat.eqb_refl, Hp, Hf. reflexivity.
Qed.

(** C5, as the code has it: a friend request of the signed-in user to a
    registered user is refused, with the store's unique violation kept
    as that user's error, exactly when a link from the requester to the
    recipient is already stored, whatever its status.  Otherwise it
    stores a pending link from the requester to the recipient, also when
    a link from the recipient to the requester exists. *)
Theorem add_friend_ordered_pair (friendId : uuid) (a : App) (p : Profile) :
  profile a = Some p -> auth_uid a = profile_id p ->
  Pg.user_exists (backend a) (profile_id p) = true ->
  Pg.user_exists (backend a) friendId = true ->
  let a' := handleAddFriend friendId a in
  ((exists r, In r (friends (backend a))
              /\ Friends.user_id r = profile_id p
              /\ Friends.friend_user_id r = friendId) ->
   backend a' = backend a
   /\ In (friendId, ErrorMessage unique_violation) (friendErrors a')
   /\ addedFriends a' = addedFriends a)
  /\ ((forall r, In r (friends (backend a)) ->
                 ~ (Friends.user_id r = profile_id p
                    /\ Friends.friend_user_id r = friendId)) ->
      friends (backend a')
      = friends (backend a)
        ++ [Friends.mkRow (fresh (backend a)) (profile_id p) friendId
                          pending]
      /\ (forall e, ~ In (friendId, e) (friendErrors a'))
      /\ In friendId (addedFriends a')).
Proof.
  intros Hp Hauth Hu Hf a'. subst a'. unfold handleAddFriend.
  rewrite Hp, Hauth, (insert_friend_outcome _ _ _ Hu Hf). split.
  - intros [r [Hin [H1 H2]]].
    assert (E : existsb (Pg.same_pair (profile_id p) friendId)
                  (friends (backend a)) = true).
    { apply existsb_exists. exists r. split; [exact Hin|].
      apply same_pair_iff. tauto. }
    rewrite E. cbn [backend friendErrors addedFriends].
    split; [reflexivity|]. split; [|reflexivity].
    apply in_or_app. right. left. reflexivity.
  - intros Hnone.
    assert (E : existsb (Pg.same_pair (profile_id p) friendId)
                  (friends (backend a)) = false).
    { destruct (existsb _ _) eqn:E; [|reflexivity].
      apply existsb_exists in E. destruct E as [r [Hin Hs]].
      apply same_pair_iff in Hs. exfalso. exact (Hnone r Hin Hs). }
    rewrite E. cbn [backend friendErrors addedFriends friends].
    split; [reflexivity|]. split.
    + intros e He. unfold removeKey in He. apply filter_In in He.
      destruct He as [_ He]. cbn [fst] in He.
      rewrite Nat.eqb_refl in He. discriminate.
    + unfold setAdd.
      destruct (existsb (Nat.eqb friendId) (addedFriends a)) eqn:X.
      * apply existsb_exists in X. destruct X as [x [Hx Hxe]].
        apply Nat.eqb_eq in Hxe. subst x. exact Hx.
      * apply in_or_app. right. left. reflexivity.
Qed.

(** C5 fails on the code: Bob has a pending request to Ann stored, and
    Ann's request to Bob is accepted all the same; the pair then has two
    links. *)
Lemma add_friend_reverse_link :
  let b := Scenario.store [Friends.mkRow 10 2 1 pending] [] in
  let a' := handleAddFriend 2 (Scenario.session Scenario.ann b emptyForm) in
  friends (backend a')
  = [Friends.mkRow 10 2 1 pending; Friends.mkRow 100 1 2 pending]
  /\ friendErrors a' = []
  /\ addedFriends a' = [2].
Proof. vm_compute. repeat split. Qed.

Lemma add_friend_ordered_pair_witness :
  let b := Scenario.store [Friends.mkRow 10 1 2 accepted] [] in
  let a := Scenario.session Scenario.ann b emptyForm in
  backend (handleAddFriend 2 a) = b
  /\ In (2, ErrorMessage unique_violation)
        (friendErrors (handleAddFriend 2 a)).
Proof.
  intros b a.
  destruct (@add_friend_ordered_pair 2 a (Scenario.profileOf Scenario.ann)
              eq_refl eq_refl eq_refl eq_refl) as [Hdup _].
  destruct Hdup as [H1 [H2 _]].
  - exists (Friends.mkRow 10 1 2 accepted).
    split; [left; reflexivity|]. split; reflexivity.
  - split; assumption.
Defined.

End FriendFacts.

(* ------------------------------------------------------------------ *)
(** ** Hangout proposals *)

Module HangoutFacts.
Import Dashboard.

Lemma update_unseen (uid i : uuid) (st : Status) (l : list Hangouts.Row) :
  (forall r, In r l -> Hangouts.id r = i ->
             Hangouts.recipient_user_id r <> uid) ->
  map (fun r => if (Hangouts.recipient_user_id r =? uid)
                   && (Hangouts.id r =? i)
                then Pg.set_status st r else r) l
  = l.
Proof.
  induction l as [|x l IH]; intros H; simpl.
  - reflexivity.
  - rewrite IH by (intros r Hr; apply H; right; exact Hr).
    destruct (Hangouts.id x =? i) eqn:Ei.
    + apply Nat.eqb_eq in Ei.
      assert (Hx := H x (or_introl eq_refl) Ei).
      apply Nat.eqb_neq in Hx. rewrite Hx. reflexivity.
    + rewrite andb_false_r. reflexivity.
Qed.

(** C4, as the code has it: a response (accept or decline) to proposal
    [requestId] is one status update that the row policy lets through for
    the recipient only.  Sent by anyone else it changes nothing in the
    store and reports nothing; sent by the recipient it sets the status
    to the decision whatever the status was, no other row changes, and
    in both cases the request leaves the notification list. *)
Theorem respond_follows_row_policy (st : Status) (requestId : uuid)
    (a : App) :
  let a' := respondHangout st requestId a in
  let rows := hangout_suggestions (backend a) in
  let rows' := hangout_suggestions (backend a') in
  ((forall r, In r rows -> Hangouts.id r = requestId ->
              Hangouts.recipient_user_id r <> auth_uid a) ->
   backend a' = backend a)
  /\ (forall r, In r rows -> Hangouts.id r = requestId ->
                Hangouts.recipient_user_id r = auth_uid a ->
                In (Pg.set_status st r) rows')
  /\ (forall r, In r rows -> Hangouts.id r <> requestId -> In r rows')
  /\ List.length rows' = List.length rows
  /\ (forall q, In q (hangoutRequests a') -> id q <> requestId)
  /\ scheduleError a' = scheduleError a.
Proof.
  intros a' rows rows'. subst a' rows rows'.
  unfold respondHangout, Pg.update_hangout_status.
  cbn [backend hangout_suggestions hangoutRequests scheduleError].
  split; [|split; [|split; [|split; [|split]]]].
  - intros H. rewrite update_unseen by exact H.
    destruct (backend a); reflexivity.
  - intros r Hin Hid Hrec. apply in_map_iff. exists r.
    rewrite Hid, Hrec, !Nat.eqb_refl. split; [reflexivity|exact Hin].
  - intros r Hin Hid. apply in_map_iff. exists r.
    apply Nat.eqb_neq in Hid. rewrite Hid, andb_false_r.
    split; [reflexivity|exact Hin].
  - apply length_map.
  - intros q Hq. unfold dropRequest in Hq. apply filter_In in Hq.
    destruct Hq as [_ Hq]. apply negb_true_iff, Nat.eqb_neq in Hq.
    exact Hq.
  - reflexivity.
Qed.

Lemma respond_follows_row_policy_witness :
  let row := Scenario.proposal 30 Scenario.ann Scenario.bob 1000 pending in
  let b := Scenario.store [] [row] in
  backend (handleAcceptHangout 30 (Scenario.session Scenario.ann b emptyForm))
  = b
  /\ In (Pg.set_status declined row)
        (hangout_suggestions
           (backend (handleDeclineHangout 30
                       (Scenario.session Scenario.bob b emptyForm)))).
Proof.
  intros row b. split.
  - destruct (respond_follows_row_policy accepted 30
                (Scenario.session Scenario.ann b emptyForm)) as [H _].
    apply H. intros r [Hr|[]] _. subst r. vm_compute. discriminate.
  - destruct (respond_follows_row_policy declined 30
                (Scenario.session Scenario.bob b emptyForm))
      as [_ [H _]].
    apply H; [left|..]; reflexivity.
Defined.

(** C4 fails on the code: Bob declined Ann's proposal; a later accept of
    the same proposal by Bob goes through and the proposal is accepted.
    An accept sent by Ann, the sender, reports nothing either. *)
Lemma accept_after_decline :
  let row := Scenario.proposal 30 Scenario.ann Scenario.bob 1000 declined in
  let b := Scenario.store [] [row] in
  map Hangouts.status
    (hangout_suggestions
       (backend (handleAcceptHangout 30
                   (Scenario.session Scenario.bob b emptyForm))))
  = [accepted]
  /\ handleAcceptHangout 30 (Scenario.session Scenario.ann b emptyForm)
     = Scenario.session Scenario.ann b emptyForm.
Proof. vm_compute. split; reflexivity. Qed.

(** *** Proposing *)

(** C6, as the code has it: scheduling asks for a selected friend and a
    date, and shows a message and stores nothing when either is missing.
    With both present it inserts a pending proposal from the signed-in
    user to the selected user; the friend links play no part in it: the
    outcome is the same for every content of the friends table. *)
Theorem schedule_ignores_friend_links (a : App) (p : Profile) :
  profile a = Some p ->
  let a' := handleScheduleHangout a in
  ((friendId (hangoutForm a) = None \/ datetime (hangoutForm a) = None) ->
   backend a' = backend a
   /\ scheduleError a'
      = Some (Literal "Please select a friend and date/time."))
  /\ (forall links,
        let b' := backend (handleScheduleHangout (with_friends links a)) in
        hangout_suggestions b' = hangout_suggestions (backend a')
        /\ scheduleError (handleScheduleHangout (with_friends links a))
           = scheduleError a')
  /\ (forall f t i,
        friendId (hangoutForm a) = Some f ->
        datetime (hangoutForm a) = Some t ->
        interestId (hangoutForm a) = Some i ->
        auth_uid a = profile_id p ->
        Pg.user_exists (backend a) (profile_id p) = true ->
        Pg.user_exists (backend a) f = true ->
        Pg.interest_exists (backend a) i = true ->
        hangout_suggestions (backend a')
        = hangout_suggestions (backend a)
          ++ [Hangouts.mkRow (fresh (backend a)) (profile_id p) f (Some i)
                t (orNull (form_message (hangoutForm a)))
                (orNull (form_location (hangoutForm a))) None pending]
        /\ scheduleError a' = None).
Proof.
  intros Hp a'. subst a'. split; [|split].
  - intros H. unfold handleScheduleHangout. rewrite Hp.
    destruct H as [H|H]; rewrite H.
    + split; reflexivity.
    + destruct (friendId (hangoutForm a)); split; reflexivity.
  - intros links. unfold handleScheduleHangout, with_friends, with_backend.
    cbn [profile hangoutForm auth_uid backend]. rewrite Hp.
    destruct (friendId (hangoutForm a)) as [f|];
      [destruct (datetime (hangoutForm a)) as [t|]|];
      try (split; reflexivity).
    unfold Pg.insert_hangout, Pg.user_exists, Pg.interest_exists.
    cbn [users interests hangout_suggestions fresh].
    destruct (negb (profile_id p =? auth_uid a)); [split; reflexivity|].
    destruct (interestId (hangoutForm a)) as [i|]; [|split; reflexivity].
    destruct (negb _); split; reflexivity.
  - intros f t i Hf Ht Hi Hauth Hu Hfu Hiu.
    unfold handleScheduleHangout, Pg.insert_hangout.
    rewrite Hp, Hf, Ht, Hi, Hauth, Nat.eqb_refl, Hu, Hfu, Hiu.
    split; reflexivity.
Qed.

Lemma schedule_ignores_friend_links_witness :
  let a := Scenario.session Scenario.ann (Scenario.store [] [])
             (mkHangoutForm (Some 2) None (Some 5) "" "") in
  backend (handleScheduleHangout a) = backend a
  /\ scheduleError (handleScheduleHangout a)
     = Some (Literal "Please select a friend and date/time.").
Proof.
  intros a.
  destruct (@schedule_ignores_friend_links a
              (Scenario.profileOf Scenario.ann) eq_refl) as [H _].
  apply H. right. reflexivity.
Defined.

(** C6 fails on the code: Ann and Bob are registered and no friend link
    is stored; Ann's proposal to Bob is created, pending. *)
Lemma propose_without_friend_link :
  let a := Scenario.session Scenario.ann (Scenario.store [] [])
             (mkHangoutForm (Some 2) (Some 1000%Z) (Some 5) "" "") in
  friends (backend a) = []
  /\ hangout_suggestions (backend (handleScheduleHangout a))
     = [Hangouts.mkRow 100 1 2 (Some 5) 1000 None None None pending]
  /\ scheduleError (handleScheduleHangout a) = None.
Proof. vm_compute. repeat split. Qed.

(** *** Upcoming accepted hangs *)

Section Sorting.
Context {A : Type} (key : A -> Z).

Lemma insert_by_perm (x : A) (l : list A) :
  Permutation (Pg.insert_by key x l) (x :: l).
Proof.
  induction l as [|y l IH]; simpl.
  - apply Permutation_refl.
  - destruct (key x <=? key y)%Z.
    + apply Permutation_refl.
    + apply perm_trans with (y :: x :: l).
      * apply perm_skip, IH.
      * apply perm_swap.
Qed.

Lemma sort_by_perm (l : list A) : Permutation (Pg.sort_by key l) l.
Proof.
  induction l as [|x l IH]; simpl.
  - apply perm_nil.
  - apply perm_trans with (x :: Pg.sort_by key l).
    + apply insert_by_perm.
    + apply perm_skip, IH.
Qed.

Lemma insert_by_sorted (x : A) (l : list A) :
  StronglySorted (fun a b => (key a <= key b)%Z) l ->
  StronglySorted (fun a b => (key a <= key b)%Z) (Pg.insert_by key x l).
Proof.
  induction 1 as [|y l Hs IH Hy]; simpl.
  - constructor; constructor.
  - destruct (key x <=? key y)%Z eqn:E.
    + apply Z.leb_le in E. constructor.
      * constructor; assumption.
      * constructor; [exact E|].
        eapply Forall_impl; [|exact Hy].
        intros z Hz. simpl in *. lia.
    + apply Z.leb_gt in E. constructor; [exact IH|].
      apply (Permutation_Forall (Permutation_sym (insert_by_perm x l))).
      constructor; [lia | exact Hy].
Qed.

Lemma sort_by_sorted (l : list A) :
  StronglySorted (fun a b => (key a <= key b)%Z) (Pg.sort_by key l).
Proof.
  induction l as [|x l IH]; simpl.
  - constructor.
  - apply insert_by_sorted, IH.
Qed.

End Sorting.

Lemma filter_visible (uid : uuid) (f : Hangouts.Row -> bool)
    (l : list Hangouts.Row) :
  (forall r, f r = true ->
             (Hangouts.sender_user_id r =? uid)
             || (Hangouts.recipient_user_id r =? uid) = true) ->
  filter f
    (filter (fun r => (Hangouts.sender_user_id r =? uid)
                      || (Hangouts.recipient_user_id r =? uid)) l)
  = filter f l.
Proof.
  intros H. induction l as [|x l IH]; simpl.
  - reflexivity.
  - destruct (f x) eqn:E.
    + rewrite (H x E). simpl. rewrite E, IH. reflexivity.
    + destruct (_ || _); simpl; rewrite ?E; exact IH.
Qed.

(** The rows [fetchHangs] turns into hangs, as a multiset: the accepted
    rows sent by [uid] that are not before [now1], and the accepted rows
    received by [uid] that are not before [now2]. *)
Lemma fetchHangs_perm (uid : uuid) (now1 now2 : Z) (b : Backend) :
  Permutation (fetchHangs uid now1 now2 b)
    (map (toHang b)
       (map sentRow
          (filter (fun r => (Hangouts.sender_user_id r =? uid)
                            && upcoming now1 r)
                  (hangout_suggestions b))
        ++ map receivedRow
             (filter (fun r => (Hangouts.recipient_user_id r =? uid)
                               && upcoming now2 r)
                     (hangout_suggestions b)))).
Proof.
  unfold fetchHangs. eapply perm_trans; [apply sort_by_perm|].
  apply Permutation_map. unfold sentHangs, receivedHangs, Pg.visible_hangouts.
  rewrite !filter_visible.
  - apply Permutation_app; apply Permutation_map, sort_by_perm.
  - intros r H. apply andb_true_iff in H. destruct H as [H _].
    rewrite H. apply orb_true_r.
  - intros r H. apply andb_true_iff in H. destruct H as [H _].
    rewrite H. reflexivity.
Qed.

Lemma upcoming_iff (now : Z) (r : Hangouts.Row) :
  upcoming now r = true
  <-> Hangouts.status r = accepted
      /\ (now <= Hangouts.proposed_datetime r)%Z.
Proof.
  unfold upcoming. rewrite andb_true_iff, Z.leb_le.
  destruct (Hangouts.status r); simpl; split; intros [H1 H2];
    (split; [congruence || reflexivity | exact H2]).
Qed.

(** C7, as the code has it: [fetchData] reads the clock twice, [now1]
    for the query of the proposals [uid] sent and [now2], after that
    query has been awaited, for the query of the proposals [uid]
    received.  With [now1 <= now2] the upcoming hangs it loads are sorted
    by ascending [proposed_datetime]; they are the accepted proposals
    sent by [uid] that are not before [now1] together with the accepted
    proposals received by [uid] that are not before [now2], each once per
    role.  So every accepted proposal of [uid] that is not before [now2]
    is listed, and every listed hang is an accepted proposal of [uid]
    that is not before [now1]. *)
Theorem upcoming_accepted_hangs (uid : uuid) (now1 now2 : Z) (b : Backend) :
  (now1 <= now2)%Z ->
  let hangs := fetchHangs uid now1 now2 b in
  let rows := hangout_suggestions b in
  let sent r := Hangouts.sender_user_id r = uid in
  let received r := Hangouts.recipient_user_id r = uid in
  let due now r := Hangouts.status r = accepted
                   /\ (now <= Hangouts.proposed_datetime r)%Z in
  let shows h r := hang_id h = Hangouts.id r
                   /\ hang_proposed_datetime h
                      = Hangouts.proposed_datetime r
                   /\ hang_message h = Hangouts.message r
                   /\ hang_location h = Hangouts.location r
                   /\ hang_description h = Hangouts.description r in
  StronglySorted
    (fun x y => (hang_proposed_datetime x <= hang_proposed_datetime y)%Z)
    hangs
  /\ (forall r, In r rows ->
                (sent r /\ due now1 r) \/ (received r /\ due now2 r) ->
                exists h, In h hangs /\ shows h r)
  /\ (forall h, In h hangs ->
                exists r, In r rows
                          /\ ((sent r /\ due now1 r)
                              \/ (received r /\ due now2 r))
                          /\ shows h r)
  /\ (forall r, In r rows -> sent r \/ received r -> due now2 r ->
                exists h, In h hangs /\ shows h r)
  /\ (forall h, In h hangs ->
                exists r, In r rows
                          /\ (sent r \/ received r) /\ due now1 r
                          /\ shows h r)
  /\ Permutation (map hang_id hangs)
       (map Hangouts.id
          (filter (fun r => (Hangouts.sender_user_id r =? uid)
                            && upcoming now1 r) rows)
        ++ map Hangouts.id
             (filter (fun r => (Hangouts.recipient_user_id r =? uid)
                               && upcoming now2 r) rows)).
Proof.
  intros Hnow hangs rows sent received due shows.
  assert (Hlisted : forall r, In r rows ->
            (sent r /\ due now1 r) \/ (received r /\ due now2 r) ->
            exists h, In h hangs /\ shows h r).
  { intros r Hin [[Hs Hd]|[Hr Hd]].
    - exists (toHang b (sentRow r)). split; [|repeat split].
      apply (Permutation_in _
               (Permutation_sym (fetchHangs_perm uid now1 now2 b))).
      apply in_map, in_or_app. left. apply in_map, filter_In.
      split; [exact Hin|]. apply upcoming_iff in Hd.
      rewrite Hs, Nat.eqb_refl, Hd. reflexivity.
    - exists (toHang b (receivedRow r)). split; [|repeat split].
      apply (Permutation_in _
               (Permutation_sym (fetchHangs_perm uid now1 now2 b))).
      apply in_map, in_or_app. right. apply in_map, filter_In.
      split; [exact Hin|]. apply upcoming_iff in Hd.
      rewrite Hr, Nat.eqb_refl, Hd. reflexivity. }
  assert (Hrows : forall h, In h hangs ->
            exists r, In r rows
                      /\ ((sent r /\ due now1 r)
                          \/ (received r /\ due now2 r))
                      /\ shows h r).
  { intros h Hh.
    apply (Permutation_in _ (fetchHangs_perm uid now1 now2 b)) in Hh.
    apply in_map_iff in Hh. destruct Hh as [hr [Hh Hin]]. subst h.
    apply in_app_iff in Hin.
    destruct Hin as [Hin|Hin]; apply in_map_iff in Hin;
      destruct Hin as [r [Hr Hin]]; subst hr;
      apply filter_In in Hin; destruct Hin as [Hin Hc];
      apply andb_true_iff in Hc; destruct Hc as [Hu Hup];
      apply Nat.eqb_eq in Hu; apply upcoming_iff in Hup;
      exists r; (split; [exact Hin|]);
      (split; [|repeat split]).
    - left. split; [exact Hu | exact Hup].
    - right. split; [exact Hu | exact Hup]. }
  split; [apply sort_by_sorted|].
  split; [exact Hlisted|]. split; [exact Hrows|].
  split; [|split].
  - intros r Hin Hmine [Hst Hdt]. apply (Hlisted r Hin).
    destruct Hmine as [Hs|Hr].
    + left. split; [exact Hs|]. split; [exact Hst | lia].
    + right. split; [exact Hr|]. split; [exact Hst | exact Hdt].
  - intros h Hh. destruct (Hrows h Hh) as [r [Hin [Hrole Hshows]]].
    exists r. split; [exact Hin|].
    destruct Hrole as [[Hs [Hst Hdt]]|[Hr [Hst Hdt]]].
    + split; [left; exact Hs|]. split; [|exact Hshows].
      split; [exact Hst | exact Hdt].
    + split; [right; exact Hr|]. split; [|exact Hshows].
      split; [exact Hst | lia].
  - eapply perm_trans.
    + apply Permutation_map, fetchHangs_perm.
    + rewrite map_map, map_app, !map_map. apply Permutation_refl.
Qed.

Lemma upcoming_accepted_hangs_witness :
  let later := Scenario.proposal 31 Scenario.ann Scenario.bob 2000 accepted in
  let b := Scenario.store []
             [later;
              Scenario.proposal 30 Scenario.bob Scenario.ann 1500 accepted;
              Scenario.proposal 32 Scenario.ann Scenario.bob 500 accepted;
              Scenario.proposal 33 Scenario.ann Scenario.bob 3000 pending;
              Scenario.proposal 34 Scenario.bob Scenario.ann 1000 accepted] in
  (1000 <= 1001)%Z
  /\ map hang_id (fetchHangs 1 1000 1001 b) = [30; 31]
  /\ exists h, In h (fetchHangs 1 1000 1001 b) /\ hang_id h = 31.
Proof.
  intros later b.
  assert (Hnow : (1000 <= 1001)%Z) by lia.
  split; [exact Hnow|]. split; [vm_compute; reflexivity|].
  destruct (@upcoming_accepted_hangs 1 1000 1001 b Hnow)
    as [_ [_ [_ [H _]]]].
  destruct (H later) as [h [Hin [Hid _]]].
  - left. reflexivity.
  - left. reflexivity.
  - split; [reflexivity | vm_compute; discriminate].
  - exists h. split; [exact Hin | exact Hid].
Defined.

(** C7 fails on the code: Ann sent proposal 31 and received proposal 30,
    both accepted and both at time 1000.  Her dashboard reads the clock
    at 1000 before the first query and at 1001 before the second, and
    lists 31 only.  No single time [now] makes this list the accepted
    proposals of Ann that are not before [now]: up to 1000 proposal 30 is
    missing, after 1000 proposal 31 should not be listed.  And a
    proposal Ann addressed to herself is listed twice. *)
Lemma hang_between_clock_readings :
  let b := Scenario.store []
             [Scenario.proposal 31 Scenario.ann Scenario.bob 1000 accepted;
              Scenario.proposal 30 Scenario.bob Scenario.ann 1000 accepted] in
  let hangs := fetchHangs 1 1000 1001 b in
  let mine r := Hangouts.sender_user_id r = 1
                \/ Hangouts.recipient_user_id r = 1 in
  let due now r := Hangouts.status r = accepted
                   /\ (now <= Hangouts.proposed_datetime r)%Z in
  map hang_id hangs = [31]
  /\ (forall now,
        ~ ((forall r, In r (hangout_suggestions b) -> mine r -> due now r ->
                      exists h, In h hangs /\ hang_id h = Hangouts.id r)
           /\ (forall h, In h hangs ->
                         exists r, In r (hangout_suggestions b)
                                   /\ mine r /\ due now r
                                   /\ hang_id h = Hangouts.id r)))
  /\ map hang_id
       (fetchHangs 1 1000 1000
          (Scenario.store []
             [Scenario.proposal 40 Scenario.ann Scenario.ann 2000 accepted]))
     = [40; 40].
Proof.
  intros b hangs mine due.
  assert (Hlist : map hang_id hangs = [31]) by (vm_compute; reflexivity).
  split; [exact Hlist|]. split; [|vm_compute; reflexivity].
  intros now [Hall Honly].
  destruct (Z_le_gt_dec now 1000) as [Hle|Hgt].
  - destruct (Hall (Scenario.proposal 30 Scenario.bob Scenario.ann 1000
                      accepted)) as [h [Hh Hid]].
    + right. left. reflexivity.
    + right. reflexivity.
    + split; [reflexivity | exact Hle].
    + apply (in_map hang_id) in Hh. rewrite Hlist, Hid in Hh.
      destruct Hh as [Hh|[]]. discriminate Hh.
  - assert (Hex : exists h, In h hangs) .
    { destruct hangs as [|h l]; [discriminate Hlist|].
      exists h. left. reflexivity. }
    destruct Hex as [h Hh].
    destruct (Honly h Hh) as [r [Hin [_ [[_ Hdt] _]]]].
    destruct Hin as [Hr|[Hr|[]]]; subst r; cbn in Hdt; lia.
Qed.

End HangoutFacts.

(* ------------------------------------------------------------------ *)
(** ** The toggle under any backend answers *)

Module ToggleMore.
Import Calendar Expected Intervals.
Local Open Scope toggle_scope.

(** *** The string order *)

Lemma compare_same (s : string) : String.compare s s = Eq.
Proof.
  induction s as [|a s IH]; simpl; [reflexivity|].
  unfold Ascii.compare. rewrite N.compare_refl. exact IH.
Qed.

Lemma le_same (s : string) : JS.le s s = true.
Proof. unfold JS.le, String.leb. rewrite compare_same. reflexivity. Qed.

Lemma le_chain (a : string) :
  forall b c, JS.le a b = true -> JS.le b c = true -> JS.le a c = true.
Proof.
  unfold JS.le, String.leb.
  induction a as [|x a IH]; intros [|y b] [|z c]; simpl; try easy.
  unfold Ascii.compare.
  destruct (N.compare_spec (N_of_ascii x) (N_of_ascii y)) as [E1|L1|G1];
    try easy;
    destruct (N.compare_spec (N_of_ascii y) (N_of_ascii z)) as [E2|L2|G2];
    try easy.
  - rewrite E1, E2, N.compare_refl. apply IH.
  - intros _ _. rewrite E1. apply N.compare_lt_iff in L2. rewrite L2.
    reflexivity.
  - intros _ _. rewrite <- E2. apply N.compare_lt_iff in L1. rewrite L1.
    reflexivity.
  - intros _ _.
    assert (L : (N_of_ascii x < N_of_ascii z)%N) by lia.
    apply N.compare_lt_iff in L. rewrite L. reflexivity.
Qed.

Lemma lt_le (a b : string) : JS.lt a b = true -> JS.le a b = true.
Proof.
  unfold JS.lt, JS.le, String.ltb, String.leb.
  destruct (String.compare a b); easy.
Qed.

(** *** One iteration, whatever the backend answers *)

Lemma toggleCell_cases (p : Profile) (snapshot : list Availability)
    (all : bool) (c : Cell) (w : World) :
  let w' := snd (toggleCell p snapshot all c w) in
  selectedCells w' = selectedCells w
  /\ ((table w' = table w /\ availability w' = availability w)
      \/ (exists m rows,
            isCellAvailable snapshot (dow c) (hour c) = Some m
            /\ all = true
            /\ availability w' = without (id m) (availability w) ++ rows
            /\ table w'
               = filter (fun r => negb (id (snd r) =? id m)) (table w)
                 ++ owned (profile_id p) rows
            /\ Forall (remainder_of m c) rows)
      \/ (exists i,
            isCellAvailable snapshot (dow c) (hour c) = None
            /\ all = false
            /\ table w' = table w ++ [(profile_id p, oneHour i c)]
            /\ availability w' = availability w ++ [oneHour i c])).
Proof.
  unfold toggleCell.
  destruct (isCellAvailable snapshot (dow c) (hour c)) as [m|] eqn:Hm;
    destruct all; unfold ret; cbn [snd];
    try (split; [reflexivity | left; split; reflexivity]).
  - (* remove *)
    unfold bind, db_delete, db_insert, ret, setAvailability. cbv zeta.
    destruct (hd false (faults w)) eqn:F1; cbv beta iota.
    + split; [reflexivity | left; split; reflexivity].
    + destruct (JS.lt (start_time m) (hourString (hour c))) eqn:L;
        destruct (JS.gt (end_time m) (hourString (hour c + 1))) eqn:G;
        cbn [table next_id faults log availability selectedCells snd];
        repeat match goal with
               | |- context [hd false ?l] => destruct (hd false l)
               end;
        cbn [table next_id faults log availability selectedCells snd
             pushIf app];
        (split; [reflexivity|]); right; left;
        eexists m, _; (split; [reflexivity|]); (split; [reflexivity|]);
        (split; [unfold without; reflexivity|]);
        (split; [unfold owned; cbn [map];
                 rewrite <- ?app_assoc, ?app_nil_r; reflexivity|]);
        repeat constructor; unfold remainder_of; cbn; tauto.
  - (* add *)
    unfold bind, db_insert.
    destruct (hd false (faults w)); cbn [snd].
    + split; [reflexivity | left; split; reflexivity].
    + unfold setAvailability. cbn.
      split; [reflexivity|]. right. right. exists (next_id w).
      repeat split.
Qed.

(** *** Invariants of the loop *)

Lemma forEach_invariant {A : Type} (P : World -> Prop)
    (body : A -> M unit) (cells : list A) :
  (forall c v, In c cells -> P v -> P (snd (body c v))) ->
  forall w, P w -> P (snd (forEach cells body w)).
Proof.
  induction cells as [|c r IH]; intros Hstep w Hw; simpl.
  - exact Hw.
  - unfold bind. destruct (body c w) as [u w1] eqn:E.
    apply IH.
    + intros c' v Hc'. apply Hstep. right. exact Hc'.
    + replace w1 with (snd (body c w)) by (rewrite E; reflexivity).
      apply Hstep; [left; reflexivity | exact Hw].
Qed.

Lemma toggle_invariant (P : World -> Prop) (profile : option Profile)
    (w : World) :
  (forall p c v,
     profile = Some p -> In c (selectedCells w) -> P v ->
     P (snd (toggleCell p (availability w)
               (allAvailable (availability w) (selectedCells w)) c v))) ->
  (forall v, P v -> P (snd (setSelectedCells [] v))) ->
  P w -> P (run (handleToggleAvailability profile) w).
Proof.
  intros Hstep Hclear Hw. unfold run, handleToggleAvailability.
  destruct profile as [p|]; [|exact Hw].
  destruct (List.length (selectedCells w) =? 0); [exact Hw|].
  unfold bind.
  destruct (forEach (selectedCells w) _ w) as [u w1] eqn:E.
  apply Hclear.
  replace w1 with (snd (forEach (selectedCells w)
                          (toggleCell p (availability w)
                             (allAvailable (availability w)
                                (selectedCells w))) w))
    by (rewrite E; reflexivity).
  apply forEach_invariant; [|exact Hw].
  intros c v Hc Hv. apply Hstep; [reflexivity | exact Hc | exact Hv].
Qed.

Lemma map_snd_filter (i : uuid) (l : list (uuid * Availability)) :
  map snd (filter (fun r => negb (id (snd r) =? i)) l)
  = without i (map snd l).
Proof.
  unfold without. induction l as [|x l IH]; simpl; [reflexivity|].
  destruct (negb (id (snd x) =? i)); simpl; rewrite IH; reflexivity.
Qed.

Lemma map_snd_owned (u : uuid) (rows : list Availability) :
  map snd (owned u rows) = rows.
Proof.
  unfold owned. rewrite map_map. simpl. apply map_id.
Qed.

(** X1: the table and the loaded availability stay the same list of
    intervals through a toggle, whichever requests fail: every change the
    backend accepted is mirrored in the React state, and a refused one is
    mirrored by no change. *)
Theorem toggle_keeps_in_sync (profile : option Profile) (w : World) :
  in_sync w ->
  let w' := run (handleToggleAvailability profile) w in
  availability w' = map snd (table w').
Proof.
  intros H w'. subst w'. revert H.
  apply (@toggle_invariant in_sync).
  - intros p c v _ _ Hv. unfold in_sync in *.
    destruct (toggleCell_cases p (availability w)
                (allAvailable (availability w) (selectedCells w)) c v)
      as [_ [[Ht Ha]|[[m [rows [_ [_ [Ha [Ht _]]]]]]|[i [_ [_ [Ht Ha]]]]]]];
      rewrite Ha, Ht.
    + exact Hv.
    + rewrite map_app, map_snd_filter, map_snd_owned, Hv. reflexivity.
    + rewrite map_app, Hv. reflexivity.
  - intros v Hv. exact Hv.
Qed.

Lemma toggle_keeps_in_sync_witness :
  let stored := Scenario.wednesday_evening in
  let w := mkWorld [(7, stored)] 2 [false; true; false; false; true] []
             [stored]
             [Scenario.wednesday 17; Scenario.wednesday 18;
              Scenario.wednesday 19] in
  in_sync w
  /\ availability (Scenario.toggle w)
     = [mkAvailability 2 3 "17:00:00" "18:00:00";
        mkAvailability 3 3 "17:00:00" "19:00:00"]
  /\ in_sync (Scenario.toggle w).
Proof.
  intros stored w.
  assert (H : in_sync w) by reflexivity.
  split; [exact H|]. split; [vm_compute; reflexivity|].
  exact (@toggle_keeps_in_sync (Some Scenario.alice) w H).
Defined.

Lemma same_id_same_interval (l : list Availability) (a a' : Availability) :
  NoDup (map id l) -> In a l -> In a' l -> id a = id a' -> a = a'.
Proof.
  induction l as [|x l IH]; intros Hnd Ha Ha' Hid; [contradiction|].
  simpl in Hnd. inversion Hnd as [|? ? Hnot Hnd']; subst.
  destruct Ha as [Ha|Ha]; destruct Ha' as [Ha'|Ha'].
  - congruence.
  - subst x. exfalso. apply Hnot. rewrite Hid. apply in_map, Ha'.
  - subst x. exfalso. apply Hnot. rewrite <- Hid. apply in_map, Ha.
  - apply IH; assumption.
Qed.

(** X2: a stored interval that covers none of the selected cells is never
    touched by a toggle, whichever requests fail: it stays in the table
    and in the loaded availability. *)
Theorem toggle_leaves_other_intervals (profile : option Profile)
    (w : World) (r : uuid * Availability) :
  in_sync w ->
  NoDup (map id (availability w)) ->
  In r (table w) ->
  (forall c, In c (selectedCells w) ->
             covers (dow c) (hour c) (snd r) = false) ->
  let w' := run (handleToggleAvailability profile) w in
  In r (table w') /\ In (snd r) (availability w').
Proof.
  intros Hsync Hnd Hr Hfree w'.
  assert (Hsnd : In (snd r) (availability w)).
  { rewrite Hsync. apply in_map, Hr. }
  assert (Hother : forall c m,
            In c (selectedCells w) ->
            isCellAvailable (availability w) (dow c) (hour c) = Some m ->
            id (snd r) <> id m).
  { intros c m Hc Hm Hid.
    unfold isCellAvailable in Hm. apply find_some in Hm.
    destruct Hm as [Hin Hcov].
    rewrite <- (same_id_same_interval _ _ _ Hnd Hsnd Hin Hid) in Hcov.
    rewrite (Hfree c Hc) in Hcov. discriminate. }
  subst w'.
  apply toggle_invariant
    with (P := fun v => In r (table v) /\ In (snd r) (availability v)).
  - intros p c v _ Hc [Hv Ha].
    destruct (toggleCell_cases p (availability w)
                (allAvailable (availability w) (selectedCells w)) c v)
      as [_ [[Ht Hav]|[[m [rows [Hm [_ [Hav [Ht _]]]]]]
                      |[i [_ [_ [Ht Hav]]]]]]];
      rewrite Ht, Hav.
    + split; assumption.
    + pose proof (Hother c m Hc Hm) as Hne.
      apply Nat.eqb_neq in Hne. split.
      * apply in_or_app. left. apply filter_In. split; [exact Hv|].
        rewrite Hne. reflexivity.
      * apply in_or_app. left. unfold without. apply filter_In.
        split; [exact Ha|]. rewrite Hne. reflexivity.
    + split; apply in_or_app; left; assumption.
  - intros v Hv. exact Hv.
  - split; assumption.
Qed.

Lemma toggle_leaves_other_intervals_witness :
  let morning := mkAvailability 5 3 "09:00:00" "11:00:00" in
  let w := mkWorld [(7, Scenario.wednesday_evening); (7, morning)] 6
             [false; true] []
             [Scenario.wednesday_evening; morning]
             [Scenario.wednesday 18] in
  In (7, morning) (table (Scenario.toggle w))
  /\ In morning (availability (Scenario.toggle w)).
Proof.
  intros morning w.
  apply (@toggle_leaves_other_intervals (Some Scenario.alice) w (7, morning)).
  - reflexivity.
  - vm_compute. repeat constructor; simpl; intuition discriminate.
  - right. left. reflexivity.
  - intros c [Hc|[]]. subst c. vm_compute. reflexivity.
Defined.

(** *** The remove direction adds no availability *)

Lemma within_covers (d x : nat) (a' a : Availability) :
  within a' a -> covers d x a' = true -> covers d x a = true.
Proof.
  intros [Hd [Hs He]] Hc. unfold covers in *.
  apply andb_true_iff in Hc. destruct Hc as [Hc H2].
  apply andb_true_iff in Hc. destruct Hc as [H0 H1].
  rewrite <- Hd, H0. simpl.
  rewrite (le_chain _ _ _ Hs H1). simpl.
  unfold JS.ge in *.
  change (String.leb (hourString (x + 1)) (end_time a))
    with (JS.le (hourString (x + 1)) (end_time a)).
  change (String.leb (hourString (x + 1)) (end_time a'))
    with (JS.le (hourString (x + 1)) (end_time a')) in H2.
  exact (le_chain _ _ _ H2 He).
Qed.

Lemma remainder_within (m a : Availability) (c : Cell) :
  hour c < 99 ->
  covers (dow c) (hour c) m = true ->
  remainder_of m c a -> within a m.
Proof.
  intros Hh Hc Hr. unfold covers in Hc.
  apply andb_true_iff in Hc. destruct Hc as [Hc H2].
  apply andb_true_iff in Hc. destruct Hc as [H0 H1].
  apply Nat.eqb_eq in H0.
  assert (Hnext : JS.le (hourString (hour c)) (hourString (hour c + 1))
                  = true).
  { rewrite ToggleFacts.hourString_le by lia. apply Nat.leb_le. lia. }
  unfold JS.ge in H2.
  change (String.leb (hourString (hour c + 1)) (end_time m))
    with (JS.le (hourString (hour c + 1)) (end_time m)) in H2.
  destruct Hr as [[_ [Hd [Hs He]]]|[_ [Hd [Hs He]]]];
    unfold within; rewrite Hd, Hs, He, H0.
  - split; [reflexivity|]. split; [apply le_same|].
    exact (le_chain _ _ _ Hnext H2).
  - split; [reflexivity|]. split; [|apply le_same].
    exact (le_chain _ _ _ H1 Hnext).
Qed.

(** X3: a toggle in the remove direction never makes an hour available that
    was not available before, whichever requests fail: every interval it
    leaves or inserts lies within an interval that was loaded. *)
Theorem remove_adds_no_coverage (profile : option Profile) (w : World)
    (d x : nat) :
  Forall (fun c => hour c < 99) (selectedCells w) ->
  allAvailable (availability w) (selectedCells w) = true ->
  let w' := run (handleToggleAvailability profile) w in
  JS.truthy (isCellAvailable (availability w') d x) = true ->
  JS.truthy (isCellAvailable (availability w) d x) = true.
Proof.
  intros Hh Hall w' Hav.
  assert (Hinv : Forall (fun a' => exists a, In a (availability w)
                                            /\ within a' a)
                        (availability w')).
  { subst w'.
    apply toggle_invariant
      with (P := fun v => Forall (fun a' => exists a,
                                    In a (availability w) /\ within a' a)
                                 (availability v)).
    - intros p c v _ Hc Hv.
      destruct (toggleCell_cases p (availability w)
                  (allAvailable (availability w) (selectedCells w)) c v)
        as [_ [[_ Ha]|[[m [rows [Hm [_ [Ha [_ Hrows]]]]]]
                      |[i [_ [Hno _]]]]]].
      + rewrite Ha. exact Hv.
      + rewrite Ha. apply Forall_app. split.
        * unfold without. rewrite Forall_forall in *.
          intros a' Ha'. apply filter_In in Ha'. apply Hv, Ha'.
        * unfold isCellAvailable in Hm. apply find_some in Hm.
          destruct Hm as [Hin Hcov].
          rewrite Forall_forall in Hh. specialize (Hh c Hc).
          eapply Forall_impl; [|exact Hrows].
          intros a Hrem. exists m. split; [exact Hin|].
          eapply remainder_within; eassumption.
      + rewrite Hall in Hno. discriminate.
    - intros v Hv. exact Hv.
    - rewrite Forall_forall. intros a Ha. exists a. split; [exact Ha|].
      unfold within. split; [reflexivity|]. split; apply le_same. }
  apply ToggleFacts.available_iff in Hav. destruct Hav as [a' [Hin Hcov]].
  rewrite Forall_forall in Hinv. destruct (Hinv a' Hin) as [a [Ha Hw]].
  apply ToggleFacts.available_iff. exists a. split; [exact Ha|].
  eapply within_covers; eassumption.
Qed.

Lemma remove_adds_no_coverage_witness :
  let w := Scenario.loaded [Scenario.wednesday_evening] 2
             [Scenario.wednesday 17; Scenario.wednesday 18] in
  JS.truthy (isCellAvailable (availability (Scenario.toggle w)) 3 19) = true
  /\ JS.truthy (isCellAvailable (availability w) 3 19) = true.
Proof.
  intros w.
  assert (H : JS.truthy (isCellAvailable
                           (availability (Scenario.toggle w)) 3 19) = true)
    by (vm_compute; reflexivity).
  split; [exact H|].
  apply (@remove_adds_no_coverage (Some Scenario.alice) w 3 19).
  - repeat constructor; simpl; lia.
  - vm_compute. reflexivity.
  - exact H.
Defined.

(** *** The add direction *)

Lemma own_row_listed (c : Cell) (cells : list Cell) :
  forall i, In c cells -> exists j, In (oneHour j c) (oneHourRows i cells).
Proof.
  induction cells as [|c0 r IH]; intros i Hc; [contradiction|].
  destruct Hc as [Hc|Hc].
  - subst c0. exists i. left. reflexivity.
  - destruct (IH (S i) Hc) as [j Hj]. exists j. right. exact Hj.
Qed.

(** X4: after a toggle in the add direction that the backend answered without
    error, every selected hour is available and every hour that was
    available still is: pressing the toggle again on the same selection
    takes the remove direction. *)
Theorem add_makes_selection_available (p : Profile) (w : World) :
  faults w = [] ->
  selectedCells w <> [] ->
  allAvailable (availability w) (selectedCells w) = false ->
  Forall (fun c => hour c < 99) (selectedCells w) ->
  let w' := run (handleToggleAvailability (Some p)) w in
  allAvailable (availability w') (selectedCells w) = true
  /\ forall d x,
       JS.truthy (isCellAvailable (availability w) d x) = true ->
       JS.truthy (isCellAvailable (availability w') d x) = true.
Proof.
  intros Hf Hne Hall Hh w'.
  assert (Hav : availability w'
                = availability w
                  ++ oneHourRows (next_id w)
                       (uncovered (availability w) (selectedCells w))).
  { subst w'. unfold run.
    destruct (selectedCells w) as [|c r] eqn:Hsel; [congruence|].
    rewrite (ToggleFacts.handle_cons p w Hsel). unfold bind.
    rewrite Hall, ToggleFacts.add_loop. cbv zeta.
    unfold setSelectedCells. cbn [snd availability].
    rewrite Hf, ToggleFacts.inserted_no_faults. reflexivity. }
  rewrite Hav. split.
  - apply ToggleFacts.allAvailable_iff. intros c Hc.
    destruct (JS.truthy (isCellAvailable (availability w) (dow c) (hour c)))
      eqn:E.
    + apply ToggleFacts.available_iff in E. destruct E as [a [Ha Hcov]].
      exists a. split; [apply in_or_app; left; exact Ha | exact Hcov].
    + assert (Hu : In c (uncovered (availability w) (selectedCells w))).
      { unfold uncovered. apply filter_In. split; [exact Hc|].
        rewrite E. reflexivity. }
      destruct (own_row_listed c _ (next_id w) Hu) as [j Hj].
      exists (oneHour j c). split; [apply in_or_app; right; exact Hj|].
      rewrite Forall_forall in Hh. specialize (Hh c Hc).
      rewrite ToggleFacts.oneHour_covers by assumption.
      rewrite !Nat.eqb_refl. reflexivity.
  - intros d x H. apply ToggleFacts.available_iff in H.
    destruct H as [a [Ha Hcov]]. apply ToggleFacts.available_iff.
    exists a. split; [apply in_or_app; left; exact Ha | exact Hcov].
Qed.

Lemma add_makes_selection_available_witness :
  let w := Scenario.loaded [Scenario.wednesday_evening] 2
             [Scenario.wednesday 19; Scenario.wednesday 20;
              Scenario.wednesday 21] in
  allAvailable (availability w) (selectedCells w) = false
  /\ allAvailable (availability (Scenario.toggle w)) (selectedCells w)
     = true.
Proof.
  intros w.
  assert (Hall : allAvailable (availability w) (selectedCells w) = false)
    by (vm_compute; reflexivity).
  split; [exact Hall|].
  apply (@add_makes_selection_available Scenario.alice w).
  - reflexivity.
  - discriminate.
  - exact Hall.
  - repeat constructor; simpl; lia.
Defined.

Lemma round_trip_free_hours_witness :
  let morning := mkAvailability 1 3 "09:00:00" "11:00:00" in
  let w := Scenario.loaded [morning] 2 [] in
  let cells := [Scenario.wednesday 18; Scenario.wednesday 19] in
  let toggle v :=
    run (handleToggleAvailability (Some Scenario.alice))
        (run (setSelectedCells cells) v) in
  map snd (table (toggle w))
  = [morning; mkAvailability 2 3 "18:00:00" "19:00:00";
     mkAvailability 3 3 "19:00:00" "20:00:00"]
  /\ table (toggle (toggle w)) = table w
  /\ availability (toggle (toggle w)) = availability w.
Proof.
  intros morning w cells toggle.
  split; [vm_compute; reflexivity|].
  destruct (@ToggleFacts.round_trip_free_hours Scenario.alice w cells)
    as [_ [Ht [Ha _]]].
  - reflexivity.
  - discriminate.
  - vm_compute. repeat constructor; simpl; intuition discriminate.
  - repeat constructor; simpl; lia.
  - intros c [Hc|[Hc|[]]]; subst c; vm_compute; reflexivity.
  - intros r [Hr|[]]. subst r. simpl. lia.
  - intros a [Ha|[]]. subst a. simpl. lia.
  - split; [exact Ht | exact Ha].
Defined.

End ToggleMore.

(* ------------------------------------------------------------------ *)
(** ** Dragging *)

Module PointerFacts.
Import Pointer.

Lemma buildRange_is_run (s e : Calendar.Cell) :
  exists h n,
    Calendar.buildRange s e
    = columnRun (Calendar.dow s) (Calendar.colIdx s) h (S n)
    /\ h <= Calendar.hour s < h + S n.
Proof.
  unfold Calendar.buildRange, columnRun.
  destruct (negb (Calendar.colIdx s =? Calendar.colIdx e)).
  - exists (Calendar.hour s), 0. split; [|lia].
    destruct s; reflexivity.
  - exists (Nat.min (Calendar.hour s) (Calendar.hour e)),
           (Nat.max (Calendar.hour s) (Calendar.hour e)
            - Nat.min (Calendar.hour s) (Calendar.hour e)).
    split; [|lia]. cbv zeta. f_equal. f_equal. lia.
Qed.

Lemma run_has_cell (day col h n x : nat) :
  h <= x < h + n -> In (Calendar.mkCell day x col) (columnRun day col h n).
Proof.
  intros H. unfold columnRun.
  apply (in_map (fun y => Calendar.mkCell day y col)), in_seq. exact H.
Qed.

Lemma run_no_duplicates (day col h n : nat) :
  NoDup (map Expected.key (columnRun day col h n)).
Proof.
  unfold columnRun. rewrite map_map. unfold Expected.key. simpl.
  apply Finite.Injective_map_NoDup; [|apply seq_NoDup].
  intros a b H. congruence.
Qed.

(** The selection and the drag start go together: the selection is a run
    of consecutive hours of one day in one column, and while a drag is
    under way it contains the cell the drag started on. *)
Lemma step_keeps_run (d : Drag) (e : Event) :
  ((exists day col h n, selectedCells d = columnRun day col h n)
   /\ (forall s, isDragging d = true -> dragStart d = Some s ->
                 In s (selectedCells d))) ->
  (exists day col h n, selectedCells (step d e) = columnRun day col h n)
  /\ (forall s, isDragging (step d e) = true ->
                dragStart (step d e) = Some s ->
                In s (selectedCells (step d e))).
Proof.
  intros [Hrun Hstart]. destruct e as [c|t| |]; simpl.
  - unfold handlePointerDown. cbn. split.
    + exists (Calendar.dow c), (Calendar.colIdx c), (Calendar.hour c), 1.
      reflexivity.
    + intros s _ Hs. inversion Hs. left. reflexivity.
  - unfold handleGridPointerMove.
    destruct (isDragging d) eqn:Hd; simpl;
      [|rewrite Hd; split; [exact Hrun | discriminate]].
    destruct (dragStart d) as [s|] eqn:Hs;
      [|rewrite Hs; split; [exact Hrun | discriminate]].
    destruct t as [t|];
      [|rewrite Hd, Hs; split;
        [exact Hrun | intros s' _ E; apply Hstart; [reflexivity | exact E]]].
    destruct (buildRange_is_run s t) as [h [n [Heq Hin]]]. split.
    + exists (Calendar.dow s), (Calendar.colIdx s), h, (S n). exact Heq.
    + intros s' _ Hs'. inversion Hs'; subst s'. rewrite Heq.
      replace s with (Calendar.mkCell (Calendar.dow s) (Calendar.hour s)
                                      (Calendar.colIdx s))
        at 1 by (destruct s; reflexivity).
      apply run_has_cell, Hin.
  - unfold handlePointerUp. cbn. split; [exact Hrun|]. discriminate.
  - unfold onUp. destruct (isDragging d) eqn:Hd; cbn.
    + split; [exact Hrun|]. discriminate.
    + split; [exact Hrun|]. rewrite Hd. discriminate.
Qed.

(** X6: whatever pointer events arrive, in whatever order, the selected cells
    are a run of consecutive hours of one day in one column, no hour
    twice, and while a drag is under way the run contains the cell the
    drag started on. *)
Theorem drag_selects_one_run (events : list Event) :
  let d := play events initial in
  (exists day col h n, selectedCells d = columnRun day col h n)
  /\ NoDup (map Expected.key (selectedCells d))
  /\ (forall s, isDragging d = true -> dragStart d = Some s ->
                In s (selectedCells d)).
Proof.
  intros d.
  assert (H : (exists day col h n, selectedCells d = columnRun day col h n)
              /\ (forall s, isDragging d = true -> dragStart d = Some s ->
                            In s (selectedCells d))).
  { subst d. unfold play.
    assert (Hinit : (exists day col h n,
                       selectedCells initial = columnRun day col h n)
                    /\ (forall s, isDragging initial = true ->
                                  dragStart initial = Some s ->
                                  In s (selectedCells initial))).
    { split; [exists 0, 0, 0, 0; reflexivity | discriminate]. }
    revert Hinit. generalize initial.
    induction events as [|e r IH]; intros d0 Hd0; simpl.
    - exact Hd0.
    - apply IH, step_keeps_run, Hd0. }
  destruct H as [[day [col [h [n Hrun]]]] Hstart].
  split; [exists day, col, h, n; exact Hrun|].
  split; [rewrite Hrun; apply run_no_duplicates | exact Hstart].
Qed.

(** X7: once the pointer is released, moving it over the grid changes
    nothing, until the next pointer down. *)
Theorem moves_after_release_ignored (d : Drag)
    (targets : list (option Calendar.Cell)) :
  play (Up :: map Move targets) d = handlePointerUp d.
Proof.
  assert (H : forall d0, isDragging d0 = false ->
                         fold_left step (map Move targets) d0 = d0).
  { induction targets as [|t r IH]; intros d0 Hd0; simpl; [reflexivity|].
    unfold handleGridPointerMove. rewrite Hd0. simpl. apply IH, Hd0. }
  unfold play. simpl. apply H. reflexivity.
Qed.

End PointerFacts.

(* ------------------------------------------------------------------ *)
(** ** Labels *)

Module LabelFacts.
Import Calendar Labels.

Lemma formatHour_table :
  forallb
    (fun a =>
       forallb
         (fun b => implb (String.eqb (formatHour a) (formatHour b)) (a =? b))
         (seq 0 24))
    (seq 0 24)
  = true.
Proof. vm_compute. reflexivity. Qed.

(** X8: the hours of a day get pairwise different labels, but hour 24, which
    the action bar asks for as the end of a selection that ends with hour
    23, is labelled like noon. *)
Theorem formatHour_distinct :
  (forall a b, a < 24 -> b < 24 -> formatHour a = formatHour b -> a = b)
  /\ formatHour 24 = formatHour 12.
Proof.
  split; [|reflexivity].
  intros a b Ha Hb H. pose proof formatHour_table as T.
  rewrite forallb_forall in T.
  assert (Ia : In a (seq 0 24)) by (apply in_seq; lia).
  specialize (T a Ia). rewrite forallb_forall in T.
  assert (Ib : In b (seq 0 24)) by (apply in_seq; lia).
  specialize (T b Ib). rewrite H, String.eqb_refl in T. simpl in T.
  apply Nat.eqb_eq, T.
Qed.

Lemma formatHour_distinct_witness :
  formatHour 21 = "9 PM"%string
  /\ forall b, b < 24 -> formatHour b = "9 PM"%string -> b = 21.
Proof.
  split; [reflexivity|]. intros b Hb E.
  destruct formatHour_distinct as [H _].
  symmetry. apply H; [lia | exact Hb | rewrite E; reflexivity].
Defined.

(** *** The action bar *)

Lemma forallb_perm {A : Type} (f : A -> bool) (l l' : list A) :
  Permutation l l' -> forallb f l = forallb f l'.
Proof.
  induction 1; simpl.
  - reflexivity.
  - rewrite IHPermutation. reflexivity.
  - destruct (f x), (f y); reflexivity.
  - congruence.
Qed.

Lemma sorted_run (day col : nat) (n : nat) :
  forall h, Pg.sort_by hourKey (Pointer.columnRun day col h n)
            = Pointer.columnRun day col h n.
Proof.
  unfold Pointer.columnRun.
  induction n as [|n IH]; intros h; [reflexivity|].
  cbn [seq map Pg.sort_by]. 
  change (Pg.sort_by hourKey
            (map (fun x => mkCell day x col) (seq (S h) n)))
    with (Pg.sort_by hourKey (Pointer.columnRun day col (S h) n)).
  unfold Pointer.columnRun. rewrite IH.
  destruct n as [|n]; [reflexivity|].
  cbn [seq map Pg.insert_by]. unfold hourKey at 1 2. cbn [hour].
  destruct (Z.leb_spec (Z.of_nat h) (Z.of_nat (S h))) as [_|Hlt];
    [reflexivity | lia].
Qed.

Lemma last_of_run (day col h n : nat) :
  hd_error (rev (Pointer.columnRun day col h (S n)))
  = Some (mkCell day (h + n) col).
Proof.
  unfold Pointer.columnRun. rewrite seq_S, map_app, rev_app_distr.
  reflexivity.
Qed.

(** X9: while cells are selected the action bar is shown, and it announces
    what the toggle will do: its button reads "Remove availability"
    exactly when the toggle takes the remove direction, and its status is
    "Unavailable" exactly when no selected hour is covered.  For a dragged
    run of hours it names the day of the run, the first hour and the hour
    after the last one. *)
Theorem action_bar_announces_toggle (availability : list Availability)
    (cells : list Cell) :
  cells <> [] ->
  exists bar,
    actionBar availability cells = Some bar
    /\ (buttonLabel bar = "Remove availability"%string
        <-> allAvailable availability cells = true)
    /\ (statusLabel bar = "Available"%string
        <-> allAvailable availability cells = true)
    /\ (statusLabel bar = "Unavailable"%string
        <-> Expected.uncovered availability cells = cells)
    /\ (forall day col h n,
          cells = Pointer.columnRun day col h (S n) ->
          dayName bar = nth day DAYS "undefined"%string
          /\ fromLabel bar = formatHour h
          /\ toLabel bar = formatHour (h + n + 1)
          /\ hrs bar = (if 0 <? n then Some (S n) else None)).
Proof.
  intros Hne. unfold actionBar.
  destruct cells as [|c0 r] eqn:Hcells; [congruence|].
  rewrite <- Hcells in *.
  assert (Hlen : (0 <? List.length cells) = true)
    by (rewrite Hcells; reflexivity).
  rewrite Hlen.
  pose proof (HangoutFacts.sort_by_perm hourKey cells) as Hperm.
  remember (Pg.sort_by hourKey cells) as sorted eqn:Hs.
  assert (Hsl : List.length sorted = List.length cells)
    by (apply Permutation_length, Hperm).
  destruct sorted as [|first rest] eqn:Hsorted.
  { rewrite Hcells in Hsl. discriminate. }
  rewrite <- Hsorted in *. 
  assert (Hfirst : hd_error sorted = Some first)
    by (rewrite Hsorted; reflexivity).
  rewrite Hfirst.
  destruct (hd_error (rev sorted)) as [last|] eqn:Hlast.
  2:{ exfalso. rewrite Hsorted in Hlast. simpl in Hlast.
      destruct (rev rest); discriminate. }
  eexists. split; [reflexivity|].
  cbn [buttonLabel statusLabel dayName fromLabel toLabel hrs].
  rewrite (forallb_perm _ Hperm).
  rewrite (forallb_perm
             (fun c => negb (JS.truthy (isCellAvailable availability
                                          (dow c) (hour c)))) Hperm).
  fold (allAvailable availability cells).
  assert (Hunc : forallb (fun c => negb (JS.truthy
                            (isCellAvailable availability (dow c) (hour c))))
                         cells = true
                 <-> Expected.uncovered availability cells = cells).
  { unfold Expected.uncovered. split.
    - intros H. apply forallb_filter_id. exact H.
    - intros H. rewrite <- H. apply forallb_filter. }
  split; [|split; [|split; [|]]].
  - destruct (allAvailable availability cells); split; easy.
  - destruct (allAvailable availability cells); [split; easy|].
    destruct (forallb _ cells); split; easy.
  - rewrite <- Hunc.
    destruct (allAvailable availability cells) eqn:Hall.
    + split; [discriminate|]. intros H. exfalso.
      unfold allAvailable in Hall. rewrite Hcells in Hall, H.
      simpl in Hall, H. destruct (JS.truthy _); discriminate.
    + destruct (forallb _ cells); split; easy.
  - intros day col h n Hrun.
    rewrite Hrun in Hs. rewrite sorted_run in Hs.
    rewrite Hs in Hfirst, Hlast, Hsl |- *.
    rewrite last_of_run in Hlast. inversion Hlast; subst last.
    unfold Pointer.columnRun in Hfirst. simpl in Hfirst.
    inversion Hfirst; subst first. cbn [dow hour].
    split; [reflexivity|]. split; [reflexivity|]. split; [reflexivity|].
    unfold Pointer.columnRun. rewrite length_map, length_seq.
    destruct n; reflexivity.
Qed.

Lemma action_bar_announces_toggle_witness :
  exists bar,
    actionBar [Scenario.wednesday_evening] (Pointer.columnRun 3 0 19 2)
    = Some bar
    /\ dayName bar = "Wed"%string
    /\ fromLabel bar = "7 PM"%string
    /\ toLabel bar = "9 PM"%string
    /\ hrs bar = Some 2.
Proof.
  destruct (@action_bar_announces_toggle [Scenario.wednesday_evening]
              (Pointer.columnRun 3 0 19 2))
    as [bar [Hbar [_ [_ [_ Hrun]]]]]; [discriminate|].
  exists bar. split; [exact Hbar|].
  destruct (Hrun 3 0 19 1 eq_refl) as [H1 [H2 [H3 H4]]].
  rewrite H1, H2, H3, H4. repeat split.
Defined.

(** *** The month view *)

Lemma padWeek_pads (fuel : nat) :
  forall l k,
    k = (7 - List.length l mod 7) mod 7 -> k <= fuel ->
    padWeek fuel l = l ++ repeat None k.
Proof.
  induction fuel as [|f IH]; intros l k Hk Hle.
  - assert (H : k = 0) by lia. rewrite H. cbn [padWeek repeat].
    rewrite app_nil_r. reflexivity.
  - cbn [padWeek].
    assert (Hr : List.length l mod 7 < 7)
      by (apply Nat.mod_upper_bound; discriminate).
    destruct (List.length l mod 7 =? 0) eqn:E; cbn [negb].
    + apply Nat.eqb_eq in E. rewrite E in Hk.
      change ((7 - 0) mod 7) with 0 in Hk. subst k.
      cbn [repeat]. rewrite app_nil_r. reflexivity.
    + apply Nat.eqb_neq in E.
      assert (Hnext : List.length (l ++ [None]) mod 7
                      = (List.length l mod 7 + 1) mod 7).
      { rewrite length_app. cbn [List.length].
        rewrite Nat.Div0.add_mod_idemp_l. reflexivity. }
      assert (Hk' : k = S ((7 - List.length (l ++ [None]) mod 7) mod 7)).
      { rewrite Hnext, Hk.
        remember (List.length l mod 7) as r.
        assert (Hcases : r = 1 \/ r = 2 \/ r = 3 \/ r = 4 \/ r = 5 \/ r = 6)
          by lia.
        destruct Hcases as [H|[H|[H|[H|[H|H]]]]]; rewrite H; reflexivity. }
      rewrite (IH (l ++ [None]) _ eq_refl) by lia.
      rewrite Hk'. cbn [repeat]. rewrite <- app_assoc. reflexivity.
Qed.

(** X10: the month grid is whole weeks: the empty cells before the first, the
    dates [1 .. daysInMonth] in order, and fewer than seven empty cells
    after them.  Date [d] therefore sits in column [(firstDay + d - 1) mod
    7], the weekday of the first plus [d - 1]. *)
Theorem month_grid_whole_weeks (firstDay daysInMonth : nat) :
  let cells := monthCells firstDay daysInMonth in
  List.length cells mod 7 = 0
  /\ (exists k, k < 7
                /\ cells = repeat None firstDay
                           ++ map Some (seq 1 daysInMonth)
                           ++ repeat None k)
  /\ (forall d, 1 <= d <= daysInMonth ->
                nth_error cells (firstDay + d - 1) = Some (Some d)).
Proof.
  intros cells. subst cells. unfold monthCells.
  set (l := repeat None firstDay ++ map Some (seq 1 daysInMonth)).
  set (k := (7 - List.length l mod 7) mod 7).
  assert (Hk : k < 7) by (apply Nat.mod_upper_bound; discriminate).
  rewrite (@padWeek_pads 7 l k eq_refl) by lia.
  split; [|split].
  - rewrite length_app, repeat_length. subst k.
    assert (Hr : List.length l mod 7 < 7)
      by (apply Nat.mod_upper_bound; discriminate).
    rewrite <- Nat.Div0.add_mod_idemp_l.
    remember (List.length l mod 7) as r.
    assert (Hcases : r = 0 \/ r = 1 \/ r = 2 \/ r = 3 \/ r = 4 \/ r = 5
                     \/ r = 6) by lia.
    destruct Hcases as [H|[H|[H|[H|[H|[H|H]]]]]]; rewrite H; reflexivity.
  - exists k. split; [exact Hk|]. subst l. rewrite <- app_assoc. reflexivity.
  - intros d Hd. subst l. rewrite <- app_assoc.
    rewrite nth_error_app2 by (rewrite repeat_length; lia).
    rewrite repeat_length.
    rewrite nth_error_app1 by (rewrite length_map, length_seq; lia).
    replace (firstDay + d - 1 - firstDay) with (d - 1) by lia.
    rewrite nth_error_map.
    rewrite (nth_error_nth' _ 0) by (rewrite length_seq; lia).
    rewrite seq_nth by lia. simpl. f_equal. f_equal. lia.
Qed.

Lemma month_grid_whole_weeks_witness :
  List.length (monthCells 6 31) = 42
  /\ nth_error (monthCells 6 31) 6 = Some (Some 1)
  /\ nth_error (monthCells 6 31) 36 = Some (Some 31).
Proof.
  split; [reflexivity|].
  destruct (month_grid_whole_weeks 6 31) as [_ [_ H]].
  split; [apply (H 1); lia | apply (H 31); lia].
Defined.

End LabelFacts.

(* ------------------------------------------------------------------ *)
(** ** Friends *)

Module PanelFacts.
Import Panels.

Lemma party_of_iff (uid : uuid) (r : Friends.Row) :
  PgMore.party_of uid r = true
  <-> Friends.user_id r = uid \/ Friends.friend_user_id r = uid.
Proof.
  unfold PgMore.party_of. rewrite orb_true_iff, !Nat.eqb_eq. tauto.
Qed.

Lemma Status_eqb_eq (a b : Status) : Status_eqb a b = true <-> a = b.
Proof. destruct a, b; simpl; split; congruence. Qed.

Lemma accepted_links_In (me : uuid) (b : Backend) (r : Friends.Row) :
  In r (PgMore.accepted_links me me b)
  <-> In r (friends b) /\ PgMore.party_of me r = true
      /\ Friends.status r = accepted.
Proof.
  unfold PgMore.accepted_links, PgMore.visible_links.
  rewrite !filter_In, andb_true_iff, Status_eqb_eq. tauto.
Qed.

Lemma users_in_In (ids : list uuid) (b : Backend) (u : Users.Row) :
  In u (PgMore.users_in ids b) <-> In u (users b) /\ In (Users.id u) ids.
Proof.
  unfold PgMore.users_in. rewrite filter_In, existsb_exists. split.
  - intros [Hu [x [Hx Hxe]]]. apply Nat.eqb_eq in Hxe. subst x. tauto.
  - intros [Hu Hi]. split; [exact Hu|]. exists (Users.id u).
    split; [exact Hi | apply Nat.eqb_refl].
Qed.

(** Who [fetchFriends] lists once an accepted link came back. *)
Lemma fetchFriends_lists (prev : list Profile) (me i : uuid) (b : Backend) :
  (exists u, In u (users b) /\ Users.id u = i) ->
  (exists r, In r (friends b) /\ PgMore.party_of me r = true
             /\ Friends.status r = accepted /\ otherParty me r = i) ->
  In i (map profile_id (fetchFriends prev me me b)).
Proof.
  intros [u [Hu Hid]] [r [Hr [Hp [Hs Ho]]]]. unfold fetchFriends.
  assert (Hin : In r (PgMore.accepted_links me me b))
    by (apply accepted_links_In; tauto).
  destruct (PgMore.accepted_links me me b) as [|r0 rest] eqn:E;
    [contradiction|].
  cbn [List.length Nat.ltb Nat.leb]. rewrite <- E.
  rewrite map_map. apply in_map_iff. exists u. split; [exact Hid|].
  apply users_in_In. split; [exact Hu|]. rewrite Hid, <- Ho.
  apply in_map. rewrite E. exact Hin.
Qed.

Lemma fetchFriends_only (me i : uuid) (b : Backend) :
  In i (map profile_id (fetchFriends [] me me b)) ->
  (exists u, In u (users b) /\ Users.id u = i)
  /\ (exists r, In r (friends b) /\ PgMore.party_of me r = true
                /\ Friends.status r = accepted /\ otherParty me r = i).
Proof.
  unfold fetchFriends.
  destruct (0 <? List.length (PgMore.accepted_links me me b));
    [|intros []].
  rewrite map_map. intros H. apply in_map_iff in H.
  destruct H as [u [Hid Hu]]. simpl in Hid.
  apply users_in_In in Hu. destruct Hu as [Hu Hi]. split.
  - exists u. tauto.
  - apply in_map_iff in Hi. destruct Hi as [r [Ho Hr]].
    apply accepted_links_In in Hr. exists r.
    rewrite Hid in Ho. tauto.
Qed.

Lemma link_between (a c : uuid) (r : Friends.Row) :
  a <> c ->
  (PgMore.party_of a r = true /\ otherParty a r = c)
  <-> (Friends.user_id r = a /\ Friends.friend_user_id r = c)
      \/ (Friends.user_id r = c /\ Friends.friend_user_id r = a).
Proof.
  intros Hne. rewrite party_of_iff. unfold otherParty.
  destruct (Friends.user_id r =? a) eqn:E.
  - apply Nat.eqb_eq in E. split.
    + intros [_ H]. left. tauto.
    + intros [[_ H]|[H _]]; [tauto | congruence].
  - apply Nat.eqb_neq in E. split.
    + intros [[H|H] Ho]; [congruence | right; tauto].
    + intros [[H _]|[H1 H2]]; [congruence | tauto].
Qed.

(** X11: friendship is mutual in what the dashboards show: Bob is in the
    friends list Ann's dashboard loads exactly when Ann is in the list
    Bob's dashboard loads, whichever of the two sent the request. *)
Theorem friends_are_mutual (b : Backend) (ann bob : Users.Row) :
  In ann (users b) -> In bob (users b) ->
  Users.id ann <> Users.id bob ->
  In (Users.id bob)
     (map profile_id (fetchFriends [] (Users.id ann) (Users.id ann) b))
  <-> In (Users.id ann)
         (map profile_id (fetchFriends [] (Users.id bob) (Users.id bob) b)).
Proof.
  intros Ha Hb Hne.
  assert (Hsym : forall x y ux uy,
            In ux (users b) -> In uy (users b) ->
            Users.id ux = x -> Users.id uy = y -> x <> y ->
            In y (map profile_id (fetchFriends [] x x b)) ->
            In x (map profile_id (fetchFriends [] y y b))).
  { intros x y ux uy Hux Huy Hx Hy Hxy H.
    apply fetchFriends_only in H. destruct H as [_ [r [Hr [Hp [Hs Ho]]]]].
    apply fetchFriends_lists.
    - exists ux. tauto.
    - exists r.
      assert (L : PgMore.party_of y r = true /\ otherParty y r = x).
      { apply link_between; [congruence|].
        destruct (proj1 (link_between r Hxy) (conj Hp Ho)); tauto. }
      tauto. }
  split; intros H.
  - exact (Hsym (Users.id ann) (Users.id bob) ann bob Ha Hb
                 eq_refl eq_refl Hne H).
  - exact (Hsym (Users.id bob) (Users.id ann) bob ann Hb Ha
                 eq_refl eq_refl (not_eq_sym Hne) H).
Qed.

Lemma friends_are_mutual_witness :
  let b := Scenario.store [Friends.mkRow 10 2 1 accepted] [] in
  map profile_id (fetchFriends [] 1 1 b) = [2]
  /\ In 1 (map profile_id (fetchFriends [] 2 2 b)).
Proof.
  intros b. split; [reflexivity|].
  apply (@friends_are_mutual b Scenario.ann Scenario.bob).
  - left. reflexivity.
  - right. left. reflexivity.
  - discriminate.
  - left. reflexivity.
Defined.

(** X12: a friend is listed once, also when accepted links between the two
    users are stored in both directions. *)
Theorem friend_listed_once (prev : list Profile) (me : uuid) (b : Backend) :
  NoDup (map Users.id (users b)) ->
  NoDup (map profile_id prev) ->
  NoDup (map profile_id (fetchFriends prev me me b)).
Proof.
  intros Hnd Hprev. unfold fetchFriends.
  destruct (0 <? List.length (PgMore.accepted_links me me b));
    [|exact Hprev].
  rewrite map_map. simpl.
  unfold PgMore.users_in.
  induction (users b) as [|u l IH]; simpl; [constructor|].
  simpl in Hnd. inversion Hnd as [|? ? Hnot Hnd']; subst.
  destruct (existsb _ _); [|apply IH, Hnd'].
  simpl. constructor; [|apply IH, Hnd'].
  intros Hin. apply Hnot. apply in_map_iff in Hin.
  destruct Hin as [x [Hx Hin]]. apply filter_In in Hin.
  rewrite <- Hx. apply in_map. tauto.
Qed.

Lemma friend_listed_once_witness :
  let b := Scenario.store [Friends.mkRow 10 2 1 accepted;
                           Friends.mkRow 11 1 2 accepted] [] in
  map profile_id (fetchFriends [] 1 1 b) = [2]
  /\ NoDup (map profile_id (fetchFriends [] 1 1 b)).
Proof.
  intros b. split; [reflexivity|].
  apply friend_listed_once.
  - vm_compute. repeat constructor; simpl; intuition discriminate.
  - constructor.
Defined.

(** *** Request, accept, decline *)

Lemma in_nonempty {A : Type} (x : A) (l : list A) :
  In x l -> (0 <? List.length l) = true.
Proof. destruct l; [intros [] | reflexivity]. Qed.

Lemma registered (b : Backend) (u : Users.Row) :
  In u (users b) -> Pg.user_exists b (Users.id u) = true.
Proof.
  intros H. unfold Pg.user_exists. apply existsb_exists.
  exists u. split; [exact H | apply Nat.eqb_refl].
Qed.

Lemma no_pair_yet (b : Backend) (x y : uuid) :
  (forall r, In r (friends b) ->
             ~ (Friends.user_id r = x /\ Friends.friend_user_id r = y)) ->
  existsb (Pg.same_pair x y) (friends b) = false.
Proof.
  intros H. destruct (existsb _ _) eqn:E; [|reflexivity].
  apply existsb_exists in E. destruct E as [r [Hr Hs]].
  apply FriendFacts.same_pair_iff in Hs. exfalso. exact (H r Hr Hs).
Qed.

(** The backend after the signed-in user [from] asked [to] to be friends,
    when no request of [from] to [to] was stored. *)
Lemma request_stored (b : Backend) (from to : Users.Row) :
  In from (users b) -> In to (users b) ->
  (forall r, In r (friends b) ->
             ~ (Friends.user_id r = Users.id from
                /\ Friends.friend_user_id r = Users.id to)) ->
  Dashboard.backend
    (Dashboard.handleAddFriend (Users.id to)
       (Scenario.session from b Dashboard.emptyForm))
  = mkBackend (users b)
      (friends b ++ [Friends.mkRow (fresh b) (Users.id from) (Users.id to)
                                   pending])
      (interests b) (hangout_suggestions b) (S (fresh b)).
Proof.
  intros Hf Ht Hnone. unfold Dashboard.handleAddFriend, Scenario.session.
  cbn [Dashboard.profile Dashboard.auth_uid Dashboard.backend
       Scenario.profileOf profile_id].
  rewrite (@FriendFacts.insert_friend_outcome _ _ _
             (@registered _ _ Hf) (@registered _ _ Ht)).
  rewrite (@no_pair_yet _ _ _ Hnone). reflexivity.
Qed.

(** X13: request and accept: Ann asks Bob, Bob's dashboard lists the request,
    Bob accepts it.  From then on Ann is in the friends list of Bob's
    dashboard, Bob is in the list Ann's dashboard loads, and the request
    has left Bob's notifications. *)
Theorem accepted_request_makes_friends (b : Backend) (ann bob : Users.Row) :
  In ann (users b) -> In bob (users b) ->
  Users.id ann <> Users.id bob ->
  (forall r, In r (friends b) ->
             ~ (Friends.user_id r = Users.id ann
                /\ Friends.friend_user_id r = Users.id bob)) ->
  let sent := Dashboard.handleAddFriend (Users.id bob)
                (Scenario.session ann b Dashboard.emptyForm) in
  let inbox := opened bob (Dashboard.backend sent) in
  let v := handleAcceptFriend (fresh b) inbox in
  (exists q, In q (friendRequests inbox)
             /\ request_id q = fresh b
             /\ request_user_id q = Users.id ann)
  /\ In (Users.id ann) (map profile_id (myFriends v))
  /\ In (Users.id bob)
        (map profile_id
           (fetchFriends [] (Users.id ann) (Users.id ann) (backend v)))
  /\ (forall q, In q (friendRequests v) -> request_id q <> fresh b).
Proof.
  intros Ha Hb Hne Hnone sent inbox v.
  set (link := Friends.mkRow (fresh b) (Users.id ann) (Users.id bob)
                             pending).
  assert (Hb1 : Dashboard.backend sent
                = mkBackend (users b) (friends b ++ [link]) (interests b)
                            (hangout_suggestions b) (S (fresh b)))
    by (apply request_stored; assumption).
  assert (Hacc : In (PgMore.accept_link link) (friends (backend v))).
  { subst v inbox. unfold handleAcceptFriend, opened.
    cbn [backend auth_uid]. rewrite Hb1. unfold PgMore.accept_friend.
    cbn [friends]. apply in_map_iff. exists link. split.
    - unfold link. cbn [Friends.friend_user_id Friends.id].
      rewrite !Nat.eqb_refl. reflexivity.
    - apply in_or_app. right. left. reflexivity. }
  assert (Husers : users (backend v) = users b).
  { subst v inbox. unfold handleAcceptFriend, opened.
    cbn [backend]. rewrite Hb1. reflexivity. }
  split; [|split; [|split]].
  - subst inbox. unfold opened. cbn [friendRequests].
    unfold fetchFriendRequests.
    assert (Hin : In link (PgMore.pending_links_to (Users.id bob)
                             (Users.id bob) (Dashboard.backend sent))).
    { unfold PgMore.pending_links_to, PgMore.visible_links.
      rewrite Hb1. cbn [friends]. apply filter_In. split.
      - apply filter_In. split.
        + apply in_or_app. right. left. reflexivity.
        + apply party_of_iff. right. reflexivity.
      - unfold link. cbn [Friends.friend_user_id Friends.status].
        rewrite Nat.eqb_refl. reflexivity. }
    rewrite (in_nonempty _ _ Hin).
    eexists. split.
    + apply in_map_iff. exists link. split; [reflexivity | exact Hin].
    + split; reflexivity.
  - change (myFriends v)
      with (fetchFriends (myFriends inbox) (Users.id bob) (Users.id bob)
                         (backend v)).
    apply fetchFriends_lists.
    + exists ann. split; [rewrite Husers; exact Ha | reflexivity].
    + exists (PgMore.accept_link link).
      split; [exact Hacc|]. split; [|split].
      * apply party_of_iff. right. reflexivity.
      * reflexivity.
      * unfold otherParty, link. cbn.
        apply Nat.eqb_neq in Hne. rewrite Hne. reflexivity.
  - apply fetchFriends_lists.
    + exists bob. split; [rewrite Husers; exact Hb | reflexivity].
    + exists (PgMore.accept_link link).
      split; [exact Hacc|]. split; [|split].
      * apply party_of_iff. left. reflexivity.
      * reflexivity.
      * unfold otherParty, link. cbn. rewrite Nat.eqb_refl. reflexivity.
  - intros q Hq. subst v. unfold handleAcceptFriend in Hq.
    cbn [friendRequests] in Hq. unfold dropFriendRequest in Hq.
    apply filter_In in Hq. destruct Hq as [_ Hq].
    apply negb_true_iff, Nat.eqb_neq in Hq. exact Hq.
Qed.

Lemma accepted_request_makes_friends_witness :
  let b := Scenario.store [] [] in
  let sent := Dashboard.handleAddFriend 2
                (Scenario.session Scenario.ann b Dashboard.emptyForm) in
  let v := handleAcceptFriend 100
             (opened Scenario.bob (Dashboard.backend sent)) in
  friends (backend v) = [Friends.mkRow 100 1 2 accepted]
  /\ In 1 (map profile_id (myFriends v))
  /\ In 2 (map profile_id (fetchFriends [] 1 1 (backend v))).
Proof.
  intros b sent v. split; [reflexivity|].
  destruct (@accepted_request_makes_friends b Scenario.ann Scenario.bob)
    as [_ [H1 [H2 _]]].
  - left. reflexivity.
  - right. left. reflexivity.
  - discriminate.
  - intros r [].
  - split; [exact H1 | exact H2].
Defined.

Lemma accept_unseen (uid i : uuid) (l : list Friends.Row) :
  (forall r, In r l -> Friends.id r = i ->
             Friends.friend_user_id r <> uid) ->
  map (fun r => if (Friends.friend_user_id r =? uid) && (Friends.id r =? i)
                then PgMore.accept_link r else r) l
  = l.
Proof.
  induction l as [|x l IH]; intros H; simpl; [reflexivity|].
  rewrite IH by (intros r Hr; apply H; right; exact Hr).
  destruct (Friends.id x =? i) eqn:Ei.
  - apply Nat.eqb_eq in Ei.
    assert (Hx := H x (or_introl eq_refl) Ei).
    apply Nat.eqb_neq in Hx. rewrite Hx. reflexivity.
  - rewrite andb_false_r. reflexivity.
Qed.

(** X14: only the user a request was sent to can accept it: an accept from
    any other session, the requester's included, leaves every friend link
    as it was, so a requester cannot make themself a friend. *)
Theorem accept_needs_recipient (requestId : uuid) (v : View) :
  (forall r, In r (friends (backend v)) -> Friends.id r = requestId ->
             Friends.friend_user_id r <> auth_uid v) ->
  backend (handleAcceptFriend requestId v) = backend v.
Proof.
  intros H. unfold handleAcceptFriend, PgMore.accept_friend.
  cbn [backend]. rewrite accept_unseen by exact H.
  destruct (backend v); reflexivity.
Qed.

Lemma accept_needs_recipient_witness :
  let b := Scenario.store [Friends.mkRow 10 1 2 pending] [] in
  backend (handleAcceptFriend 10 (opened Scenario.ann b)) = b
  /\ fetchFriends [] 1 1 b = [].
Proof.
  intros b. split; [|reflexivity].
  apply (@accept_needs_recipient 10 (opened Scenario.ann b)).
  intros r [Hr|[]] _. subst r. vm_compute. discriminate.
Defined.

Lemma filter_appended {A : Type} (f : A -> bool) (l : list A) (x : A) :
  (forall y, In y l -> f y = true) -> f x = false ->
  filter f (l ++ [x]) = l.
Proof.
  intros Hl Hx. rewrite filter_app. simpl. rewrite Hx, app_nil_r.
  apply forallb_filter_id, forallb_forall, Hl.
Qed.

(** X15: request and decline: when Bob declines Ann's request the link is
    deleted and the friends table is what it was before the request, so
    that Ann can ask again and the new request is stored. *)
Theorem declined_request_leaves_no_trace (b : Backend)
    (ann bob : Users.Row) :
  In ann (users b) -> In bob (users b) ->
  (forall r, In r (friends b) ->
             ~ (Friends.user_id r = Users.id ann
                /\ Friends.friend_user_id r = Users.id bob)) ->
  (forall r, In r (friends b) -> Friends.id r <> fresh b) ->
  let sent := Dashboard.handleAddFriend (Users.id bob)
                (Scenario.session ann b Dashboard.emptyForm) in
  let v := handleDeclineFriend (fresh b)
             (opened bob (Dashboard.backend sent)) in
  let again := Dashboard.handleAddFriend (Users.id bob)
                 (Scenario.session ann (backend v) Dashboard.emptyForm) in
  friends (backend v) = friends b
  /\ Dashboard.friendErrors again = []
  /\ friends (Dashboard.backend again)
     = friends b ++ [Friends.mkRow (S (fresh b)) (Users.id ann)
                                   (Users.id bob) pending].
Proof.
  intros Ha Hb Hnone Hfresh sent v again.
  assert (Hb1 : Dashboard.backend sent
                = mkBackend (users b)
                    (friends b ++ [Friends.mkRow (fresh b) (Users.id ann)
                                     (Users.id bob) pending])
                    (interests b) (hangout_suggestions b) (S (fresh b)))
    by (apply request_stored; assumption).
  assert (Hv : backend v
               = mkBackend (users b) (friends b) (interests b)
                           (hangout_suggestions b) (S (fresh b))).
  { subst v. unfold handleDeclineFriend, opened, PgMore.delete_friend.
    cbn [backend auth_uid]. rewrite Hb1. cbn [users friends interests
                                               hangout_suggestions fresh].
    rewrite filter_appended; [reflexivity| |].
    - intros r Hr. apply negb_true_iff.
      pose proof (Hfresh r Hr) as E. apply Nat.eqb_neq in E. rewrite E.
      apply andb_false_r.
    - cbn [Friends.id]. rewrite Nat.eqb_refl, andb_true_r.
      apply negb_false_iff, party_of_iff. right. reflexivity. }
  split; [rewrite Hv; reflexivity|].
  assert (Hagain : Dashboard.backend again
                   = mkBackend (users (backend v))
                       (friends (backend v)
                        ++ [Friends.mkRow (fresh (backend v)) (Users.id ann)
                                          (Users.id bob) pending])
                       (interests (backend v))
                       (hangout_suggestions (backend v))
                       (S (fresh (backend v)))).
  { apply request_stored; rewrite Hv; assumption. }
  split.
  - subst again. unfold Dashboard.handleAddFriend, Scenario.session.
    cbn [Dashboard.profile Dashboard.auth_uid Dashboard.backend
         Dashboard.friendErrors Scenario.profileOf profile_id].
    rewrite (@FriendFacts.insert_friend_outcome _ _ _
               (@registered (backend v) ann
                  ltac:(rewrite Hv; exact Ha))
               (@registered (backend v) bob
                  ltac:(rewrite Hv; exact Hb))).
    rewrite (@no_pair_yet (backend v) _ _
               ltac:(rewrite Hv; exact Hnone)).
    reflexivity.
  - rewrite Hagain, Hv. reflexivity.
Qed.

Lemma declined_request_leaves_no_trace_witness :
  let b := Scenario.store [Friends.mkRow 10 2 1 accepted] [] in
  let sent := Dashboard.handleAddFriend 2
                (Scenario.session Scenario.ann b Dashboard.emptyForm) in
  let v := handleDeclineFriend 100
             (opened Scenario.bob (Dashboard.backend sent)) in
  List.length (friends (Dashboard.backend sent)) = 2
  /\ friends (backend v) = friends b.
Proof.
  intros b sent v. split; [reflexivity|].
  destruct (@declined_request_leaves_no_trace b Scenario.ann Scenario.bob)
    as [H _].
  - left. reflexivity.
  - right. left. reflexivity.
  - intros r [Hr|[]] [H1 _]. subst r. discriminate H1.
  - intros r [Hr|[]]. subst r. discriminate.
  - exact H.
Defined.

End PanelFacts.

(* ------------------------------------------------------------------ *)
(** ** Proposals from scheduling to the upcoming list *)

Module ProposalFacts.
Import Dashboard.

(** X16: the form offers the interest as optional, but the column is declared
    [not null]: with no interest selected the insert is refused, nothing
    is stored, the form stays filled and open, and the store's message is
    shown. *)
Theorem schedule_without_interest_fails (a : App) (p : Profile)
    (f : uuid) (t : Z) :
  profile a = Some p ->
  auth_uid a = profile_id p ->
  friendId (hangoutForm a) = Some f ->
  datetime (hangoutForm a) = Some t ->
  interestId (hangoutForm a) = None ->
  let a' := handleScheduleHangout a in
  backend a' = backend a
  /\ scheduleError a' = Some (ErrorMessage not_null_violation)
  /\ hangoutForm a' = hangoutForm a
  /\ showScheduleHangout a' = showScheduleHangout a.
Proof.
  intros Hp Hauth Hf Ht Hi a'. subst a'.
  unfold handleScheduleHangout, Pg.insert_hangout.
  rewrite Hp, Hf, Ht, Hi, Hauth, Nat.eqb_refl. cbn. repeat split.
Qed.

Lemma schedule_without_interest_fails_witness :
  let a := Scenario.session Scenario.ann
             (Scenario.store [Friends.mkRow 10 1 2 accepted] [])
             (mkHangoutForm (Some 2) (Some 1000%Z) None "park" "") in
  hangout_suggestions (backend (handleScheduleHangout a)) = []
  /\ scheduleError (handleScheduleHangout a)
     = Some (ErrorMessage not_null_violation).
Proof.
  intros a.
  destruct (@schedule_without_interest_fails a
              (Scenario.profileOf Scenario.ann) 2 1000%Z
              eq_refl eq_refl eq_refl eq_refl eq_refl) as [H1 [H2 _]].
  split; [rewrite H1; reflexivity | exact H2].
Defined.

(** *** A stored proposal *)

Lemma scheduled (a : App) (p : Profile) (f i : uuid) (t : Z) :
  profile a = Some p ->
  auth_uid a = profile_id p ->
  friendId (hangoutForm a) = Some f ->
  datetime (hangoutForm a) = Some t ->
  interestId (hangoutForm a) = Some i ->
  Pg.user_exists (backend a) (profile_id p) = true ->
  Pg.user_exists (backend a) f = true ->
  Pg.interest_exists (backend a) i = true ->
  backend (handleScheduleHangout a)
  = mkBackend (users (backend a)) (friends (backend a))
      (interests (backend a))
      (hangout_suggestions (backend a)
       ++ [Hangouts.mkRow (fresh (backend a)) (profile_id p) f (Some i) t
             (orNull (form_message (hangoutForm a)))
             (orNull (form_location (hangoutForm a))) None pending])
      (S (fresh (backend a))).
Proof.
  intros Hp Hauth Hf Ht Hi Hu Hfu Hiu.
  unfold handleScheduleHangout, Pg.insert_hangout.
  rewrite Hp, Hf, Ht, Hi, Hauth, Nat.eqb_refl, Hu, Hfu, Hiu. reflexivity.
Qed.

Lemma filter_with_pending {A : Type} (f : A -> bool) (l : list A) (x : A) :
  f x = false -> filter f (l ++ [x]) = filter f l.
Proof.
  intros H. rewrite filter_app. simpl. rewrite H. apply app_nil_r.
Qed.

Lemma fetchHangs_same_tables (uid : uuid) (n1 n2 : Z) (b b' : Backend) :
  users b' = users b -> interests b' = interests b ->
  (forall now u,
     filter (fun r => u r && upcoming now r) (hangout_suggestions b')
     = filter (fun r => u r && upcoming now r) (hangout_suggestions b)) ->
  fetchHangs uid n1 n2 b' = fetchHangs uid n1 n2 b.
Proof.
  intros Hu Hi Hf. unfold fetchHangs, sentHangs, receivedHangs.
  unfold Pg.visible_hangouts.
  rewrite !HangoutFacts.filter_visible.
  - rewrite !Hf. f_equal.
    apply map_ext. intros h. unfold toHang, interestTitle, userName.
    rewrite Hu, Hi. reflexivity.
  - intros r H. apply andb_true_iff in H. destruct H as [H _].
    rewrite H. apply orb_true_r.
  - intros r H. apply andb_true_iff in H. destruct H as [H _].
    rewrite H. reflexivity.
  - intros r H. apply andb_true_iff in H. destruct H as [H _].
    rewrite H. apply orb_true_r.
  - intros r H. apply andb_true_iff in H. destruct H as [H _].
    rewrite H. reflexivity.
Qed.

(** X17: a proposal that was stored is pending: the recipient's dashboard
    lists it among the incoming requests, with its sender and time, and
    nobody's list of upcoming hangs changes. *)
Theorem scheduled_proposal_awaits_answer (a : App) (p : Profile)
    (f i : uuid) (t : Z) :
  profile a = Some p ->
  auth_uid a = profile_id p ->
  friendId (hangoutForm a) = Some f ->
  datetime (hangoutForm a) = Some t ->
  interestId (hangoutForm a) = Some i ->
  Pg.user_exists (backend a) (profile_id p) = true ->
  Pg.user_exists (backend a) f = true ->
  Pg.interest_exists (backend a) i = true ->
  let b' := backend (handleScheduleHangout a) in
  (forall prev,
     exists q, In q (Panels.fetchHangoutRequests prev f f b')
               /\ id q = fresh (backend a)
               /\ sender_user_id q = profile_id p
               /\ proposed_datetime q = t)
  /\ (forall uid n1 n2,
        fetchHangs uid n1 n2 b' = fetchHangs uid n1 n2 (backend a)).
Proof.
  intros Hp Hauth Hf Ht Hi Hu Hfu Hiu b'.
  assert (Hb : b' = _) by (apply scheduled; eassumption).
  set (row := Hangouts.mkRow (fresh (backend a)) (profile_id p) f (Some i) t
                (orNull (form_message (hangoutForm a)))
                (orNull (form_location (hangoutForm a))) None pending)
    in Hb.
  split.
  - intros prev. unfold Panels.fetchHangoutRequests.
    assert (Hin : In row (PgMore.pending_hangouts_to f f b')).
    { unfold PgMore.pending_hangouts_to, Pg.visible_hangouts.
      rewrite Hb. cbn [hangout_suggestions].
      apply filter_In. split.
      - apply filter_In. split.
        + apply in_or_app. right. left. reflexivity.
        + unfold row. cbn. rewrite Nat.eqb_refl. apply orb_true_r.
      - unfold row. cbn. rewrite Nat.eqb_refl. reflexivity. }
    rewrite (PanelFacts.in_nonempty _ _ Hin).
    eexists. split.
    + apply in_map_iff. exists row. split; [reflexivity | exact Hin].
    + repeat split.
  - intros uid n1 n2. apply fetchHangs_same_tables.
    + rewrite Hb. reflexivity.
    + rewrite Hb. reflexivity.
    + intros now u. rewrite Hb. cbn [hangout_suggestions].
      apply filter_with_pending. unfold upcoming, row. cbn.
      apply andb_false_r.
Qed.

Lemma scheduled_proposal_awaits_answer_witness :
  let a := Scenario.session Scenario.ann (Scenario.store [] [])
             (mkHangoutForm (Some 2) (Some 1000%Z) (Some 5) "" "") in
  let b' := backend (handleScheduleHangout a) in
  map id (Panels.fetchHangoutRequests [] 2 2 b') = [100]
  /\ fetchHangs 2 0 0 b' = [].
Proof.
  intros a b'. split; [reflexivity|].
  destruct (@scheduled_proposal_awaits_answer a
              (Scenario.profileOf Scenario.ann) 2 5 1000%Z
              eq_refl eq_refl eq_refl eq_refl eq_refl
              eq_refl eq_refl eq_refl) as [_ H].
  subst b'. rewrite (H 2 0%Z 0%Z). reflexivity.
Defined.

(** *** Answering *)

(** X18: once the recipient has accepted a proposal, a dashboard that the
    sender or the recipient loads afterwards lists it among the upcoming
    hangs, with its time, when both clock readings of that load are not
    after the proposal's time.  The sender's list depends on the first
    reading only and the recipient's on the second: a load by the
    recipient whose second reading is after the proposal's time leaves it
    out.  The page on which Accept was pressed only drops the request
    from its notifications. *)
Theorem accepted_proposal_is_upcoming (a : App) (r : Hangouts.Row) :
  In r (hangout_suggestions (backend a)) ->
  Hangouts.recipient_user_id r = auth_uid a ->
  let a' := handleAcceptHangout (Hangouts.id r) a in
  let b' := backend a' in
  let t := Hangouts.proposed_datetime r in
  let lists u now1 now2 :=
    exists h, In h (fetchHangs u now1 now2 b')
              /\ hang_id h = Hangouts.id r
              /\ hang_proposed_datetime h = t in
  (forall u now1 now2,
     u = Hangouts.sender_user_id r \/ u = Hangouts.recipient_user_id r ->
     (now1 <= t)%Z -> (now2 <= t)%Z -> lists u now1 now2)
  /\ (forall now1 now2,
        (now1 <= t)%Z -> lists (Hangouts.sender_user_id r) now1 now2)
  /\ (forall now1 now2,
        (now2 <= t)%Z -> lists (Hangouts.recipient_user_id r) now1 now2)
  /\ (forall now1 now2,
        (forall r0, In r0 (hangout_suggestions (backend a)) ->
                    Hangouts.id r0 = Hangouts.id r -> r0 = r) ->
        Hangouts.sender_user_id r <> Hangouts.recipient_user_id r ->
        (t < now2)%Z ->
        forall h,
          In h (fetchHangs (Hangouts.recipient_user_id r) now1 now2 b') ->
          hang_id h <> Hangouts.id r)
  /\ (forall q, In q (hangoutRequests a') -> id q <> Hangouts.id r).
Proof.
  intros Hin Hrec a' b' t lists.
  set (r' := Pg.set_status accepted r).
  assert (Hr' : In r' (hangout_suggestions b')).
  { subst b' a'. unfold handleAcceptHangout, respondHangout,
      Pg.update_hangout_status. cbn [backend hangout_suggestions].
    apply in_map_iff. exists r.
    rewrite Hrec, !Nat.eqb_refl. split; [reflexivity | exact Hin]. }
  assert (Hup : forall now, (now <= t)%Z -> upcoming now r' = true).
  { intros now Hnow. unfold upcoming, r'. cbn. apply Z.leb_le. exact Hnow. }
  assert (Hsent : forall now1 now2,
            (now1 <= t)%Z -> lists (Hangouts.sender_user_id r) now1 now2).
  { intros now1 now2 H1. exists (toHang b' (sentRow r')).
    split; [|split; reflexivity].
    apply (Permutation_in _
             (Permutation_sym
                (HangoutFacts.fetchHangs_perm _ now1 now2 b'))).
    apply in_map, in_or_app. left. apply in_map, filter_In.
    split; [exact Hr'|]. rewrite (Hup now1 H1), andb_true_r.
    unfold r'. cbn. apply Nat.eqb_refl. }
  assert (Hreceived : forall now1 now2,
            (now2 <= t)%Z -> lists (Hangouts.recipient_user_id r) now1 now2).
  { intros now1 now2 H2. exists (toHang b' (receivedRow r')).
    split; [|split; reflexivity].
    apply (Permutation_in _
             (Permutation_sym
                (HangoutFacts.fetchHangs_perm _ now1 now2 b'))).
    apply in_map, in_or_app. right. apply in_map, filter_In.
    split; [exact Hr'|]. rewrite (Hup now2 H2), andb_true_r.
    unfold r'. cbn. apply Nat.eqb_refl. }
  split; [|split; [exact Hsent|split; [exact Hreceived|split]]].
  - intros u now1 now2 [Hu|Hu] H1 H2; subst u.
    + apply Hsent, H1.
    + apply Hreceived, H2.
  - intros now1 now2 Huniq Hother Hlate h Hh Hid.
    assert (Hsame : forall r0, In r0 (hangout_suggestions b') ->
              Hangouts.id r0 = Hangouts.id r ->
              Hangouts.sender_user_id r0 = Hangouts.sender_user_id r
              /\ Hangouts.proposed_datetime r0 = t).
    { intros r0 H0 Hid0. subst b' a'.
      unfold handleAcceptHangout, respondHangout,
        Pg.update_hangout_status in H0.
      cbn [backend hangout_suggestions] in H0.
      apply in_map_iff in H0. destruct H0 as [r1 [E H1]].
      assert (Hid1 : Hangouts.id r1 = Hangouts.id r).
      { rewrite <- Hid0, <- E.
        destruct ((Hangouts.recipient_user_id r1 =? auth_uid a)
                  && (Hangouts.id r1 =? Hangouts.id r)); reflexivity. }
      rewrite (Huniq r1 H1 Hid1) in E. subst r0.
      destruct ((Hangouts.recipient_user_id r =? auth_uid a)
                && (Hangouts.id r =? Hangouts.id r)); split; reflexivity. }
    apply (Permutation_in _ (HangoutFacts.fetchHangs_perm _ now1 now2 b'))
      in Hh.
    apply in_map_iff in Hh. destruct Hh as [hr [Hh Hrow]]. subst h.
    apply in_app_iff in Hrow.
    destruct Hrow as [Hrow|Hrow]; apply in_map_iff in Hrow;
      destruct Hrow as [r0 [E H0]]; subst hr;
      apply filter_In in H0; destruct H0 as [H0 Hc];
      apply andb_true_iff in Hc; destruct Hc as [Hu Hdue];
      destruct (Hsame r0 H0 Hid) as [Hs Ht].
    + apply Nat.eqb_eq in Hu. congruence.
    + unfold upcoming in Hdue. apply andb_true_iff in Hdue.
      destruct Hdue as [_ Hdue]. apply Z.leb_le in Hdue. lia.
  - intros q Hq. subst a'.
    unfold handleAcceptHangout, respondHangout in Hq.
    cbn [hangoutRequests] in Hq. unfold dropRequest in Hq.
    apply filter_In in Hq. destruct Hq as [_ Hq].
    apply negb_true_iff, Nat.eqb_neq in Hq. exact Hq.
Qed.

Lemma accepted_proposal_is_upcoming_witness :
  let row := Scenario.proposal 30 Scenario.ann Scenario.bob 2000 pending in
  let a := Scenario.session Scenario.bob (Scenario.store [] [row])
             emptyForm in
  let b' := backend (handleAcceptHangout 30 a) in
  fetchHangs 1 1000 1001 (backend a) = []
  /\ (exists h, In h (fetchHangs 1 1000 1001 b') /\ hang_id h = 30)
  /\ (exists h, In h (fetchHangs 2 1000 1001 b') /\ hang_id h = 30)
  /\ map hang_id (fetchHangs 2 2000 2001 b') = [].
Proof.
  intros row a b'. split; [reflexivity|].
  assert (H : forall u, u = 1 \/ u = 2 ->
                exists h, In h (fetchHangs u 1000 1001 b')
                          /\ hang_id h = 30).
  { intros u Hu.
    destruct (@accepted_proposal_is_upcoming a row) as [Hall _].
    - left. reflexivity.
    - reflexivity.
    - destruct (Hall u 1000%Z 1001%Z Hu) as [h [Hh [Hid _]]].
      + simpl. lia.
      + simpl. lia.
      + exists h. split; [exact Hh | exact Hid]. }
  split; [apply H; left; reflexivity|].
  split; [apply H; right; reflexivity|].
  vm_compute. reflexivity.
Defined.

(** X19: a proposal the signed-in user has answered, by accepting or by
    declining, is not among the incoming requests when the dashboard
    loads again. *)
Theorem answered_request_not_offered_again (requestId : uuid) (a : App) :
  (forall q,
     In q (Panels.fetchHangoutRequests [] (auth_uid a) (auth_uid a)
             (backend (handleAcceptHangout requestId a))) ->
     id q <> requestId)
  /\ (forall q,
        In q (Panels.fetchHangoutRequests [] (auth_uid a) (auth_uid a)
                (backend (handleDeclineHangout requestId a))) ->
        id q <> requestId).
Proof.
  assert (H : forall st, st <> pending ->
            forall q,
              In q (Panels.fetchHangoutRequests [] (auth_uid a) (auth_uid a)
                      (backend (respondHangout st requestId a))) ->
              id q <> requestId).
  { intros st Hst q Hq. unfold Panels.fetchHangoutRequests in Hq.
    destruct (0 <? List.length _); [|destruct Hq].
    apply in_map_iff in Hq. destruct Hq as [r [Hq Hr]]. subst q.
    cbn [id]. unfold PgMore.pending_hangouts_to in Hr.
    apply filter_In in Hr. destruct Hr as [Hr Hc].
    apply andb_true_iff in Hc. destruct Hc as [Hrec Hpend].
    unfold Pg.visible_hangouts in Hr. apply filter_In in Hr.
    destruct Hr as [Hr _].
    unfold respondHangout, Pg.update_hangout_status in Hr.
    cbn [backend hangout_suggestions] in Hr.
    apply in_map_iff in Hr. destruct Hr as [r0 [Heq _]].
    intros Hid.
    destruct ((Hangouts.recipient_user_id r0 =? auth_uid a)
              && (Hangouts.id r0 =? requestId)) eqn:E.
    - subst r. unfold Pg.set_status in Hpend. cbn in Hpend.
      destruct st; try discriminate. congruence.
    - subst r0. rewrite Hrec, Hid, Nat.eqb_refl in E. discriminate. }
  split; apply H; discriminate.
Qed.

Lemma answered_request_not_offered_again_witness :
  let row := Scenario.proposal 30 Scenario.ann Scenario.bob 2000 pending in
  let a := Scenario.session Scenario.bob (Scenario.store [] [row])
             emptyForm in
  map id (Panels.fetchHangoutRequests [] 2 2 (backend a)) = [30]
  /\ ~ In 30 (map id (Panels.fetchHangoutRequests [] 2 2
                        (backend (handleDeclineHangout 30 a)))).
Proof.
  intros row a. split; [reflexivity|].
  intros Hin. apply in_map_iff in Hin. destruct Hin as [q [Hid Hq]].
  destruct (answered_request_not_offered_again 30 a) as [_ H].
  exact (H q Hq Hid).
Defined.

(** *** Interests *)

(** X20: removing an interest of one's own also removes every proposal made
    around it, whatever its status and whoever sent it: the proposals
    that remain are those of other interests, and no dashboard lists a
    hang of the removed interest any more. *)
Theorem removing_interest_removes_its_hangs (interestId : uuid)
    (v : Panels.View) (p : Profile) :
  Panels.profile v = Some p ->
  (exists r, In r (interests (Panels.backend v))
             /\ Interests.id r = interestId
             /\ Interests.user_id r = Panels.auth_uid v) ->
  let b := Panels.backend v in
  let v' := Panels.handleRemoveInterest interestId v in
  let b' := Panels.backend v' in
  (forall r, In r (hangout_suggestions b') <->
             In r (hangout_suggestions b)
             /\ Hangouts.interest_id r <> Some interestId)
  /\ (forall uid n1 n2 h,
        In h (fetchHangs uid n1 n2 b') ->
        exists r, In r (hangout_suggestions b)
                  /\ Hangouts.interest_id r <> Some interestId
                  /\ hang_id h = Hangouts.id r)
  /\ (forall i, In i (Panels.myInterests v') ->
                Panels.interest_id i <> interestId).
Proof.
  intros Hp [r0 [Hr0 [Hid Hown]]] b v' b'.
  assert (Hdoomed : existsb (fun r => (Interests.user_id r
                                       =? Panels.auth_uid v)
                                      && (Interests.id r =? interestId))
                            (interests b) = true).
  { apply existsb_exists. exists r0. split; [exact Hr0|].
    rewrite Hid, Hown, !Nat.eqb_refl. reflexivity. }
  assert (Hb' : hangout_suggestions b'
                = filter (fun r => negb (PgMore.refers_to interestId r))
                         (hangout_suggestions b)).
  { subst b' v'. unfold Panels.handleRemoveInterest. rewrite Hp.
    cbn [Panels.backend]. unfold PgMore.delete_interest. fold b.
    rewrite Hdoomed. reflexivity. }
  assert (Hrefers : forall r, negb (PgMore.refers_to interestId r) = true
                              <-> Hangouts.interest_id r <> Some interestId).
  { intros r. unfold PgMore.refers_to.
    destruct (Hangouts.interest_id r) as [j|]; simpl.
    - rewrite negb_true_iff, Nat.eqb_neq. split; congruence.
    - split; [discriminate | reflexivity]. }
  assert (Hrows : forall r, In r (hangout_suggestions b') <->
                            In r (hangout_suggestions b)
                            /\ Hangouts.interest_id r <> Some interestId).
  { intros r. rewrite Hb', filter_In, Hrefers. tauto. }
  split; [exact Hrows|]. split.
  - intros uid n1 n2 h Hh.
    apply (Permutation_in _ (HangoutFacts.fetchHangs_perm uid n1 n2 b'))
      in Hh.
    apply in_map_iff in Hh. destruct Hh as [hr [Hh Hin]]. subst h.
    apply in_app_iff in Hin.
    destruct Hin as [Hin|Hin]; apply in_map_iff in Hin;
      destruct Hin as [r [Hr Hin]]; subst hr;
      apply filter_In in Hin; destruct Hin as [Hin _];
      apply Hrows in Hin; exists r; repeat split; tauto.
  - intros i Hi. subst v'. unfold Panels.handleRemoveInterest in Hi.
    rewrite Hp in Hi. cbn [Panels.myInterests] in Hi.
    apply filter_In in Hi. destruct Hi as [_ Hi].
    apply negb_true_iff, Nat.eqb_neq in Hi. exact Hi.
Qed.

Lemma removing_interest_removes_its_hangs_witness :
  let row := Scenario.proposal 30 Scenario.bob Scenario.ann 2000 accepted in
  let b := Scenario.store [] [row] in
  let v' := Panels.handleRemoveInterest 5 (Panels.opened Scenario.ann b) in
  map hang_id (fetchHangs 2 1000 1000 b) = [30]
  /\ hangout_suggestions (Panels.backend v') = []
  /\ fetchHangs 2 1000 1000 (Panels.backend v') = [].
Proof.
  intros row b v'. split; [reflexivity|].
  destruct (@removing_interest_removes_its_hangs 5
              (Panels.opened Scenario.ann b)
              (Panels.toFriend Scenario.ann) eq_refl) as [H _].
  - exists Scenario.chess. split; [left; reflexivity|]. split; reflexivity.
  - split; [|reflexivity].
    destruct (hangout_suggestions (Panels.backend v')) as [|r l] eqn:E;
      [reflexivity|].
    exfalso. subst v'.
    destruct (proj1 (H r)) as [Hin Hne].
    + rewrite E. left. reflexivity.
    + destruct Hin as [Hin|[]]. subst r. apply Hne. reflexivity.
Defined.

End ProposalFacts.

(* ------------------------------------------------------------------ *)
(** ** Onboarding *)

Module OnboardingFacts.
Import Onboarding.

Lemma indexed_length {A : Type} (l : list A) :
  forall k, List.length (Calendar.indexed k l) = List.length l.
Proof.
  induction l as [|x l IH]; intros k; simpl; [|rewrite IH]; reflexivity.
Qed.

Lemma indexed_has {A : Type} (l : list A) :
  forall k i x, nth_error l i = Some x -> In (k + i, x) (Calendar.indexed k l).
Proof.
  induction l as [|y l IH]; intros k i x H.
  - destruct i; discriminate.
  - destruct i as [|i]; simpl in H.
    + inversion H; subst. rewrite Nat.add_0_r. left. reflexivity.
    + right. replace (k + S i) with (S k + i) by lia. apply IH, H.
Qed.

Lemma mapi_length {A B : Type} (f : A -> nat -> B) (l : list A) :
  List.length (mapi f l) = List.length l.
Proof. unfold mapi. rewrite length_map. apply indexed_length. Qed.

Lemma edits_keep_week (edits : list Edit) :
  forall days,
    List.length (fold_left edit edits days) = List.length days.
Proof.
  induction edits as [|e r IH]; intros days; simpl; [reflexivity|].
  rewrite IH. destruct e; apply mapi_length.
Qed.

Lemma enabled_days_distinct (f : nat * DayAvailability -> bool)
    (l : list DayAvailability) :
  forall k,
    NoDup (map fst (filter f (Calendar.indexed k l)))
    /\ Forall (fun i => k <= i < k + List.length l)
              (map fst (filter f (Calendar.indexed k l))).
Proof.
  induction l as [|x l IH]; intros k; simpl.
  - split; constructor.
  - destruct (IH (S k)) as [Hnd Hall].
    assert (Hall' : Forall (fun i => k <= i < k + S (List.length l))
                      (map fst (filter f (Calendar.indexed (S k) l)))).
    { eapply Forall_impl; [|exact Hall]. simpl. intros; lia. }
    destruct (f (k, x)); simpl; [|split; assumption].
    split.
    + constructor; [|exact Hnd]. intros Hin.
      rewrite Forall_forall in Hall. specialize (Hall k Hin). lia.
    + constructor; [lia | exact Hall'].
Qed.

(** X21: whatever the user edited in step 3, a stored submission holds one row
    for each enabled weekday and none for a disabled one: the rows have
    pairwise different [day_of_week] below 7 and carry the times of their
    day.  When the insert is refused nothing is stored, the message is
    shown and the wizard stays on the step. *)
Theorem onboarding_one_interval_per_day (user : uuid)
    (edits : list Edit) :
  let w := atStep3 user edits in
  let w' := handleAvailabilitySubmit None w in
  step w' = 4
  /\ NoDup (map day_of_week (stored w'))
  /\ Forall (fun r => day_of_week r < 7 /\ user_id r = user) (stored w')
  /\ (forall i d,
        nth_error (availability w) i = Some d ->
        (enabled d = true
         <-> In (mkRow user i (startTime d) (endTime d)) (stored w')))
  /\ (forall message,
        stored w' <> [] ->
        let failed := handleAvailabilitySubmit (Some message) w in
        stored failed = [] /\ step failed = 3
        /\ error failed = Some message).
Proof.
  intros w w'.
  assert (Hlen : List.length (availability w) = 7).
  { subst w. unfold atStep3. cbn [availability].
    rewrite edits_keep_week. reflexivity. }
  set (enabledDays := filter (fun d => enabled (snd d))
                             (Calendar.indexed 0 (availability w))).
  assert (Hstored : stored w'
                    = map (fun d => mkRow user (fst d) (startTime (snd d))
                                          (endTime (snd d)))
                          enabledDays).
  { subst w'. unfold handleAvailabilitySubmit. fold enabledDays.
    destruct enabledDays as [|d0 r]; reflexivity. }
  assert (Hdays : map day_of_week (stored w') = map fst enabledDays).
  { rewrite Hstored, map_map. reflexivity. }
  destruct (enabled_days_distinct (fun d => enabled (snd d))
              (availability w) 0) as [Hnd Hall].
  fold enabledDays in Hnd, Hall. rewrite Hlen in Hall.
  split; [|split; [|split; [|split]]].
  - subst w'. unfold handleAvailabilitySubmit.
    destruct (List.length _ =? 0); reflexivity.
  - rewrite Hdays. exact Hnd.
  - rewrite Hstored. rewrite Forall_forall. intros r Hr.
    apply in_map_iff in Hr. destruct Hr as [d [Hr Hd]]. subst r.
    cbn [day_of_week user_id]. split; [|reflexivity].
    rewrite Forall_forall in Hall.
    assert (Hin : In (fst d) (map fst enabledDays)) by (apply in_map, Hd).
    specialize (Hall _ Hin). lia.
  - intros i d Hd. rewrite Hstored. split.
    + intros He. apply in_map_iff. exists (i, d). split; [reflexivity|].
      apply filter_In. split; [|exact He].
      apply (indexed_has _ 0 _ Hd).
    + intros Hin. apply in_map_iff in Hin.
      destruct Hin as [[j d'] [Heq Hin]]. cbn [fst snd] in Heq.
      apply filter_In in Hin. destruct Hin as [Hin He]. cbn [snd] in He.
      apply RangeFacts.indexed_In in Hin. destruct Hin as [_ Hn].
      rewrite Nat.sub_0_r in Hn. inversion Heq; subst j.
      rewrite Hd in Hn. inversion Hn; subst d'. exact He.
  - intros message Hne failed. subst failed.
    unfold handleAvailabilitySubmit. fold enabledDays.
    destruct enabledDays as [|d0 r] eqn:E.
    + exfalso. apply Hne. rewrite Hstored. reflexivity.
    + repeat split.
Qed.

Lemma onboarding_one_interval_per_day_witness :
  let w := atStep3 7 [ToggleDay 0; UpdateTime 3 endTimeField "21:00";
                      ToggleDay 6; ToggleDay 0] in
  map (fun r => (day_of_week r, end_time r))
      (stored (handleAvailabilitySubmit None w))
  = [(0, "22:00"); (1, "20:00"); (2, "20:00"); (3, "21:00");
     (4, "20:00"); (5, "20:00")]%string
  /\ NoDup (map day_of_week (stored (handleAvailabilitySubmit None w))).
Proof.
  intros w. split; [reflexivity|].
  destruct (onboarding_one_interval_per_day 7
              [ToggleDay 0; UpdateTime 3 endTimeField "21:00";
               ToggleDay 6; ToggleDay 0]) as [_ [H _]].
  exact H.
Defined.

End OnboardingFacts.

(* ------------------------------------------------------------------ *)
(** ** Names shown with requests and hangs *)

Module NameFacts.
Import Dashboard.

Lemma find_by_id (g : Users.Row -> bool) (l : list Users.Row)
    (x : Users.Row) :
  NoDup (map Users.id l) -> In x l -> g x = true ->
  find (fun r => Users.id r =? Users.id x) (filter g l) = Some x.
Proof.
  induction l as [|y l IH]; intros Hnd Hx Hg; [contradiction|].
  simpl in Hnd. inversion Hnd as [|? ? Hnot Hnd']; subst.
  simpl. destruct Hx as [Hx|Hx].
  - subst y. rewrite Hg. simpl. rewrite Nat.eqb_refl. reflexivity.
  - destruct (g y); [|apply IH; assumption].
    simpl. destruct (Users.id y =? Users.id x) eqn:E.
    + apply Nat.eqb_eq in E. exfalso. apply Hnot. rewrite E.
      apply in_map, Hx.
    + apply IH; assumption.
Qed.




(** X23: an incoming friend request is listed with the first name and
    the username of the user who sent it, or with "Unknown" and "unknown"
    where these are empty. *)
Theorem friend_request_names_sender (prev : list Panels.FriendRequest)
    (b : Backend) (me : uuid) (r : Friends.Row) (x : Users.Row) :
  NoDup (map Users.id (users b)) ->
  In r (friends b) ->
  Friends.friend_user_id r = me ->
  Friends.status r = pending ->
  In x (users b) ->
  Users.id x = Friends.user_id r ->
  In (Panels.mkFriendRequest (Friends.id r) (Friends.user_id r)
        (Panels.orElse (Users.first_name x) "Unknown")
        (Panels.orElse (Users.username x) "unknown"))
     (Panels.fetchFriendRequests prev me me b).
Proof.
  intros Hnd Hr Hme Hst Hx Hid. unfold Panels.fetchFriendRequests.
  assert (Hin : In r (PgMore.pending_links_to me me b)).
  { unfold PgMore.pending_links_to, PgMore.visible_links.
    apply filter_In. split.
    - apply filter_In. split; [exact Hr|].
      apply PanelFacts.party_of_iff. right. exact Hme.
    - rewrite Hme, Nat.eqb_refl, Hst. reflexivity. }
  rewrite (PanelFacts.in_nonempty _ _ Hin).
  apply in_map_iff. exists r. split; [|exact Hin].
  unfold PgMore.users_in. rewrite <- Hid.
  rewrite (@find_by_id _ (users b) x Hnd Hx).
  - reflexivity.
  - apply existsb_exists. exists (Users.id x).
    split; [|apply Nat.eqb_refl]. rewrite Hid. apply in_map, Hin.
Qed.

Lemma friend_request_names_sender_witness :
  let nameless := Users.mkRow 3 "c@example.org" "" "cy" None in
  let b := mkBackend [Scenario.ann; Scenario.bob; nameless]
             [Friends.mkRow 10 3 1 pending] [] [] 100 in
  List.length (Panels.fetchFriendRequests [] 1 1 b) = 1
  /\ In (Panels.mkFriendRequest 10 3 "Unknown" "cy")
        (Panels.fetchFriendRequests [] 1 1 b).
Proof.
  intros nameless b. split; [reflexivity|].
  apply (@friend_request_names_sender [] b 1
           (Friends.mkRow 10 3 1 pending) nameless).
  - vm_compute. repeat constructor; simpl; intuition discriminate.
  - left. reflexivity.
  - reflexivity.
  - reflexivity.
  - right. right. left. reflexivity.
  - reflexivity.
Defined.

End NameFacts.
